(** * Propertius: the conversation turn controller of PropertyManagerChat.tsx

    A shallow embedding of [src/components/PropertyManagerChat.tsx]:
    - JavaScript strings as sequences of UTF-16 code units, with
      [String.prototype.trim], [includes], [substring(0, n)];
    - [processTextWithCitations] (lines 80-98);
    - the async event handlers [handleSendMessage] (212-467),
      [handleResetChat] (476-496) and [initializeContinuousImprovement]
      (507-520) as programs over the React component state, in which every
      [await] of a collaborator is a visible suspension point;
    - a program logic for these programs, and with it what a send may do to
      the store and ask of its collaborators;
    - [handleQuickAction] (207-210), the rendering of a part (699-711),
      [initializeSession] (125-195) and the feedback dialog (523-568);
    - [processFileForAI], [handleStartSession], [handleSendMessage] and
      [handleStructuredExtraction] of the sibling component
      [src/components/PropertyManagementChat.tsx]. *)

From Stdlib Require Import ZArith NArith List String Ascii Lia Bool.
From Stdlib Require DecimalString.
From stdpp Require Import base gmap sets list.

Local Open Scope list_scope.

(** ** JavaScript strings *)

Module Js.

(** A JavaScript string is a sequence of 16-bit code units. *)
Definition jsstring := list N.

(** An ASCII literal of the source, as a string of code units. *)
Definition lit (s : String.string) : jsstring :=
  List.map N_of_ascii (list_ascii_of_string s).

(** ECMAScript WhiteSpace and LineTerminator code points: what
    [String.prototype.trim] strips from both ends. *)
Definition is_white_space (c : N) : bool :=
  ((c =? 0x09) || (c =? 0x0A) || (c =? 0x0B) || (c =? 0x0C) || (c =? 0x0D) ||
   (c =? 0x20) || (c =? 0xA0) || (c =? 0x1680) ||
   ((0x2000 <=? c) && (c <=? 0x200A)) ||
   (c =? 0x2028) || (c =? 0x2029) || (c =? 0x202F) || (c =? 0x205F) ||
   (c =? 0x3000) || (c =? 0xFEFF))%N.

Fixpoint trim_start (s : jsstring) : jsstring :=
  match s with
  | c :: r => if is_white_space c then trim_start r else s
  | [] => []
  end.

Definition trim_end (s : jsstring) : jsstring := rev (trim_start (rev s)).

(** [s.trim()] *)
Definition trim (s : jsstring) : jsstring := trim_end (trim_start s).

(** A string is truthy when it is not empty. *)
Definition truthy (s : jsstring) : bool :=
  match s with [] => false | _ :: _ => true end.

(** An optional string property ([undefined] when absent) is truthy when it
    is present and not empty. *)
Definition truthy_opt (o : option jsstring) : bool :=
  match o with Some s => truthy s | None => false end.

(** [a || b] on an optional string and a string. *)
Definition or_else (o : option jsstring) (d : jsstring) : jsstring :=
  match o with Some (c :: r) => c :: r | _ => d end.

Definition eqb (a b : jsstring) : bool := bool_decide (a = b).

Fixpoint starts_with (p s : jsstring) : bool :=
  match p, s with
  | [], _ => true
  | a :: p', b :: s' => (a =? b)%N && starts_with p' s'
  | _ :: _, [] => false
  end.

(** [s.includes(p)] *)
Fixpoint includes (s p : jsstring) : bool :=
  starts_with p s ||
  match s with
  | [] => false
  | _ :: r => includes r p
  end.

(** [s.substring(0, n)] *)
Definition substring0 (n : nat) (s : jsstring) : jsstring := take n s.

(** [s.split(sep)[0]] for a one-unit separator: the units before the first
    occurrence of [sep]. *)
Fixpoint split_head (sep : N) (s : jsstring) : jsstring :=
  match s with
  | [] => []
  | c :: r => if (c =? sep)%N then [] else c :: split_head sep r
  end.

(** Number-to-string of a non-negative integer, in decimal. *)
Definition of_N (n : N) : jsstring :=
  lit (DecimalString.NilZero.string_of_uint (N.to_uint n)).

End Js.

Import Js.

(** ** Citations ([processTextWithCitations], lines 65-98) *)

Record CitationSource := {
  startIndex : option Z;
  endIndex : option Z;
  uri : option jsstring;
  title : option jsstring
}.

(** [source.title && source.title.trim() !== '' ? source.title : source.uri],
    evaluated where [source.uri] is known to be [u]. *)
Definition linkDescription (source : CitationSource) (u : jsstring) : jsstring :=
  match title source with
  | Some t => if truthy t && truthy (trim t) then t else u
  | None => u
  end.

(** The template literal of line 90. *)
Definition source_line (sourceNumber : N) (description u : jsstring) : jsstring :=
  lit "[Source " ++ of_N sourceNumber ++ lit ": " ++ description ++
  lit "](" ++ u ++ lit ")".

(** The locals the [forEach] callback mutates. *)
Record CitationLoop := {
  formattedSources : list jsstring;
  uniqueUris : gset jsstring;
  sourceNumber : N
}.

(** One call of the [forEach] callback (lines 88-93). *)
Definition citation_step (st : CitationLoop) (source : CitationSource) : CitationLoop :=
  match uri source with
  | Some u =>
      if truthy u && negb (bool_decide (u ∈ uniqueUris st)) then
        {| formattedSources :=
             formattedSources st ++
             [source_line (sourceNumber st) (linkDescription source u) u];
           uniqueUris := {[u]} ∪ uniqueUris st;
           sourceNumber := N.succ (sourceNumber st) |}
      else st
  | None => st
  end.

Record Processed := {
  originalText : jsstring;
  processed_formattedSources : list jsstring
}.

Definition processTextWithCitations
    (text : jsstring) (citationSources : option (list CitationSource)) : Processed :=
  {| originalText := text;
     processed_formattedSources :=
       match citationSources with
       | Some (s :: l) =>
           formattedSources
             (fold_left citation_step (s :: l)
                {| formattedSources := []; uniqueUris := ∅; sourceNumber := 1 |})
       | _ => []
       end |}.

(** A source the loop has not seen yet and that carries a URI. *)
Definition fresh_source (seen : gset jsstring) (t : CitationSource) : bool :=
  match uri t with
  | Some u => truthy u && negb (bool_decide (u ∈ seen))
  | None => false
  end.

(** What the description of a citation list says, written independently of
    the loop: sources that carry a URI, the first occurrence of each URI
    kept, in order. *)
Definition has_uri (source : CitationSource) : bool := truthy_opt (uri source).

Fixpoint dedupe_by_uri (l : list CitationSource) : list CitationSource :=
  match l with
  | [] => []
  | s :: r =>
      s :: List.filter (fun t => negb (bool_decide (uri t = uri s))) (dedupe_by_uri r)
  end.

(** The label of a source: its title when present and not blank, its URI
    otherwise. *)
Definition source_label (source : CitationSource) : jsstring :=
  match title source with
  | Some t => if truthy (trim t) then t else or_else (uri source) []
  | None => or_else (uri source) []
  end.

(** The rendered entry number [n] for a source. *)
Definition source_entry (n : nat) (source : CitationSource) : jsstring :=
  source_line (N.of_nat (S n)) (source_label source) (or_else (uri source) []).

(** ** The data model (lines 27-78) *)

Inductive Role := role_user | role_model.

(** A structured argument mapping: just the fields that are present. *)
Definition Args := list (jsstring * jsstring).

(** A record of the ERP store, opaque to the controller. *)
Definition ERPRecord := list (jsstring * jsstring).

Record FunctionCall := { fc_name : jsstring; fc_args : Args }.

Record SearchResult := {
  records : list ERPRecord;
  totalCount : Z;
  processingTimeMs : Z
}.

(** The payload of the synthetic function-result part (lines 350-358). *)
Record FunctionResponse := {
  fr_name : jsstring;
  fr_instruction : jsstring;
  fr_records : list ERPRecord;
  fr_totalCount : Z;
  fr_processingTimeMs : Z
}.

(** A [Part] of the SDK: an object whose optional properties the code
    probes ([part.functionCall], [parts?.[0]?.text]). *)
Record Part := {
  text : option jsstring;
  functionCall : option FunctionCall;
  functionResponse : option FunctionResponse
}.

Definition text_part (s : jsstring) : Part :=
  {| text := Some s; functionCall := None; functionResponse := None |}.

Record CitationMetadata := { citationSources : option (list CitationSource) }.

Record Message := {
  role : Role;
  parts : list Part;
  citationMetadata : option CitationMetadata
}.

(** A turn as sent to the model: [{ role, parts }]. *)
Record Content := { content_role : Role; content_parts : list Part }.

(** What the model returns (spec section 6; the SDK's types). *)
Record CandidateContent := { candidate_parts : option (list Part) }.

Record Candidate := {
  content : option CandidateContent;
  candidate_citationMetadata : option CitationMetadata
}.

Record Response := { candidates : option (list Candidate) }.

Record GenerateContentResult := { response : option Response }.

(** The function declaration of lines 27-55, by what the controller needs
    of it: its name and the names of its parameters. *)
Record FunctionDeclaration := { fd_name : jsstring; fd_parameters : list jsstring }.

Definition searchERPFunction : FunctionDeclaration :=
  {| fd_name := lit "search_purchase_orders";
     fd_parameters :=
       [lit "supplierName"; lit "productDescription"; lit "dateFrom";
        lit "dateTo"; lit "buyerName"] |}.

(** The object [genAI.getGenerativeModel] returns: the configuration every
    [generateContent] on it is issued with. *)
Record GenerativeModel := {
  model_name : jsstring;
  temperature_tenths : Z;
  tools : list FunctionDeclaration
}.

Record ChatSession := { fullContext : jsstring; documentsUsed : list jsstring }.

Record User := { uid : jsstring; email : option jsstring }.

(** The entries written to the telemetry sink. *)
Inductive TechnicalLog :=
| user_message (userMessage : jsstring)
| function_call_triggered (userMessage functionName : jsstring)
    (functionInputs : Args) (aiRequestId : jsstring)
| function_call_success (functionName : jsstring) (functionInputs : Args)
    (totalRecords processingTime : Z) (hasData : bool)
    (recordsPreview : list ERPRecord) (aiRequestId : jsstring)
| function_call_error (functionName : jsstring) (functionInputs : Args)
    (errorMessage aiRequestId : jsstring)
| ai_response (aiResponse : jsstring) (aiRequestId : option jsstring).

(** A thrown value: an [Error] instance (with its name and message) or
    anything else. *)
Inductive Thrown :=
| ErrorObject (name message : jsstring)
| ThrownValue (v : jsstring).

Definition new_Error (message : jsstring) : Thrown := ErrorObject (lit "Error") message.
Definition ReferenceError (ident : String.string) : Thrown :=
  ErrorObject (lit "ReferenceError") (lit ident ++ lit " is not defined").
Definition TypeError (message : String.string) : Thrown :=
  ErrorObject (lit "TypeError") (lit message).

(** [e instanceof Error ? e.message : 'Unknown error'] *)
Definition error_message (e : Thrown) : jsstring :=
  match e with
  | ErrorObject _ m => m
  | ThrownValue _ => lit "Unknown error"
  end.

(** ** The component state

    One render of the component: the values of its [useState] cells and
    hooks.  The store holds the current one; a handler closes over the one
    it was created in. *)
Record Render := {
  messages : list Message;
  input : jsstring;
  isLoading : bool;
  sessionActive : bool;
  chatSession : option ChatSession;
  sessionInitializing : bool;
  continuousImprovementSessionId : option jsstring;
  chatSessionKey : jsstring;
  currentPromptKey : option jsstring;
  user : option User;
  currentWorkspace : jsstring
}.

Definition with_messages (f : list Message -> list Message) (r : Render) : Render :=
  {| messages := f (messages r); input := input r; isLoading := isLoading r;
     sessionActive := sessionActive r; chatSession := chatSession r;
     sessionInitializing := sessionInitializing r;
     continuousImprovementSessionId := continuousImprovementSessionId r;
     chatSessionKey := chatSessionKey r; currentPromptKey := currentPromptKey r;
     user := user r; currentWorkspace := currentWorkspace r |}.

Definition with_input (v : jsstring) (r : Render) : Render :=
  {| messages := messages r; input := v; isLoading := isLoading r;
     sessionActive := sessionActive r; chatSession := chatSession r;
     sessionInitializing := sessionInitializing r;
     continuousImprovementSessionId := continuousImprovementSessionId r;
     chatSessionKey := chatSessionKey r; currentPromptKey := currentPromptKey r;
     user := user r; currentWorkspace := currentWorkspace r |}.

Definition with_isLoading (v : bool) (r : Render) : Render :=
  {| messages := messages r; input := input r; isLoading := v;
     sessionActive := sessionActive r; chatSession := chatSession r;
     sessionInitializing := sessionInitializing r;
     continuousImprovementSessionId := continuousImprovementSessionId r;
     chatSessionKey := chatSessionKey r; currentPromptKey := currentPromptKey r;
     user := user r; currentWorkspace := currentWorkspace r |}.

Definition with_sessionActive (v : bool) (r : Render) : Render :=
  {| messages := messages r; input := input r; isLoading := isLoading r;
     sessionActive := v; chatSession := chatSession r;
     sessionInitializing := sessionInitializing r;
     continuousImprovementSessionId := continuousImprovementSessionId r;
     chatSessionKey := chatSessionKey r; currentPromptKey := currentPromptKey r;
     user := user r; currentWorkspace := currentWorkspace r |}.

Definition with_chatSession (v : option ChatSession) (r : Render) : Render :=
  {| messages := messages r; input := input r; isLoading := isLoading r;
     sessionActive := sessionActive r; chatSession := v;
     sessionInitializing := sessionInitializing r;
     continuousImprovementSessionId := continuousImprovementSessionId r;
     chatSessionKey := chatSessionKey r; currentPromptKey := currentPromptKey r;
     user := user r; currentWorkspace := currentWorkspace r |}.

Definition with_sessionInitializing (v : bool) (r : Render) : Render :=
  {| messages := messages r; input := input r; isLoading := isLoading r;
     sessionActive := sessionActive r; chatSession := chatSession r;
     sessionInitializing := v;
     continuousImprovementSessionId := continuousImprovementSessionId r;
     chatSessionKey := chatSessionKey r; currentPromptKey := currentPromptKey r;
     user := user r; currentWorkspace := currentWorkspace r |}.

Definition with_continuousImprovementSessionId (v : option jsstring) (r : Render) : Render :=
  {| messages := messages r; input := input r; isLoading := isLoading r;
     sessionActive := sessionActive r; chatSession := chatSession r;
     sessionInitializing := sessionInitializing r;
     continuousImprovementSessionId := v;
     chatSessionKey := chatSessionKey r; currentPromptKey := currentPromptKey r;
     user := user r; currentWorkspace := currentWorkspace r |}.

(** ** Handlers as programs

    An async handler is a tree of effects: updates of the store through the
    [useState] setters, console output, and awaited calls of the
    collaborators.  A rejected promise is a [Thrown] value on the left. *)

Inductive Ext : Type -> Type :=
| createContinuousImprovementSession
    (promptKey chatKey userId workspace : jsstring) : Ext (Thrown + jsstring)
| addTechnicalLog (sessionId : jsstring) (entry : TechnicalLog) : Ext (Thrown + unit)
| loadLatestPrompt (userId workspace : jsstring) : Ext (Thrown + option jsstring)
| generateContent (model : GenerativeModel) (contents : list Content) :
    Ext (Thrown + GenerateContentResult)
| searchRecords (userId : jsstring) (criteria : Args) : Ext (Thrown + SearchResult)
| initializeChatSession (userId workspace : jsstring) : Ext (Thrown + ChatSession).

Inductive ConsoleLevel := console_log | console_error | toast_success.

Inductive Eff : Type -> Type :=
| Await {X} (c : Ext X) : Eff X
| SetState (f : Render -> Render) : Eff unit
| Console (level : ConsoleLevel) (label : jsstring) : Eff unit
| MathRandomId : Eff jsstring.

Inductive Prog (A : Type) : Type :=
| Ret (a : A)
| Throw (e : Thrown)
| Vis {X : Type} (e : Eff X) (k : X -> Prog A).

Arguments Ret {A} a.
Arguments Throw {A} e.
Arguments Vis {A X} e k.

Fixpoint bind {A B} (p : Prog A) (f : A -> Prog B) : Prog B :=
  match p with
  | Ret a => f a
  | Throw e => Throw e
  | Vis e k => Vis e (fun x => bind (k x) f)
  end.

(** [try { p } catch (e) { h e }] *)
Fixpoint try_catch {A} (p : Prog A) (h : Thrown -> Prog A) : Prog A :=
  match p with
  | Ret a => Ret a
  | Throw e => h e
  | Vis e k => Vis e (fun x => try_catch (k x) h)
  end.

(** [try { p } finally { fin }] *)
Fixpoint try_finally {A} (p : Prog A) (fin : Prog unit) : Prog A :=
  match p with
  | Ret a => bind fin (fun _ => Ret a)
  | Throw e => bind fin (fun _ => Throw e)
  | Vis e k => Vis e (fun x => try_finally (k x) fin)
  end.

Declare Scope prog_scope.
Delimit Scope prog_scope with prog.
Notation "'let*' x ':=' p 'in' q" := (bind p (fun x => q))
  (at level 10, x binder, p at level 100, q at level 200) : prog_scope.
Notation "p ';;;' q" := (bind p (fun _ => q))
  (at level 100, q at level 200, right associativity) : prog_scope.
Local Open Scope prog_scope.

Definition perform {X} (e : Eff X) : Prog X := Vis e Ret.

(** [await c]: the resolved value, or the rejection thrown at the await. *)
Definition await {X} (c : Ext (Thrown + X)) : Prog X :=
  Vis (Await c) (fun r => match r with inl e => Throw e | inr x => Ret x end).

Definition setMessages (f : list Message -> list Message) : Prog unit :=
  perform (SetState (with_messages f)).
Definition setInput (v : jsstring) : Prog unit := perform (SetState (with_input v)).
Definition setIsLoading (v : bool) : Prog unit := perform (SetState (with_isLoading v)).
Definition setSessionActive (v : bool) : Prog unit :=
  perform (SetState (with_sessionActive v)).
Definition setChatSession (v : option ChatSession) : Prog unit :=
  perform (SetState (with_chatSession v)).
Definition setSessionInitializing (v : bool) : Prog unit :=
  perform (SetState (with_sessionInitializing v)).
Definition setContinuousImprovementSessionId (v : option jsstring) : Prog unit :=
  perform (SetState (with_continuousImprovementSessionId v)).
Definition console (level : ConsoleLevel) (label : String.string) : Prog unit :=
  perform (Console level (lit label)).

(** [if (c) p] *)
Definition when (c : bool) (p : Prog unit) : Prog unit := if c then p else Ret tt.

(** ** Running a handler

    The collaborators answer each request; the run records the requests in
    order. *)

(** A request to a collaborator, and a request with the answer it got. *)
Inductive Request :=
| Req (X : Type) (c : Ext X).
Arguments Req {X} c.

Inductive Call :=
| Called (X : Type) (c : Ext X) (r : X).
Arguments Called {X} c r.

Record Collaborators := {
  respond : forall X, Ext X -> X;
  random_id : jsstring
}.
Arguments respond _ {X} _.

Record World := {
  store : Render;
  calls : list Call;
  console_output : list (ConsoleLevel * jsstring)
}.

Definition record_call {X} (c : Ext X) (r : X) (w : World) : World :=
  {| store := store w; calls := calls w ++ [Called c r];
     console_output := console_output w |}.

Definition update_store (f : Render -> Render) (w : World) : World :=
  {| store := f (store w); calls := calls w; console_output := console_output w |}.

Definition record_console (level : ConsoleLevel) (label : jsstring) (w : World) : World :=
  {| store := store w; calls := calls w;
     console_output := console_output w ++ [(level, label)] |}.

(** The world a handler starts in: the current store, nothing called yet. *)
Definition initial (s : Render) : World :=
  {| store := s; calls := []; console_output := [] |}.

Inductive Outcome (A : Type) :=
| Returned (a : A)
| Rejected (e : Thrown).
Arguments Returned {A} a.
Arguments Rejected {A} e.

(** The handler runs alone: every awaited call is answered before anything
    else touches the store. *)
Fixpoint exec {A} (o : Collaborators) (p : Prog A) (w : World) : Outcome A * World :=
  match p with
  | Ret a => (Returned a, w)
  | Throw e => (Rejected e, w)
  | Vis e k =>
      match e in Eff X return (X -> Prog A) -> Outcome A * World with
      | Await c => fun k => exec o (k (respond o c)) (record_call c (respond o c) w)
      | SetState f => fun k => exec o (k tt) (update_store f w)
      | Console level label => fun k => exec o (k tt) (record_console level label w)
      | MathRandomId => fun k => exec o (k (random_id o)) w
      end k
  end.

(** While the handler is suspended at an awaited call, another handler of
    the component may run (the user clicks a button or presses Enter):
    [other c r] is the program that runs to completion while request [c] is
    pending, created in the render [r] that is current at that moment. *)
Fixpoint exec_interleaved {A} (o : Collaborators) (other : Request -> Render -> Prog unit)
    (p : Prog A) (w : World) : Outcome A * World :=
  match p with
  | Ret a => (Returned a, w)
  | Throw e => (Rejected e, w)
  | Vis e k =>
      match e in Eff X return (X -> Prog A) -> Outcome A * World with
      | Await c => fun k =>
          exec_interleaved o other (k (respond o c))
            (record_call c (respond o c) (snd (exec o (other (Req c) (store w)) w)))
      | SetState f => fun k => exec_interleaved o other (k tt) (update_store f w)
      | Console level label => fun k =>
          exec_interleaved o other (k tt) (record_console level label w)
      | MathRandomId => fun k => exec_interleaved o other (k (random_id o)) w
      end k
  end.

(** The handler up to its first suspension: what has happened to the store
    when control returns to the event loop, and the request it waits for. *)
Inductive Suspension :=
| Finished (rejected : option Thrown)
| Pending (c : Request).

Fixpoint until_await {A} (o : Collaborators) (p : Prog A) (w : World) : Suspension * World :=
  match p with
  | Ret a => (Finished None, w)
  | Throw e => (Finished (Some e), w)
  | Vis e k =>
      match e in Eff X return (X -> Prog A) -> Suspension * World with
      | Await c => fun _ => (Pending (Req c), w)
      | SetState f => fun k => until_await o (k tt) (update_store f w)
      | Console level label => fun k => until_await o (k tt) (record_console level label w)
      | MathRandomId => fun k => until_await o (k (random_id o)) w
      end k
  end.

(** ** Reading the record of a run *)

Definition is_model_call (c : Call) : bool :=
  match c with Called (generateContent _ _) _ => true | _ => false end.

Definition is_search_call (c : Call) : bool :=
  match c with Called (searchRecords _ _) _ => true | _ => false end.

(** The model invocations and the searches of a run, in order. *)
Definition model_trace (w : World) : list Call := List.filter is_model_call (calls w).
Definition search_trace (w : World) : list Call := List.filter is_search_call (calls w).

Definition model_calls (w : World) : nat := length (model_trace w).
Definition search_calls (w : World) : nat := length (search_trace w).

(** What a run called after its [n]-th model invocation. *)
Fixpoint after_model_calls (n : nat) (cs : list Call) : list Call :=
  match n with
  | O => cs
  | S n' =>
      match cs with
      | [] => []
      | c :: rest =>
          if is_model_call c then after_model_calls n' rest
          else after_model_calls n rest
      end
  end.

(** The configuration a model invocation was issued with. *)
Definition call_model (c : Call) : option GenerativeModel :=
  match c with Called (generateContent m _) _ => Some m | _ => None end.

(** The turns a model invocation was issued with. *)
Definition call_contents (c : Call) : option (list Content) :=
  match c with Called (generateContent _ cs) _ => Some cs | _ => None end.

(** The answer to a model invocation. *)
Definition model_answer (c : Call) : option (Thrown + GenerateContentResult) :=
  match c with
  | Called c r =>
      match c in Ext X return X -> option (Thrown + GenerateContentResult) with
      | generateContent _ _ => fun r => Some r
      | _ => fun _ => None
      end r
  end.

(** The answer to a search. *)
Definition search_answer (c : Call) : option (Thrown + SearchResult) :=
  match c with
  | Called c r =>
      match c in Ext X return X -> option (Thrown + SearchResult) with
      | searchRecords _ _ => fun r => Some r
      | _ => fun _ => None
      end r
  end.

(** The entry and the answer of a telemetry write. *)
Definition telemetry_write (c : Call) : option (TechnicalLog * (Thrown + unit)) :=
  match c with
  | Called c r =>
      match c in Ext X return X -> option (TechnicalLog * (Thrown + unit)) with
      | addTechnicalLog _ entry => fun r => Some (entry, r)
      | _ => fun _ => None
      end r
  end.

(** ** The handlers *)

Section Controller.

(** [import.meta.env.VITE_GEMINI_MODEL || 'gemini-2.5-pro-preview-03-25']
    (line 24): fixed when the module loads. *)
Variable geminiModel : jsstring.

(** Lexical scope.  Where the source names an identifier that no enclosing
    block declares, evaluating it throws a [ReferenceError]; a block's scope
    lists the string bindings that are visible in it. *)
Definition Scope := list (String.string * jsstring).

Fixpoint resolve (scope : Scope) (ident : String.string) : Prog jsstring :=
  match scope with
  | [] => Throw (ReferenceError ident)
  | (x, v) :: rest => if String.eqb x ident then Ret v else resolve rest ident
  end.

(** [initializeContinuousImprovement] (lines 507-520), in render [cl]. *)
Definition initializeContinuousImprovement (cl : Render) : Prog unit :=
  match user cl with
  | None => Ret tt
  | Some u =>
      if truthy_opt (continuousImprovementSessionId cl) then Ret tt
      else
        try_catch
          (let promptKey :=
             or_else (currentPromptKey cl)
               (or_else (option_map (split_head 64) (email u)) (lit "user") ++ lit "_v1") in
           let* sessionId :=
             await (createContinuousImprovementSession promptKey (chatSessionKey cl)
                      (uid u) (currentWorkspace cl)) in
           setContinuousImprovementSessionId (Some sessionId) ;;;
           console console_log "Continuous improvement session initialized:")
          (fun error =>
             console console_error "Failed to initialize continuous improvement session:")
  end.

(** [messageText || input] (line 213). *)
Definition textToSend_of (cl : Render) (messageText : option jsstring) : jsstring :=
  or_else messageText (input cl).

(** The guard of line 214: [!textToSend.trim() || isLoading]. *)
Definition rejects (cl : Render) (messageText : option jsstring) : bool :=
  negb (truthy (trim (textToSend_of cl messageText))) || isLoading cl.

Definition userMessage_of (textToSend : jsstring) : Message :=
  {| role := role_user; parts := [text_part textToSend]; citationMetadata := None |}.

Definition model_message (ps : list Part) (cm : option CitationMetadata) : Message :=
  {| role := role_model; parts := ps; citationMetadata := cm |}.

(** [if (continuousImprovementSessionId) await addTechnicalLog(...)]. *)
Definition log_event (cl : Render) (entry : TechnicalLog) : Prog unit :=
  match continuousImprovementSessionId cl with
  | Some sid => if truthy sid then await (addTechnicalLog sid entry) else Ret tt
  | None => Ret tt
  end.

(** Lines 236-258: the system prompt of the turn. *)
Definition load_systemPrompt (cl : Render) : Prog jsstring :=
  match chatSession cl with
  | Some session => Ret (fullContext session)
  | None =>
      let* systemPrompt :=
        match user cl with
        | Some u =>
            if truthy (uid u) then
              try_catch
                (let* latestPrompt := await (loadLatestPrompt (uid u) (currentWorkspace cl)) in
                 Ret (or_else latestPrompt []))
                (fun error =>
                   console console_error "Error loading latest prompt:" ;;; Ret [])
            else Ret []
        | None => Ret []
        end in
      if truthy systemPrompt then Ret systemPrompt
      else Throw (new_Error (lit
        "No system prompt configured. Please visit Admin panel to set up your prompt."))
  end.

(** Lines 260-266. *)
Definition the_model : GenerativeModel :=
  {| model_name := geminiModel; temperature_tenths := 2; tools := [searchERPFunction] |}.

(** Line 268. *)
Definition history_of (cl : Render) : list Content :=
  List.map (fun msg => {| content_role := role msg; content_parts := parts msg |})
    (messages cl).

(** Lines 270-274. *)
Definition first_contents (cl : Render) (systemPrompt textToSend : jsstring) : list Content :=
  {| content_role := role_user; content_parts := [text_part systemPrompt] |} ::
  history_of cl ++
  [{| content_role := role_user; content_parts := [text_part textToSend] |}].

(** Lines 347-360. *)
Definition functionResponse_of (functionName : jsstring) (searchResult : SearchResult) : Content :=
  {| content_role := role_model;
     content_parts :=
       [{| text := None; functionCall := None;
           functionResponse := Some
             {| fr_name := functionName;
                fr_instruction := lit
                  "IMPORTANT: Present this data to the user in a clear, formatted way. Show specific details from each record including supplier names, products, prices, and dates. Do not just say you are 'checking' - show the actual results found.";
                fr_records := records searchResult;
                fr_totalCount := totalCount searchResult;
                fr_processingTimeMs := processingTimeMs searchResult |} |}] |}.

(** Lines 365-371. *)
Definition followUp_contents (cl : Render) (systemPrompt textToSend : jsstring)
    (part : Part) (functionResponse : Content) : list Content :=
  {| content_role := role_user; content_parts := [text_part systemPrompt] |} ::
  history_of cl ++
  [{| content_role := role_user; content_parts := [text_part textToSend] |};
   {| content_role := role_model; content_parts := [part] |};
   functionResponse].

(** [x?.parts?.[0]?.text || "No response text"] (lines 376, 442). *)
Definition aiResponseText_of (c : option CandidateContent) : jsstring :=
  match c with
  | Some {| candidate_parts := Some (p :: _) |} => or_else (text p) (lit "No response text")
  | _ => lit "No response text"
  end.

(** [followUpResponse?.candidates?.[0]?.content] (line 375). *)
Definition first_content (r : option Response) : option CandidateContent :=
  match r with
  | Some {| candidates := Some (c :: _) |} => content c
  | _ => None
  end.

(** [content?.parts || [{ text: fallback }]]. *)
Definition parts_or (c : option CandidateContent) (fallback : String.string) : list Part :=
  match c with
  | Some {| candidate_parts := Some ps |} => ps
  | _ => [text_part (lit fallback)]
  end.

(** The [try] block of lines 290-401. *)
Definition search_try (cl : Render) (systemPrompt textToSend : jsstring)
    (part : Part) (functionName : jsstring) (functionArgs : Args) : Prog unit :=
  let* aiRequestId := perform MathRandomId in
  console console_log "AI FUNCTION CALL" ;;;
  log_event cl (function_call_triggered textToSend functionName functionArgs aiRequestId) ;;;
  let* userId :=
    match user cl with
    | Some u => Ret (uid u)
    | None => Throw (TypeError "Cannot read properties of null (reading 'uid')")
    end in
  let* searchResult := await (searchRecords userId functionArgs) in
  console console_log "AI-ERP INTEGRATION RESULT" ;;;
  log_event cl
    (function_call_success functionName functionArgs
       (totalCount searchResult) (processingTimeMs searchResult)
       (negb (bool_decide (records searchResult = [])))
       (take 3 (records searchResult)) aiRequestId) ;;;
  let functionResponse := functionResponse_of functionName searchResult in
  let* followUpResult :=
    await (generateContent the_model
             (followUp_contents cl systemPrompt textToSend part functionResponse)) in
  let followUpResponse := response followUpResult in
  match first_content followUpResponse with
  | Some c =>
      let aiResponseText := aiResponseText_of (Some c) in
      console console_log "AI FINAL RESPONSE" ;;;
      log_event cl (ai_response (substring0 500 aiResponseText) (Some aiRequestId)) ;;;
      setMessages (fun prev => prev ++
        [model_message
           (parts_or (Some c) "I executed the search but couldn't format the response.")
           None])
  | None => Ret tt
  end.

(** The bindings visible in the [catch] block of lines 402-430.
    [aiRequestId] is declared by [const] inside the [try] block (line 291),
    so it is not one of them. *)
Definition search_catch_scope (systemPrompt textToSend functionName : jsstring) : Scope :=
  [("geminiModel", geminiModel); ("textToSend", textToSend);
   ("systemPrompt", systemPrompt); ("functionName", functionName)]%string.

(** The [catch (functionError)] block of lines 402-430. *)
Definition search_catch (cl : Render) (systemPrompt textToSend functionName : jsstring)
    (functionArgs : Args) (functionError : Thrown) : Prog unit :=
  let scope := search_catch_scope systemPrompt textToSend functionName in
  let* aiRequestId := resolve scope "aiRequestId" in
  console console_log "AI FUNCTION CALL ERROR" ;;;
  log_event cl
    (function_call_error functionName functionArgs (error_message functionError)
       aiRequestId) ;;;
  console console_error "Function execution failed:" ;;;
  setMessages (fun prev => prev ++
    [model_message
       [text_part
          (lit "I tried to search your ERP data but encountered an error: " ++
           error_message functionError ++
           lit ". Please make sure you have uploaded your ERP data in the Admin panel.")]
       None]).

(** The loop of lines 284-433.  The result tells whether the function has
    returned from inside the loop. *)
Fixpoint scan_parts (cl : Render) (systemPrompt textToSend : jsstring)
    (ps : list Part) : Prog bool :=
  match ps with
  | [] => Ret false
  | part :: rest =>
      match functionCall part with
      | Some fc =>
          let functionName := fc_name fc in
          let functionArgs := fc_args fc in
          if eqb functionName (lit "search_purchase_orders") then
            try_catch
              (search_try cl systemPrompt textToSend part functionName functionArgs)
              (search_catch cl systemPrompt textToSend functionName functionArgs) ;;;
            Ret true
          else scan_parts cl systemPrompt textToSend rest
      | None => scan_parts cl systemPrompt textToSend rest
      end
  end.

(** Lines 436-454: the answer without a recognised function call. *)
Definition plain_answer (cl : Render) (candidate : Candidate) : Prog unit :=
  let processedCitationMetadata :=
    match candidate_citationMetadata candidate with
    | Some cm => match citationSources cm with Some _ => Some cm | None => None end
    | None => None
    end in
  let aiResponseText := aiResponseText_of (content candidate) in
  log_event cl (ai_response (substring0 500 aiResponseText) None) ;;;
  setMessages (fun prev => prev ++
    [model_message (parts_or (content candidate) "I couldn't generate a response.")
       processedCitationMetadata]).

(** Lines 277-457: what the first response leads to. *)
Definition on_result (cl : Render) (systemPrompt textToSend : jsstring)
    (result : GenerateContentResult) : Prog unit :=
  match response result with
  | Some {| candidates := Some (candidate :: _) |} =>
      let* returned :=
        match content candidate with
        | Some {| candidate_parts := Some ps |} => scan_parts cl systemPrompt textToSend ps
        | _ => Ret false
        end in
      if returned : bool then Ret tt else plain_answer cl candidate
  | _ => Throw (new_Error (lit "No response from AI model"))
  end.

(** The [try] block of lines 234-457. *)
Definition turn_try (cl : Render) (textToSend : jsstring) : Prog unit :=
  let* systemPrompt := load_systemPrompt cl in
  let* result :=
    await (generateContent the_model (first_contents cl systemPrompt textToSend)) in
  on_result cl systemPrompt textToSend result.

(** The [catch (error)] block of lines 458-463. *)
Definition generic_error_message : Message :=
  model_message [text_part (lit "Error processing your request. Please try again.")] None.

Definition turn_catch (error : Thrown) : Prog unit :=
  console console_error "Error sending message:" ;;;
  setMessages (fun prev => prev ++ [generic_error_message]).

(** Lines 216-232: what precedes the [try] block. *)
Definition send_prelude (cl : Render) (messageText : option jsstring) : Prog unit :=
  let textToSend := textToSend_of cl messageText in
  when (negb (truthy_opt (continuousImprovementSessionId cl)))
    (initializeContinuousImprovement cl) ;;;
  setMessages (fun prev => prev ++ [userMessage_of textToSend]) ;;;
  when (negb (truthy_opt messageText)) (setInput []) ;;;
  setIsLoading true ;;;
  log_event cl (user_message textToSend).

(** [handleSendMessage] (lines 212-467), in render [cl]. *)
Definition handleSendMessage (cl : Render) (messageText : option jsstring) : Prog unit :=
  let textToSend := textToSend_of cl messageText in
  if rejects cl messageText then Ret tt
  else
    send_prelude cl messageText ;;;
    try_finally
      (try_catch (turn_try cl textToSend) turn_catch)
      (setIsLoading false).

(** [handleResetChat] (lines 476-496), in render [cl]. *)
Definition handleResetChat (cl : Render) : Prog unit :=
  setMessages (fun _ => []) ;;;
  setSessionActive false ;;;
  setChatSession None ;;;
  setInput [] ;;;
  console toast_success "Chat reset successfully" ;;;
  match user cl with
  | Some u =>
      setSessionInitializing true ;;;
      try_finally
        (try_catch
           (let* session := await (initializeChatSession (uid u) (currentWorkspace cl)) in
            setChatSession (Some session) ;;;
            console toast_success "Session refreshed with latest knowledge base")
           (fun error => console console_error "Failed to refresh session:"))
        (setSessionInitializing false)
  | None => Ret tt
  end.

End Controller.

(** ** Reading a model answer *)

(** The part the loop of lines 284-433 stops at: the first part that
    carries a function call named [search_purchase_orders]. *)
Fixpoint recognized_call (ps : list Part) : option (Part * FunctionCall) :=
  match ps with
  | [] => None
  | part :: rest =>
      match functionCall part with
      | Some fc =>
          if eqb (fc_name fc) (lit "search_purchase_orders") then Some (part, fc)
          else recognized_call rest
      | None => recognized_call rest
      end
  end.

(** The first candidate of a result, when there is one (line 278). *)
Definition first_candidate (result : GenerateContentResult) : option Candidate :=
  match response result with
  | Some {| candidates := Some (candidate :: _) |} => Some candidate
  | _ => None
  end.

(** The parts of a candidate, when it has content with parts (line 283). *)
Definition parts_of_candidate (candidate : Candidate) : list Part :=
  match content candidate with
  | Some {| candidate_parts := Some ps |} => ps
  | _ => []
  end.

(** The answer carries a recognised function call. *)
Definition asks_for_search (a : Thrown + GenerateContentResult) : bool :=
  match a with
  | inr result =>
      match first_candidate result with
      | Some candidate =>
          match recognized_call (parts_of_candidate candidate) with
          | Some _ => true
          | None => false
          end
      | None => false
      end
  | inl _ => false
  end.

(** The first model invocation a run made, with its answer. *)
Definition first_model_answer (w : World) : option (Thrown + GenerateContentResult) :=
  match model_trace w with
  | c :: _ => model_answer c
  | [] => None
  end.

(** A recognised function call was returned to the run. *)
Definition recognized_returned (w : World) : bool :=
  match first_model_answer w with
  | Some a => asks_for_search a
  | None => false
  end.

(** The run made a search that resolved. *)
Definition search_succeeded (w : World) : bool :=
  existsb (fun c => match search_answer c with Some (inr _) => true | _ => false end)
    (search_trace w).

(** The run made a search that was rejected. *)
Definition search_failed (w : World) : bool :=
  existsb (fun c => match search_answer c with Some (inl _) => true | _ => false end)
    (search_trace w).

(** The answer to the second model invocation of a run. *)
Definition follow_up_answer (w : World) : option (Thrown + GenerateContentResult) :=
  match model_trace w with
  | _ :: c :: _ => model_answer c
  | _ => None
  end.

(** The [function_call_error] events a run wrote to the telemetry sink. *)
Definition is_error_event (c : Call) : bool :=
  match telemetry_write c with
  | Some (function_call_error _ _ _ _, _) => true
  | _ => false
  end.

Definition error_events (w : World) : list Call := List.filter is_error_event (calls w).

(** The text of a turn's first part. *)
Definition first_text (m : Message) : option jsstring :=
  match parts m with
  | p :: _ => text p
  | [] => None
  end.

(** The system prompt lines 236-258 arrive at, when they arrive at one. *)
Definition systemPrompt_of (o : Collaborators) (cl : Render) : option jsstring :=
  match chatSession cl with
  | Some session => Some (fullContext session)
  | None =>
      match user cl with
      | Some u =>
          if truthy (uid u) then
            match respond o (loadLatestPrompt (uid u) (currentWorkspace cl)) with
            | inr (Some (c :: r)) => Some (c :: r)
            | _ => None
            end
          else None
      | None => None
      end
  end.

(** The telemetry sink resolves every write. *)
Definition telemetry_resolves (o : Collaborators) : Prop :=
  forall sessionId entry, respond o (addTechnicalLog sessionId entry) = inr tt.

(** A reset that is clicked while a model invocation is pending. *)
Definition reset_during_model_call (pending : Request) (current : Render) : Prog unit :=
  match pending with
  | Req (generateContent _ _) => handleResetChat current
  | _ => Ret tt
  end.

(** A second message sent while a handler is suspended at an [await]: the
    [handleSendMessage] of the render that is current at that moment, with
    its own text, whatever the request the handler waits for. *)
Definition send_during_turn (gm : jsstring) (messageText : option jsstring)
    (pending : Request) (current : Render) : Prog unit :=
  handleSendMessage gm current messageText.

(** ** Scenarios

    Concrete renders and collaborators, for the runs evaluated below. *)

Module Scenario.

Definition gm : jsstring := lit "gemini-2.5-pro-preview-03-25".

Definition alice : User := {| uid := lit "u1"; email := Some (lit "alice@example.com") |}.

Definition session0 : ChatSession :=
  {| fullContext := lit "You are a procurement assistant."; documentsUsed := [lit "doc1"] |}.

Definition welcome : Message :=
  model_message [text_part (lit "Hello! How can I help you today?")] None.

(** A render with an initialised session and telemetry session. *)
Definition ready : Render :=
  {| messages := [welcome]; input := []; isLoading := false; sessionActive := true;
     chatSession := Some session0; sessionInitializing := false;
     continuousImprovementSessionId := Some (lit "ci1");
     chatSessionKey := lit "chat_1"; currentPromptKey := None;
     user := Some alice; currentWorkspace := lit "purchaser" |}.

(** The same render before any session context or prompt exists. *)
Definition unconfigured : Render := with_chatSession None ready.

Definition search_call_part (fname : String.string) : Part :=
  {| text := None;
     functionCall := Some {| fc_name := lit fname;
                             fc_args := [(lit "supplierName", lit "Huolto-Karhu")] |};
     functionResponse := None |}.

Definition answer (ps : list Part) : GenerateContentResult :=
  {| response := Some {| candidates := Some
       [{| content := Some {| candidate_parts := Some ps |};
           candidate_citationMetadata := None |}] |} |}.

Definition no_candidates : GenerateContentResult :=
  {| response := Some {| candidates := Some [] |} |}.

Definition three_records : SearchResult :=
  {| records := [[(lit "Supplier", lit "Huolto-Karhu")]; [(lit "Supplier", lit "Huolto-Karhu")];
                 [(lit "Supplier", lit "Huolto-Karhu")]];
     totalCount := 3; processingTimeMs := 12 |}.

(** Collaborators that answer the first model invocation with [first], the
    follow-up invocation (the one whose last turn has role model) with
    [second], the search with [search], and telemetry writes with [log]. *)
Definition scripted (first second : Thrown + GenerateContentResult)
    (search : Thrown + SearchResult) (log : TechnicalLog -> Thrown + unit)
    (prompt : option jsstring) : Collaborators :=
  {| respond := fun X c =>
       match c in Ext X return X with
       | createContinuousImprovementSession _ _ _ _ => inr (lit "ci2")
       | addTechnicalLog _ entry => log entry
       | loadLatestPrompt _ _ => inr prompt
       | generateContent _ cs =>
           match last cs with
           | Some {| content_role := role_model |} => second
           | _ => first
           end
       | searchRecords _ _ => search
       | initializeChatSession _ _ => inr session0
       end;
     random_id := lit "k3x9qz" |}.

Definition log_ok (entry : TechnicalLog) : Thrown + unit := inr tt.

Definition log_fails (entry : TechnicalLog) : Thrown + unit :=
  inl (new_Error (lit "permission-denied")).

(** A sink that fails on [ai_response] writes only. *)
Definition log_fails_on_ai_response (entry : TechnicalLog) : Thrown + unit :=
  match entry with
  | ai_response _ _ => inl (new_Error (lit "permission-denied"))
  | _ => inr tt
  end.

Definition plain_text : GenerateContentResult := answer [text_part (lit "We use three suppliers.")].

Definition asks_search : GenerateContentResult := answer [search_call_part "search_purchase_orders"].

Definition final_text : GenerateContentResult := answer [text_part (lit "Found 3 orders.")].

(** A result whose only candidate has no content. *)
Definition no_content : GenerateContentResult :=
  {| response := Some {| candidates := Some
       [{| content := None; candidate_citationMetadata := None |}] |} |}.

(** An answer with two function calls, the second one recognised. *)
Definition other_then_search : GenerateContentResult :=
  answer [search_call_part "get_weather"; search_call_part "search_purchase_orders"].

Definition erp_unavailable : Thrown := new_Error (lit "No ERP data found").

Definition question : jsstring := lit "Find Huolto-Karhu orders".

(** The turn [question] sent from [cl] with collaborators [o], run alone. *)
Definition turn (o : Collaborators) (cl : Render) : Outcome unit * World :=
  exec o (handleSendMessage gm cl (Some question)) (initial cl).

(** The same turn with a reset clicked while a model invocation is pending. *)
Definition raced_turn (o : Collaborators) (cl : Render) : Outcome unit * World :=
  exec_interleaved o reset_during_model_call
    (handleSendMessage gm cl (Some question)) (initial cl).

(** The text of the last turn of a history. *)
Definition last_text (ms : list Message) : option jsstring :=
  match last ms with
  | Some {| parts := p :: _ |} => text p
  | _ => None
  end.

End Scenario.

(** ** What a handler may do

    [obeys rid PU PR Q E p]: along every path of [p], whatever the
    collaborators answer, every store update satisfies [PU] and every
    request satisfies [PR]; a returned value satisfies [Q] and a value
    thrown out of [p] satisfies [E].  [rid] is what [Math.random] yields. *)

Definition request_of (c : Call) : Request :=
  match c with Called c _ => Req c end.

Inductive obeys (rid : jsstring) (PU : (Render -> Render) -> Prop) (PR : Request -> Prop)
    {A : Type} (Q : A -> Prop) (E : Thrown -> Prop) : Prog A -> Prop :=
| obeys_ret a : Q a -> obeys rid PU PR Q E (Ret a)
| obeys_throw e : E e -> obeys rid PU PR Q E (Throw e)
| obeys_await (X : Type) (c : Ext X) (k : X -> Prog A) :
    PR (Req c) -> (forall x, obeys rid PU PR Q E (k x)) ->
    obeys rid PU PR Q E (Vis (Await c) k)
| obeys_set f (k : unit -> Prog A) :
    PU f -> obeys rid PU PR Q E (k tt) -> obeys rid PU PR Q E (Vis (SetState f) k)
| obeys_console level label (k : unit -> Prog A) :
    obeys rid PU PR Q E (k tt) -> obeys rid PU PR Q E (Vis (Console level label) k)
| obeys_random (k : jsstring -> Prog A) :
    obeys rid PU PR Q E (k rid) -> obeys rid PU PR Q E (Vis MathRandomId k).

(** The store updates of a turn proper (lines 234-467): a model turn is
    appended, or the in-flight flag is set. *)
Inductive turn_update : (Render -> Render) -> Prop :=
| turn_appends (m : Message) :
    role m = role_model -> turn_update (with_messages (fun prev => prev ++ [m]))
| turn_sets_loading (b : bool) : turn_update (with_isLoading b).

(** The store updates of [handleSendMessage] called with [messageText]. *)
Inductive send_update (cl : Render) (messageText : option jsstring) :
    (Render -> Render) -> Prop :=
| send_in_turn f : turn_update f -> send_update cl messageText f
| send_appends_user :
    send_update cl messageText
      (with_messages (fun prev => prev ++ [userMessage_of (textToSend_of cl messageText)]))
| send_clears_input :
    truthy_opt messageText = false -> send_update cl messageText (with_input [])
| send_sets_session (sessionId : jsstring) :
    truthy_opt (continuousImprovementSessionId cl) = false ->
    send_update cl messageText (with_continuousImprovementSessionId (Some sessionId)).

(** The telemetry entries of a turn with text [t] and correlation id [rid]. *)
Definition logged (t rid : jsstring) (entry : TechnicalLog) : Prop :=
  match entry with
  | user_message userMessage => userMessage = t
  | function_call_triggered userMessage functionName _ aiRequestId =>
      userMessage = t /\ functionName = lit "search_purchase_orders" /\ aiRequestId = rid
  | function_call_success functionName _ _ _ _ recordsPreview aiRequestId =>
      functionName = lit "search_purchase_orders" /\
      (length recordsPreview <= 3)%nat /\ aiRequestId = rid
  | function_call_error _ _ _ _ => False
  | ai_response aiResponse aiRequestId =>
      (length aiResponse <= 500)%nat /\ (aiRequestId = None \/ aiRequestId = Some rid)
  end.

(** The system prompt a turn may use: the session context when the render
    has one, a non-empty saved prompt otherwise. *)
Definition prompt_of_render (cl : Render) (systemPrompt : jsstring) : Prop :=
  match chatSession cl with
  | Some session => systemPrompt = fullContext session
  | None => truthy systemPrompt = true
  end.

(** The two turns a follow-up invocation adds to the first one's contents:
    the model's function-call part and the function response. *)
Definition follow_up_turns (rest : list Content) : Prop :=
  exists part fc searchResult,
    functionCall part = Some fc /\ fc_name fc = lit "search_purchase_orders" /\
    rest = [{| content_role := role_model; content_parts := [part] |};
            functionResponse_of (lit "search_purchase_orders") searchResult].

(** The requests of [handleSendMessage] in render [cl] with text [t], with
    a system prompt that satisfies [P]. *)
Definition send_request (gm : jsstring) (cl : Render) (t rid : jsstring)
    (P : jsstring -> Prop) (q : Request) : Prop :=
  match q with
  | Req c =>
      match c with
      | createContinuousImprovementSession promptKey chatKey userId workspace =>
          truthy_opt (continuousImprovementSessionId cl) = false /\
          chatKey = chatSessionKey cl /\ workspace = currentWorkspace cl /\
          exists u, user cl = Some u /\ userId = uid u
      | addTechnicalLog sessionId entry =>
          continuousImprovementSessionId cl = Some sessionId /\ truthy sessionId = true /\
          logged t rid entry
      | loadLatestPrompt userId workspace =>
          chatSession cl = None /\ workspace = currentWorkspace cl /\
          exists u, user cl = Some u /\ userId = uid u
      | generateContent model contents =>
          model = the_model gm /\
          exists systemPrompt rest,
            P systemPrompt /\
            contents = first_contents cl systemPrompt t ++ rest /\
            (rest = [] \/ follow_up_turns rest)
      | searchRecords userId criteria =>
          exists u, user cl = Some u /\ userId = uid u
      | initializeChatSession _ _ => False
      end
  end.

(** [continuousImprovementSessionId] is truthy in render [cl]. *)
Definition has_telemetry_session (cl : Render) : Prop :=
  truthy_opt (continuousImprovementSessionId cl) = true.

(** What a send leaves of the store [r0] it started from. *)
Definition session_state_kept (r0 r : Render) : Prop :=
  chatSession r = chatSession r0 /\ sessionActive r = sessionActive r0 /\
  sessionInitializing r = sessionInitializing r0 /\
  chatSessionKey r = chatSessionKey r0 /\ currentPromptKey r = currentPromptKey r0 /\
  user r = user r0 /\ currentWorkspace r = currentWorkspace r0.

(** [handleQuickAction] (lines 207-210), in render [cl]. *)
Definition handleQuickAction (gm : jsstring) (cl : Render) (action : jsstring) : Prog unit :=
  setInput action ;;;
  handleSendMessage gm cl (Some action).

(** Lines 200-205. *)
Definition quickActions : list jsstring :=
  [lit "Use prenegotiated discount prices";
   lit "Get approvals easily and from correct person";
   lit "Find preferred contractor and best price/quality";
   lit "Create maintenance orders easily and correctly"].

(** The session and the entry of a telemetry write. *)
Definition telemetry_target (c : Call) : option (jsstring * TechnicalLog) :=
  match request_of c with
  | Req (addTechnicalLog sessionId entry) => Some (sessionId, entry)
  | _ => None
  end.

(** The prompt key of line 512:
    [currentPromptKey || `${user.email?.split('@')[0] || 'user'}_v1`]. *)
Definition promptKey_of (cl : Render) (u : User) : jsstring :=
  or_else (currentPromptKey cl)
    (or_else (option_map (split_head 64) (email u)) (lit "user") ++ lit "_v1").

(** ** Rendering a part (lines 699-711) *)

(** [a.join(sep)] *)
Fixpoint join (sep : jsstring) (a : list jsstring) : jsstring :=
  match a with
  | [] => []
  | x :: rest =>
      match rest with
      | [] => x
      | _ :: _ => x ++ sep ++ join sep rest
      end
  end.

(** ['\n\n**Sources:**\n'] *)
Definition sources_heading : jsstring := [10; 10]%N ++ lit "**Sources:**" ++ [10]%N.

(** [message.citationMetadata?.citationSources] *)
Definition cited_sources (message : Message) : option (list CitationSource) :=
  match citationMetadata message with
  | Some cm => citationSources cm
  | None => None
  end.

(** The markdown handed to [ReactMarkdown] for one part of a message;
    nothing is rendered for a part without text ([part.text && ...]). *)
Definition rendered_markdown (message : Message) (part : Part) : option jsstring :=
  match text part with
  | Some (c :: r) =>
      let processed := processTextWithCitations (c :: r) (cited_sources message) in
      Some (originalText processed ++
            (if (0 <? length (processed_formattedSources processed))%nat
             then sources_heading ++ join [10%N] (processed_formattedSources processed)
             else []))
  | _ => None
  end.

(** ** Handlers with notices and further services

    [initializeSession] (lines 125-195) and [submitFeedback] (536-560)
    report through [toast.error] and call [setUserFeedback]; the sibling
    component [PropertyManagementChat.tsx] fetches its default prompt and
    asks the model with a request-level search tool.  These handlers are
    embedded with explicit state passing: an action takes the services and
    the run so far (the store, the invocations made, the notices shown) and
    gives its outcome and the run after it. *)

Record FetchResponse := { ok : bool; response_text : Thrown + jsstring }.

Inductive Feedback := thumbs_up | thumbs_down.

Inductive RequestTool := googleSearch.

Inductive Service : Type -> Type :=
| collaborator {X} (c : Ext X) : Service X
| setUserFeedback (sessionId : jsstring) (feedback : Feedback) (comment : option jsstring) :
    Service (Thrown + unit)
| fetch (url : jsstring) : Service (Thrown + FetchResponse)
| generateContentRequest (model : GenerativeModel) (contents : list Content)
    (requestTools : list RequestTool) : Service (Thrown + GenerateContentResult).

Record Services := { serve : forall X, Service X -> X }.
Arguments serve _ {X} _.

Inductive Served :=
| served (X : Type) (c : Service X) (r : X).
Arguments served {X} c r.

Inductive Notice :=
| logs (label : jsstring)
| logs_error (label : jsstring)
| toasts_success (message : jsstring) (duration : option N)
| toasts_error (message : jsstring).

Record Run (S : Type) := {
  state : S;
  invoked : list Served;
  notices : list Notice
}.
Arguments state {S} _.
Arguments invoked {S} _.
Arguments notices {S} _.

Definition starting {S} (s : S) : Run S := {| state := s; invoked := []; notices := [] |}.

Definition Action (S A : Type) : Type := Services -> Run S -> Outcome A * Run S.

Section Actions.

Context {S : Type}.

Definition ret {A} (a : A) : Action S A := fun _ r => (Returned a, r).

Definition throw {A} (e : Thrown) : Action S A := fun _ r => (Rejected e, r).

Definition and_then {A B} (p : Action S A) (f : A -> Action S B) : Action S B :=
  fun sv r =>
    match p sv r with
    | (Returned a, r') => f a sv r'
    | (Rejected e, r') => (Rejected e, r')
    end.

(** [try { p } catch (e) { h e }] *)
Definition catching {A} (p : Action S A) (h : Thrown -> Action S A) : Action S A :=
  fun sv r =>
    match p sv r with
    | (Returned a, r') => (Returned a, r')
    | (Rejected e, r') => h e sv r'
    end.

(** [try { p } finally { fin }] *)
Definition finally {A} (p : Action S A) (fin : Action S unit) : Action S A :=
  fun sv r =>
    match p sv r with
    | (out, r') =>
        match fin sv r' with
        | (Returned _, r'') => (out, r'')
        | (Rejected e, r'') => (Rejected e, r'')
        end
    end.

(** A [useState] setter. *)
Definition update (f : S -> S) : Action S unit :=
  fun _ r => (Returned tt, {| state := f (state r); invoked := invoked r;
                              notices := notices r |}).

Definition notify (n : Notice) : Action S unit :=
  fun _ r => (Returned tt, {| state := state r; invoked := invoked r;
                              notices := notices r ++ [n] |}).

(** [await c]: the answer is recorded; a rejection is thrown. *)
Definition call {X} (c : Service (Thrown + X)) : Action S X :=
  fun sv r =>
    let r' := {| state := state r; invoked := invoked r ++ [served c (serve sv c)];
                 notices := notices r |} in
    match serve sv c with
    | inl e => (Rejected e, r')
    | inr x => (Returned x, r')
    end.

End Actions.

Declare Scope action_scope.
Delimit Scope action_scope with action.
Notation "'let*' x ':=' p 'in' q" := (and_then p (fun x => q))
  (at level 10, x binder, p at level 100, q at level 200) : action_scope.
Notation "p ';;;' q" := (and_then p (fun _ => q))
  (at level 100, q at level 200, right associativity) : action_scope.

(** [error instanceof Error && error.message.includes(s)] *)
Definition is_Error_with (s : String.string) (error : Thrown) : bool :=
  match error with
  | ErrorObject _ message => includes message (lit s)
  | ThrownValue _ => false
  end.

(** [currentWorkspace === 'purchaser' ? a : b] *)
Definition by_workspace (currentWorkspace : jsstring) (a b : String.string) : jsstring :=
  if eqb currentWorkspace (lit "purchaser") then lit a else lit b.

(** The welcome text of lines 145-161. *)
Definition welcome_new_user (currentWorkspace : jsstring) : jsstring :=
  [55356; 57225]%N ++ lit " **Welcome to Propertius!**" ++ [10; 10]%N ++
  lit "Meet your AI assistant for high standard professional property management. I'm here to help you with " ++
  by_workspace currentWorkspace
    "advanced procurement optimization and supplier intelligence"
    "intelligent invoicing automation and financial operations" ++
  lit "." ++ [10; 10]%N ++ lit "**" ++ [55356; 57263]%N ++ lit " Quick Start Guide:**" ++
  [10; 8226]%N ++ lit " **Load Sample Data**: Visit Admin panel " ++ [8594]%N ++
  lit " Load example files and " ++
  by_workspace currentWorkspace "purchase order" "invoice" ++
  lit " data to explore" ++ [10; 8226]%N ++ lit " **Upload Your Data**: Add your own " ++
  by_workspace currentWorkspace
    "procurement policies and purchase order" "invoicing processes and sales invoice" ++
  lit " files" ++ [10; 8226]%N ++ lit " **Ask Questions**: " ++ [34]%N ++
  by_workspace currentWorkspace "What suppliers do we use?" "Show me recent invoices" ++
  [34]%N ++ lit " or " ++ [34]%N ++
  by_workspace currentWorkspace
    "Find maintenance contracts from last quarter" "Track overdue payments" ++
  [34; 10; 10]%N ++ lit "**" ++ [55357; 56481]%N ++ lit " Advanced Features:**" ++
  [10; 9989]%N ++ lit " Real-time access to your " ++
  by_workspace currentWorkspace "purchase order" "invoice" ++
  lit " data through advanced function calling" ++ [10; 9989]%N ++
  lit " Analysis of your internal " ++
  by_workspace currentWorkspace "procurement policies" "billing processes" ++
  lit " and documentation  " ++ [10; 9989]%N ++
  lit " Professional property management expertise for " ++
  by_workspace currentWorkspace
    "cost optimization and supplier management" "financial operations and payment tracking" ++
  [10; 10]%N ++ lit "**Ready to explore?** Try asking " ++ [34]%N ++
  lit "Load sample data so I can see what you can do" ++ [34]%N ++
  lit " or visit the Admin panel to upload your own files!" ++ [10; 10]%N ++
  lit "How would you like to get started?".

(** The welcome text of lines 162-166. *)
Definition welcome_back (currentWorkspace : jsstring) (session : ChatSession) : jsstring :=
  lit "Hello! I'm your Propertius " ++
  by_workspace currentWorkspace "Procurement" "Invoicing" ++
  lit " assistant. I'm here to help you with professional property management " ++
  by_workspace currentWorkspace
    "procurement optimization and cost savings" "invoicing automation and financial tracking" ++
  lit "." ++ [10; 10; 55357; 56538]%N ++ lit " **Knowledge Base Loaded:** " ++
  of_N (N.of_nat (length (documentsUsed session))) ++ lit " document(s) available." ++
  [10; 10]%N ++ lit "How can I help you today?".

(** Lines 139-168. *)
Definition welcomeMessage (currentWorkspace : jsstring) (session : ChatSession) : Message :=
  let isLikelyNewUser := (length (documentsUsed session) =? 0)%nat in
  {| role := role_model;
     parts := [text_part (if isLikelyNewUser then welcome_new_user currentWorkspace
                          else welcome_back currentWorkspace session)];
     citationMetadata := None |}.

(** [initializeSession] (lines 125-195), in render [cl]. *)
Definition initializeSession (cl : Render) : Action Render unit :=
  (match user cl with
   | Some u =>
       update (with_sessionInitializing true) ;;;
       update (with_sessionActive false) ;;;
       update (with_messages (fun _ => [])) ;;;
       update (with_chatSession None) ;;;
       finally
         (catching
            (let* session :=
               call (collaborator (initializeChatSession (uid u) (currentWorkspace cl))) in
             update (with_chatSession (Some session)) ;;;
             let isLikelyNewUser := (length (documentsUsed session) =? 0)%nat in
             update (with_messages (fun _ => [welcomeMessage (currentWorkspace cl) session])) ;;;
             update (with_sessionActive true) ;;;
             if isLikelyNewUser then
               notify (toasts_success
                 ([55356; 57225]%N ++
                  lit " Tervetuloa! Ostojen asiantuntijasi on valmis. K" ++ [228]%N ++
                  lit "y Admin-paneelissa lataamassa esimerkkidataa ja tutustu ominaisuuksiin.")
                 (Some 6000%N))
             else
               notify (toasts_success
                 (lit "Istunto alustettu " ++
                  of_N (N.of_nat (length (documentsUsed session))) ++
                  lit " tietodokumentilla") None))
            (fun error =>
               notify (logs_error (lit "Failed to initialize session:")) ;;;
               (if is_Error_with "No system prompt configured" error then
                  notify (toasts_error
                    (lit "No " ++ currentWorkspace cl ++
                     lit " system prompt found. Please create one in the Admin panel."))
                else
                  notify (toasts_error (lit
                    "Database loading failed. Check system prompt settings in Admin panel."))) ;;;
               update (with_messages (fun _ => [])) ;;;
               update (with_sessionActive false)))
         (update (with_sessionInitializing false))
   | None => ret tt
   end)%action.

(** ** The feedback dialog (lines 117-121, 523-568) *)

Record FeedbackDialog := {
  feedbackDialogOpen : bool;
  pendingFeedback : option Feedback;
  pendingMessageIndex : option N;
  feedbackComment : jsstring
}.

Definition with_feedbackDialogOpen (v : bool) (d : FeedbackDialog) : FeedbackDialog :=
  {| feedbackDialogOpen := v; pendingFeedback := pendingFeedback d;
     pendingMessageIndex := pendingMessageIndex d; feedbackComment := feedbackComment d |}.

Definition with_pendingFeedback (v : option Feedback) (d : FeedbackDialog) : FeedbackDialog :=
  {| feedbackDialogOpen := feedbackDialogOpen d; pendingFeedback := v;
     pendingMessageIndex := pendingMessageIndex d; feedbackComment := feedbackComment d |}.

Definition with_pendingMessageIndex (v : option N) (d : FeedbackDialog) : FeedbackDialog :=
  {| feedbackDialogOpen := feedbackDialogOpen d; pendingFeedback := pendingFeedback d;
     pendingMessageIndex := v; feedbackComment := feedbackComment d |}.

Definition with_feedbackComment (v : jsstring) (d : FeedbackDialog) : FeedbackDialog :=
  {| feedbackDialogOpen := feedbackDialogOpen d; pendingFeedback := pendingFeedback d;
     pendingMessageIndex := pendingMessageIndex d; feedbackComment := v |}.

Definition feedback_name (feedback : Feedback) : jsstring :=
  match feedback with
  | thumbs_up => lit "thumbs_up"
  | thumbs_down => lit "thumbs_down"
  end.

(** [handleFeedback] (lines 523-533), in render [cl]: the telemetry session
    is initialised on the component state; the value returned is what the
    four setters of lines 529-532 do to the dialog state. *)
Definition handleFeedback (cl : Render) (feedback : Feedback) (messageIndex : N) :
    Prog (FeedbackDialog -> FeedbackDialog) :=
  when (negb (truthy_opt (continuousImprovementSessionId cl)))
    (initializeContinuousImprovement cl) ;;;
  Ret (fun d =>
         with_feedbackDialogOpen true
           (with_feedbackComment []
              (with_pendingMessageIndex (Some messageIndex)
                 (with_pendingFeedback (Some feedback) d)))).

(** Lines 550-553 and 564-567. *)
Definition close_dialog : Action FeedbackDialog unit :=
  (update (with_feedbackDialogOpen false) ;;;
   update (with_pendingFeedback None) ;;;
   update (with_pendingMessageIndex None) ;;;
   update (with_feedbackComment []))%action.

(** The dialog state the component starts with (lines 118-121). *)
Definition closed_dialog : FeedbackDialog :=
  {| feedbackDialogOpen := false; pendingFeedback := None;
     pendingMessageIndex := None; feedbackComment := [] |}.

(** The template literal of line 545. *)
Definition feedback_text (messageIndex : N) (feedback : Feedback) (comment : jsstring) :
    jsstring :=
  lit "User feedback for message " ++ of_N messageIndex ++ lit ": " ++
  feedback_name feedback ++
  (if truthy comment then lit " - Comment: " ++ comment else []).

(** [feedbackComment || undefined] *)
Definition comment_or_undefined (comment : jsstring) : option jsstring :=
  if truthy comment then Some comment else None.

(** [submitFeedback] (lines 536-560), in a render with telemetry session
    [sessionId] and dialog state [cl]. *)
Definition submitFeedback (sessionId : option jsstring) (cl : FeedbackDialog) :
    Action FeedbackDialog unit :=
  (match sessionId, pendingFeedback cl, pendingMessageIndex cl with
   | Some (c :: sid), Some feedback, Some messageIndex =>
       catching
         (call (collaborator
                  (addTechnicalLog (c :: sid)
                     (ai_response (feedback_text messageIndex feedback (feedbackComment cl))
                        None))) ;;;
          call (setUserFeedback (c :: sid) feedback
                  (comment_or_undefined (feedbackComment cl))) ;;;
          close_dialog ;;;
          notify (toasts_success
            (match feedback with
             | thumbs_up => [55357; 56397]%N ++ lit " Thanks for the positive feedback!"
             | thumbs_down =>
                 [55357; 56398]%N ++ lit " Thanks for the feedback - we'll improve!"
             end) None))
         (fun error =>
            notify (logs_error (lit "Failed to save feedback:")) ;;;
            notify (toasts_error (lit "Failed to save feedback")))
   | _, _, _ => ret tt
   end)%action.

(** [cancelFeedback] (lines 563-568). *)
Definition cancelFeedback : Action FeedbackDialog unit := close_dialog.

(** The two writes of a submit. *)
Definition feedback_log (sessionId : jsstring) (cl : FeedbackDialog)
    (feedback : Feedback) (messageIndex : N) : Service (Thrown + unit) :=
  collaborator
    (addTechnicalLog sessionId
       (ai_response (feedback_text messageIndex feedback (feedbackComment cl)) None)).

Definition feedback_save (sessionId : jsstring) (cl : FeedbackDialog)
    (feedback : Feedback) : Service (Thrown + unit) :=
  setUserFeedback sessionId feedback (comment_or_undefined (feedbackComment cl)).

(** ** The sibling component ([PropertyManagementChat.tsx]) *)

Module Management.

(** [string | ArrayBuffer] *)
Inductive FileContent :=
| string_content (s : jsstring)
| buffer_content.

Record UploadedFile := {
  file_name : jsstring;
  file_type : jsstring;
  file_size : N;
  file_content : FileContent
}.

(** The component state and the props and hook values a render sees. *)
Record Render := {
  messages : list Message;
  input : jsstring;
  isLoading : bool;
  sessionActive : bool;
  uploadedFiles : list UploadedFile;
  user : option User;
  currentWorkspace : jsstring
}.

Definition with_messages (f : list Message -> list Message) (r : Render) : Render :=
  {| messages := f (messages r); input := input r; isLoading := isLoading r;
     sessionActive := sessionActive r; uploadedFiles := uploadedFiles r;
     user := user r; currentWorkspace := currentWorkspace r |}.

Definition with_input (v : jsstring) (r : Render) : Render :=
  {| messages := messages r; input := v; isLoading := isLoading r;
     sessionActive := sessionActive r; uploadedFiles := uploadedFiles r;
     user := user r; currentWorkspace := currentWorkspace r |}.

Definition with_isLoading (v : bool) (r : Render) : Render :=
  {| messages := messages r; input := input r; isLoading := v;
     sessionActive := sessionActive r; uploadedFiles := uploadedFiles r;
     user := user r; currentWorkspace := currentWorkspace r |}.

Definition with_sessionActive (v : bool) (r : Render) : Render :=
  {| messages := messages r; input := input r; isLoading := isLoading r;
     sessionActive := v; uploadedFiles := uploadedFiles r;
     user := user r; currentWorkspace := currentWorkspace r |}.

(** A file with another content. *)
Definition with_content (content : FileContent) (file : UploadedFile) : UploadedFile :=
  {| file_name := file_name file; file_type := file_type file;
     file_size := file_size file; file_content := content |}.

(** [processFileForAI] (lines 80-110).  Nothing in its [try] block throws,
    so the [catch] block that returns [null] is not entered. *)
Definition processFileForAI (file : UploadedFile) : option Part :=
  let generic :=
    Some (text_part
      (lit "[Document: " ++ file_name file ++ lit "]" ++ [10]%N ++ lit "File type: " ++
       file_type file ++ [10]%N ++ lit "Size: " ++ of_N (file_size file) ++ lit " bytes" ++
       [10]%N ++ lit "This document has been uploaded for property management analysis.")) in
  if eqb (file_type file) (lit "application/pdf") then
    Some (text_part
      (lit "[PDF Document: " ++ file_name file ++ lit "]" ++ [10]%N ++
       lit "This is a PDF document that needs to be analyzed. The user has uploaded this file for property management analysis."))
  else if includes (file_type file) (lit "spreadsheet") ||
          includes (file_type file) (lit "excel") ||
          eqb (file_type file) (lit "text/csv") then
    match file_content file with
    | string_content content =>
        Some (text_part
          (lit "[Spreadsheet/CSV Document: " ++ file_name file ++ lit "]" ++ [10]%N ++
           substring0 (N.to_nat 10000) content))
    | buffer_content => generic
    end
  else if includes (file_type file) (lit "word") ||
          includes (file_type file) (lit "document") then
    match file_content file with
    | string_content content =>
        Some (text_part
          (lit "[Word Document: " ++ file_name file ++ lit "]" ++ [10]%N ++
           substring0 (N.to_nat 10000) content))
    | buffer_content => generic
    end
  else generic.

(** Lines 147-150, 220-223. *)
Definition the_model (geminiModel : jsstring) : GenerativeModel :=
  {| model_name := geminiModel; temperature_tenths := 2; tools := [] |}.

(** Lines 158-160; [Math.round(file.size / 1024)] of a size in bytes. *)
Definition documentSummary (files : list UploadedFile) : jsstring :=
  join [10%N]
    (List.map (fun file =>
                 lit "- " ++ file_name file ++ lit " (" ++ file_type file ++ lit ", " ++
                 of_N ((file_size file + 512) / 1024) ++ lit "KB)")
       files).

(** Lines 154-172: the parts of the first request. *)
Definition initialMessageParts (systemPrompt : jsstring) (files : list UploadedFile) :
    list Part :=
  [text_part systemPrompt;
   text_part
     ([10; 10]%N ++ lit "Uploaded Documents for Analysis:" ++ [10]%N ++
      documentSummary files ++ [10; 10]%N ++
      lit "Please provide an initial analysis overview of these documents and suggest what insights you can provide.")] ++
  omap processFileForAI files.

Definition session_opening : Message :=
  {| role := role_user;
     parts := [text_part (lit "Initialize document analysis session")];
     citationMetadata := None |}.

(** Lines 118-143: the system prompt of the session. *)
Definition load_systemPrompt (cl : Render) : Action Render jsstring :=
  (let* saved :=
     match user cl with
     | Some u =>
         if truthy (uid u) then
           catching
             (let* latestPrompt :=
                call (collaborator (loadLatestPrompt (uid u) (currentWorkspace cl))) in
              if truthy_opt latestPrompt then
                notify (logs (lit "[PropertyManagementChat] Using latest saved prompt version")) ;;;
                ret (or_else latestPrompt [])
              else ret [])
             (fun error =>
                notify (logs_error (lit "[PropertyManagementChat] Error loading latest prompt:")) ;;;
                ret [])
         else ret []
     | None => ret []
     end in
   if truthy saved then ret saved
   else
     catching
       (let* response := call (fetch (lit "/docs/gemini_instructions.md")) in
        if ok response then
          let* body :=
            match response_text response with
            | inl e => throw e
            | inr body => ret body
            end in
          notify (logs (lit "[PropertyManagementChat] Using default prompt from file")) ;;;
          ret body
        else throw (new_Error (lit "Failed to fetch default prompt")))
       (fun error =>
          notify (logs_error (lit "[PropertyManagementChat] Error loading default prompt:")) ;;;
          throw (new_Error (lit
            "No system prompt configured. Please visit Admin panel to set up your prompt."))))%action.

(** [handleStartSession] (lines 112-207), in render [cl]. *)
Definition handleStartSession (geminiModel : jsstring) (cl : Render) : Action Render unit :=
  (if (length (uploadedFiles cl) =? 0)%nat then
     notify (toasts_error (lit
       "Please upload some documents first before starting the analysis session."))
   else
     let* systemPrompt := load_systemPrompt cl in
     update (with_messages (fun _ => [])) ;;;
     update (with_sessionActive true) ;;;
     update (with_input []) ;;;
     update (with_isLoading true) ;;;
     finally
       (catching
          (notify (logs (lit
             "[PropertyManagementChat] Starting session with uploaded documents")) ;;;
           let* result :=
             call (generateContentRequest (the_model geminiModel)
                     [{| content_role := role_user;
                         content_parts :=
                           initialMessageParts systemPrompt (uploadedFiles cl) |}]
                     [googleSearch]) in
           match response result with
           | Some {| candidates := Some (candidate :: _) |} =>
               update (with_messages (fun _ =>
                 [session_opening;
                  {| role := role_model;
                     parts := parts_or (content candidate) "Session started successfully.";
                     citationMetadata := None |}]))
           | _ => throw (new_Error (lit "No response from AI model"))
           end)
          (fun error =>
             notify (logs_error (lit "Error starting session:")) ;;;
             notify (toasts_error (lit
               "Failed to start analysis session. Please check your API configuration.")) ;;;
             update (with_messages (fun _ =>
               [session_opening;
                {| role := role_model;
                   parts := [text_part (lit "Error starting session. Please try again.")];
                   citationMetadata := None |}]))))
       (update (with_isLoading false)))%action.

(** [handleSendMessage] (lines 209-256), in render [cl]. *)
Definition handleSendMessage (geminiModel : jsstring) (cl : Render) : Action Render unit :=
  (if negb (truthy (trim (input cl))) || isLoading cl then ret tt
   else
     let userMessage :=
       {| role := role_user; parts := [text_part (input cl)]; citationMetadata := None |} in
     update (with_messages (fun prev => prev ++ [userMessage])) ;;;
     update (with_input []) ;;;
     update (with_isLoading true) ;;;
     finally
       (catching
          (let history :=
             List.map (fun msg => {| content_role := role msg; content_parts := parts msg |})
               (messages cl) in
           let* result :=
             call (generateContentRequest (the_model geminiModel)
                     (history ++
                      [{| content_role := role_user;
                          content_parts := [text_part (input cl)] |}])
                     [googleSearch]) in
           match response result with
           | Some {| candidates := Some (candidate :: _) |} =>
               let processedCitationMetadata :=
                 match candidate_citationMetadata candidate with
                 | Some cm =>
                     match citationSources cm with Some _ => Some cm | None => None end
                 | None => None
                 end in
               update (with_messages (fun prev => prev ++
                 [{| role := role_model;
                     parts := parts_or (content candidate) "I couldn't generate a response.";
                     citationMetadata := processedCitationMetadata |}]))
           | _ => throw (new_Error (lit "No response from AI model"))
           end)
          (fun error =>
             notify (logs_error (lit "Error sending message:")) ;;;
             update (with_messages (fun prev => prev ++
               [{| role := role_model;
                   parts := [text_part (lit
                     "Error processing your request. Please try again.")];
                   citationMetadata := None |}]))))
       (update (with_isLoading false)))%action.

Inductive ExtractionType := contractors | pricing | contracts.

(** Lines 271-275. *)
Definition prompts (type : ExtractionType) : jsstring :=
  match type with
  | contractors => lit "Extract all contractor information from the uploaded documents and provide it in a structured JSON format. Include: contractor name, contact details, services offered, certifications, performance metrics, and any other relevant contractor data. Format as an array of contractor objects."
  | pricing => lit "Extract all pricing information from the uploaded documents and provide it in a structured JSON format. Include: service names, prices, quantities, units, service providers, effective dates, and any pricing terms. Format as an array of pricing objects."
  | contracts => lit "Extract all contract information from the uploaded documents and provide it in a structured JSON format. Include: contract parties, terms, duration, payment terms, deliverables, and key clauses. Format as an array of contract objects."
  end.

(** [handleStructuredExtraction] (lines 265-279), in render [cl]: the
    [handleSendMessage] it calls is the one of the same render. *)
Definition handleStructuredExtraction (geminiModel : jsstring) (cl : Render)
    (type : ExtractionType) : Action Render unit :=
  (if negb (sessionActive cl) then
     notify (toasts_error (lit "Please start an analysis session first"))
   else
     update (with_input (prompts type)) ;;;
     handleSendMessage geminiModel cl)%action.

(** A request to the model. *)
Definition is_model_request (i : Served) : bool :=
  match i with
  | served (generateContentRequest _ _ _) _ => true
  | _ => false
  end.

(** The system prompt lines 118-143 arrive at, when they arrive at one: the
    saved prompt of the signed-in user when the prompt store returns a
    non-empty one, and otherwise the text of the default prompt file, when
    the fetch resolves with [ok] and the text can be read. *)
Definition systemPrompt_of (sv : Services) (cl : Render) : option jsstring :=
  let saved :=
    match user cl with
    | Some u =>
        if truthy (uid u) then
          match serve sv (collaborator (loadLatestPrompt (uid u) (currentWorkspace cl))) with
          | inr (Some (c :: r)) => Some (c :: r)
          | _ => None
          end
        else None
    | None => None
    end in
  match saved with
  | Some prompt => Some prompt
  | None =>
      match serve sv (fetch (lit "/docs/gemini_instructions.md")) with
      | inr response =>
          if ok response then
            match response_text response with
            | inr body => Some body
            | inl _ => None
            end
          else None
      | inl _ => None
      end
  end.

(** The request of lines 174-177 for a system prompt and the files. *)
Definition start_request (geminiModel systemPrompt : jsstring) (files : list UploadedFile) :
    Service (Thrown + GenerateContentResult) :=
  generateContentRequest (the_model geminiModel)
    [{| content_role := role_user;
        content_parts := initialMessageParts systemPrompt files |}]
    [googleSearch].

(** The model turn a start leaves in the history for the answer to its
    request: the parts of the first candidate (or the fallback text), and
    the error text when the request is rejected or has no candidate. *)
Definition started_turn (answer : Thrown + GenerateContentResult) : Message :=
  match answer with
  | inr {| response := Some {| candidates := Some (candidate :: _) |} |} =>
      {| role := role_model;
         parts := parts_or (content candidate) "Session started successfully.";
         citationMetadata := None |}
  | _ =>
      {| role := role_model;
         parts := [text_part (lit "Error starting session. Please try again.")];
         citationMetadata := None |}
  end.

End Management.

(** ** More scenarios *)

Module Cases.

Import Scenario.

(** [ready] before its telemetry session exists. *)
Definition untracked : Render := with_continuousImprovementSessionId None ready.

(** [ready] with a question typed into the input field. *)
Definition typed : Render := with_input question ready.

(** Nobody is signed in. *)
Definition signed_out : Render :=
  {| messages := []; input := []; isLoading := false; sessionActive := false;
     chatSession := None; sessionInitializing := false;
     continuousImprovementSessionId := None;
     chatSessionKey := lit "chat_1"; currentPromptKey := None;
     user := None; currentWorkspace := lit "purchaser" |}.

Definition helpful : Collaborators :=
  scripted (inr plain_text) (inr final_text) (inr three_records) log_ok None.

Definition searching : Collaborators :=
  scripted (inr asks_search) (inr final_text) (inr three_records) log_ok None.

(** Services over [helpful], with the given answers of the feedback store,
    the default prompt file and the model of the sibling component. *)
Definition services (saved : Thrown + unit) (fetched : Thrown + FetchResponse)
    (grounded : Thrown + GenerateContentResult) : Services :=
  {| serve := fun X c =>
       match c in Service X return X with
       | collaborator c => respond helpful c
       | setUserFeedback _ _ _ => saved
       | fetch _ => fetched
       | generateContentRequest _ _ _ => grounded
       end |}.

Definition default_prompt : Thrown + FetchResponse :=
  inr {| ok := true; response_text := inr (lit "You analyse property documents.") |}.

Definition all_well : Services := services (inr tt) default_prompt (inr plain_text).

Definition store_down : Services :=
  services (inl (new_Error (lit "unavailable"))) default_prompt (inr plain_text).

(** A message with two citations of one URI and one without URI. *)
Definition cited : Message :=
  {| role := role_model;
     parts := [text_part (lit "See the contract.")];
     citationMetadata := Some {| citationSources := Some
       [ {| startIndex := None; endIndex := None;
            uri := Some (lit "https://a.example"); title := Some (lit "Contract") |};
         {| startIndex := None; endIndex := None;
            uri := Some (lit "https://a.example"); title := None |};
         {| startIndex := None; endIndex := None; uri := None; title := Some (lit "Note") |} ]
       |} |}.

(** The dialog opened on the first message, with a comment. *)
Definition on_first_message : FeedbackDialog :=
  {| feedbackDialogOpen := true; pendingFeedback := Some thumbs_down;
     pendingMessageIndex := Some 0%N; feedbackComment := lit "Too slow" |}.

Definition invoice : Management.UploadedFile :=
  {| Management.file_name := lit "invoices.csv"; Management.file_type := lit "text/csv";
     Management.file_size := 2048;
     Management.file_content := Management.string_content (lit "id,amount") |}.

(** A render of the sibling component with one file and a typed question. *)
Definition desk : Management.Render :=
  {| Management.messages := []; Management.input := lit "Which invoices are overdue?";
     Management.isLoading := false; Management.sessionActive := true;
     Management.uploadedFiles := [invoice]; Management.user := Some alice;
     Management.currentWorkspace := lit "invoicer" |}.

End Cases.

(** * Properties *)

Local Arguments lit : simpl never.
Local Arguments trim : simpl never.
Local Arguments substring0 : simpl never.

(** ** Citations *)

Lemma truthy_trim t : truthy t && truthy (trim t) = truthy (trim t).
Proof. destruct t; reflexivity. Qed.

Lemma filter_comm {A} (P Q : A -> bool) l :
  List.filter P (List.filter Q l) = List.filter Q (List.filter P l).
Proof.
  induction l as [|a l IH]; [reflexivity|]. cbn.
  destruct (P a) eqn:HP, (Q a) eqn:HQ; cbn; rewrite ?HP, ?HQ, IH; reflexivity.
Qed.

Lemma filter_absorb {A} (P Q : A -> bool) l :
  (forall a, P a = true -> Q a = true) ->
  List.filter P (List.filter Q l) = List.filter P l.
Proof.
  intros H. induction l as [|a l IH]; [reflexivity|]. cbn.
  destruct (Q a) eqn:HQ, (P a) eqn:HP; cbn; rewrite ?HP, IH; try reflexivity.
  apply H in HP. congruence.
Qed.

Lemma filter_andb {A} (P Q : A -> bool) l :
  List.filter (fun a => P a && Q a) l = List.filter Q (List.filter P l).
Proof.
  induction l as [|a l IH]; [reflexivity|]. cbn.
  destruct (P a) eqn:HP; cbn; [destruct (Q a)|]; rewrite IH; reflexivity.
Qed.

(** Keeping first occurrences commutes with a selection that only looks at
    the URI. *)
Lemma dedupe_by_uri_filter (P : CitationSource -> bool) l :
  (forall a b, uri a = uri b -> P a = P b) ->
  List.filter P (dedupe_by_uri l) = dedupe_by_uri (List.filter P l).
Proof.
  intros HP. induction l as [|a l IH]; [reflexivity|].
  cbn [dedupe_by_uri List.filter]. destruct (P a) eqn:Ha.
  - cbn [dedupe_by_uri]. rewrite filter_comm, IH. reflexivity.
  - rewrite <- IH. apply filter_absorb. intros b Hb.
    apply negb_true_iff, bool_decide_eq_false_2. intros Heq.
    rewrite (HP b a Heq) in Hb. congruence.
Qed.

Lemma citation_loop_spec l st :
  formattedSources (fold_left citation_step l st) =
  formattedSources st ++
  imap (fun i t => source_line (sourceNumber st + N.of_nat i) (source_label t)
                     (or_else (uri t) []))
    (dedupe_by_uri (List.filter (fresh_source (uniqueUris st)) l)).
Proof.
  revert st. induction l as [|a l IH]; intros st.
  { cbn. symmetry. apply app_nil_r. }
  cbn [fold_left List.filter]. rewrite IH. clear IH.
  unfold citation_step, fresh_source at 2.
  destruct (uri a) as [u|] eqn:Hu; [|reflexivity].
  destruct (truthy u && negb (bool_decide (u ∈ uniqueUris st))) eqn:Hfresh; [|reflexivity].
  apply andb_true_iff in Hfresh as [Htruthy Hnew].
  cbn [formattedSources uniqueUris sourceNumber dedupe_by_uri].
  rewrite <- app_assoc. f_equal. cbn [imap app]. f_equal.
  - assert (Hor : or_else (uri a) [] = u)
      by (rewrite Hu; destruct u; [discriminate|reflexivity]).
    rewrite N.add_0_r, Hor. f_equal.
    unfold linkDescription, source_label. rewrite Hor.
    destruct (title a) as [t|]; [rewrite truthy_trim|]; reflexivity.
  - rewrite dedupe_by_uri_filter by (intros x y Hxy; rewrite Hxy; reflexivity).
    rewrite (filter_comm _ (fresh_source (uniqueUris st))).
    assert (Hflt : forall l0,
              List.filter (fresh_source ({[u]} ∪ uniqueUris st)) l0 =
              List.filter (fun t => negb (bool_decide (uri t = uri a)))
                (List.filter (fresh_source (uniqueUris st)) l0)).
    { intros l0. rewrite <- filter_andb. apply List.filter_ext. intros b.
      unfold fresh_source. rewrite Hu.
      destruct (uri b) as [v|] eqn:Hv; [|reflexivity].
      destruct (decide (v = u)) as [->|Hne].
      - rewrite (bool_decide_eq_true_2 (u ∈ {[u]} ∪ uniqueUris st)) by set_solver.
        rewrite (bool_decide_eq_true_2 (Some u = Some u)) by reflexivity.
        cbn. rewrite !andb_false_r. reflexivity.
      - rewrite (bool_decide_eq_false_2 (Some v = Some u)) by congruence.
        cbn [negb]. rewrite andb_true_r.
        destruct (bool_decide (v ∈ uniqueUris st)) eqn:Hin.
        + apply bool_decide_eq_true_1 in Hin.
          rewrite (bool_decide_eq_true_2 (v ∈ {[u]} ∪ uniqueUris st))
            by (apply elem_of_union_r; exact Hin).
          reflexivity.
        + apply bool_decide_eq_false_1 in Hin.
          rewrite (bool_decide_eq_false_2 (v ∈ {[u]} ∪ uniqueUris st))
            by (intros [Hu'|Hin']%elem_of_union;
                [apply elem_of_singleton in Hu'; contradiction | contradiction]).
          reflexivity. }
    rewrite Hflt, filter_comm.
    apply imap_ext. intros i t _. cbn. f_equal. lia.
Qed.

Lemma filter_sublist {A} (P : A -> bool) l : sublist (List.filter P l) l.
Proof.
  induction l as [|a l IH]; [constructor|]. cbn.
  destruct (P a); [apply sublist_skip | apply sublist_cons]; exact IH.
Qed.

Lemma dedupe_by_uri_sublist l : sublist (dedupe_by_uri l) l.
Proof.
  induction l as [|a l IH]; [constructor|]. cbn [dedupe_by_uri].
  apply sublist_skip. etransitivity; [apply filter_sublist | exact IH].
Qed.

Lemma find_filter {A} (P Q : A -> bool) l :
  (forall a, P a = true -> Q a = true) ->
  List.find P (List.filter Q l) = List.find P l.
Proof.
  intros H. induction l as [|a l IH]; [reflexivity|]. cbn.
  destruct (Q a) eqn:HQ; cbn; [rewrite IH; reflexivity|].
  destruct (P a) eqn:HP; [|exact IH]. apply H in HP. congruence.
Qed.

(** For each URI, the kept source is the first source with that URI. *)
Lemma dedupe_by_uri_first l u :
  List.find (fun t => bool_decide (uri t = u)) (dedupe_by_uri l) =
  List.find (fun t => bool_decide (uri t = u)) l.
Proof.
  induction l as [|a l IH]; [reflexivity|]. cbn [dedupe_by_uri List.find].
  destruct (bool_decide (uri a = u)) eqn:Ha; [reflexivity|].
  rewrite find_filter; [exact IH|].
  intros t Ht. apply bool_decide_eq_true_1 in Ht. apply bool_decide_eq_false_1 in Ha.
  apply negb_true_iff, bool_decide_eq_false_2. congruence.
Qed.

Lemma dedupe_by_uri_NoDup l : List.NoDup (List.map uri (dedupe_by_uri l)).
Proof.
  induction l as [|a l IH]; [constructor|]. cbn [dedupe_by_uri List.map].
  constructor.
  - intros Hin. apply List.in_map_iff in Hin as (t & Hu & Ht).
    apply List.filter_In in Ht as [_ Ht].
    apply negb_true_iff, bool_decide_eq_false_1 in Ht. contradiction.
  - revert IH. generalize (dedupe_by_uri l). intros k.
    induction k as [|t k IHk]; [constructor|]. cbn. intros Hk.
    apply List.NoDup_cons_iff in Hk as [Hnotin Hk].
    destruct (negb (bool_decide (uri t = uri a))); [|exact (IHk Hk)].
    cbn. constructor; [|exact (IHk Hk)].
    intros Hin. apply Hnotin. apply List.in_map_iff in Hin as (t' & Hu & Ht').
    apply List.filter_In in Ht' as [Ht' _]. apply List.in_map_iff. exists t'. auto.
Qed.

(** C8. The formatted sources are the sources that carry a URI, the first
    occurrence of each URI kept (no URI twice; for each URI the first source
    that has it; in the order of the input), numbered from 1, each labelled
    by its title when that is present and not blank and by its URI
    otherwise; the text is returned unchanged; and for
    [{uri: a, title: X}, {uri: a, title: Y}, {uri: b}] there are exactly two
    entries, labelled X and b. *)
Theorem citations_deduplicated_by_uri (text : jsstring) (srcs : list CitationSource) :
  let kept := dedupe_by_uri (List.filter has_uri srcs) in
  processed_formattedSources (processTextWithCitations text (Some srcs)) =
    imap source_entry kept /\
  List.NoDup (List.map uri kept) /\
  (forall u, List.find (fun t => bool_decide (uri t = u)) kept =
             List.find (fun t => bool_decide (uri t = u)) (List.filter has_uri srcs)) /\
  sublist kept srcs /\
  processed_formattedSources (processTextWithCitations text None) = [] /\
  originalText (processTextWithCitations text (Some srcs)) = text /\
  processed_formattedSources
    (processTextWithCitations text
       (Some [ {| startIndex := None; endIndex := None;
                  uri := Some (lit "a"); title := Some (lit "X") |};
               {| startIndex := None; endIndex := None;
                  uri := Some (lit "a"); title := Some (lit "Y") |};
               {| startIndex := None; endIndex := None;
                  uri := Some (lit "b"); title := None |} ])) =
    [lit "[Source 1: X](a)"; lit "[Source 2: b](b)"].
Proof.
  intros kept. subst kept.
  split; [|split; [apply dedupe_by_uri_NoDup|split; [intros u; apply dedupe_by_uri_first|
    split; [etransitivity; [apply dedupe_by_uri_sublist | apply filter_sublist]|
    split; [reflexivity|split; [reflexivity|vm_compute; reflexivity]]]]]].
  unfold processTextWithCitations. cbn [processed_formattedSources].
  destruct srcs as [|a l]; [reflexivity|].
  rewrite citation_loop_spec. cbn [formattedSources uniqueUris sourceNumber app].
  assert (Hfresh : forall l0, List.filter (fresh_source ∅) l0 = List.filter has_uri l0).
  { intros l0. apply List.filter_ext. intros t. unfold fresh_source, has_uri, truthy_opt.
    destruct (uri t); [|reflexivity].
    rewrite bool_decide_eq_false_2 by apply not_elem_of_empty. apply andb_true_r. }
  rewrite Hfresh. apply imap_ext. intros i t _. unfold source_entry. f_equal. lia.
Qed.

(** ** Symbolic execution of the handlers *)

Lemma scan_parts_eq gm cl systemPrompt textToSend ps :
  scan_parts gm cl systemPrompt textToSend ps =
  match recognized_call ps with
  | Some (part, fc) =>
      (try_catch
         (search_try gm cl systemPrompt textToSend part (fc_name fc) (fc_args fc))
         (search_catch gm cl systemPrompt textToSend (fc_name fc) (fc_args fc)) ;;;
       Ret true)%prog
  | None => Ret false
  end.
Proof.
  induction ps as [|part rest IH]; [reflexivity|].
  cbn [scan_parts recognized_call].
  destruct (functionCall part) as [fc|]; [|exact IH].
  destruct (eqb (fc_name fc) (lit "search_purchase_orders")); [reflexivity|exact IH].
Qed.

Lemma exec_bind {A B} o (p : Prog A) (f : A -> Prog B) (w : World) :
  exec o (bind p f) w =
  match exec o p w with
  | (Returned a, w') => exec o (f a) w'
  | (Rejected e, w') => (Rejected e, w')
  end.
Proof.
  revert w. induction p as [a|e|X e k IH]; intros w; [reflexivity..|].
  destruct e; cbn; apply IH.
Qed.

Lemma exec_try_catch {A} o (p : Prog A) (h : Thrown -> Prog A) (w : World) :
  exec o (try_catch p h) w =
  match exec o p w with
  | (Returned a, w') => (Returned a, w')
  | (Rejected e, w') => exec o (h e) w'
  end.
Proof.
  revert w. induction p as [a|e|X e k IH]; intros w; [reflexivity..|].
  destruct e; cbn; apply IH.
Qed.

Lemma exec_try_finally {A} o (p : Prog A) (fin : Prog unit) (w : World) :
  exec o (try_finally p fin) w =
  match exec o p w with
  | (Returned a, w') =>
      match exec o fin w' with
      | (Returned _, w'') => (Returned a, w'')
      | (Rejected e, w'') => (Rejected e, w'')
      end
  | (Rejected e, w') =>
      match exec o fin w' with
      | (Returned _, w'') => (Rejected e, w'')
      | (Rejected e', w'') => (Rejected e', w'')
      end
  end.
Proof.
  revert w. induction p as [a|e|X e k IH]; intros w.
  - cbn. rewrite exec_bind. destruct (exec o fin w) as [[[]|e] w']; reflexivity.
  - cbn. rewrite exec_bind. destruct (exec o fin w) as [[[]|e'] w']; reflexivity.
  - destruct e; cbn; apply IH.
Qed.

Lemma exec_interleaved_bind {A B} o other (p : Prog A) (f : A -> Prog B) (w : World) :
  exec_interleaved o other (bind p f) w =
  match exec_interleaved o other p w with
  | (Returned a, w') => exec_interleaved o other (f a) w'
  | (Rejected e, w') => (Rejected e, w')
  end.
Proof.
  revert w. induction p as [a|e|X e k IH]; intros w; [reflexivity..|].
  destruct e; cbn; apply IH.
Qed.

Lemma exec_interleaved_try_catch {A} o other (p : Prog A) (h : Thrown -> Prog A) (w : World) :
  exec_interleaved o other (try_catch p h) w =
  match exec_interleaved o other p w with
  | (Returned a, w') => (Returned a, w')
  | (Rejected e, w') => exec_interleaved o other (h e) w'
  end.
Proof.
  revert w. induction p as [a|e|X e k IH]; intros w; [reflexivity..|].
  destruct e; cbn; apply IH.
Qed.

Lemma exec_interleaved_try_finally {A} o other (p : Prog A) (fin : Prog unit) (w : World) :
  exec_interleaved o other (try_finally p fin) w =
  match exec_interleaved o other p w with
  | (Returned a, w') =>
      match exec_interleaved o other fin w' with
      | (Returned _, w'') => (Returned a, w'')
      | (Rejected e, w'') => (Rejected e, w'')
      end
  | (Rejected e, w') =>
      match exec_interleaved o other fin w' with
      | (Returned _, w'') => (Rejected e, w'')
      | (Rejected e', w'') => (Rejected e', w'')
      end
  end.
Proof.
  revert w. induction p as [a|e|X e k IH]; intros w.
  - cbn. rewrite exec_interleaved_bind.
    destruct (exec_interleaved o other fin w) as [[[]|e] w']; reflexivity.
  - cbn. rewrite exec_interleaved_bind.
    destruct (exec_interleaved o other fin w) as [[[]|e'] w']; reflexivity.
  - destruct e; cbn; apply IH.
Qed.

(** The prelude appends the user turn, raises the flag, and calls neither
    the model nor the search. *)
Lemma send_prelude_spec o cl messageText w out w' :
  exec o (send_prelude cl messageText) w = (out, w') ->
  messages (store w') = messages (store w) ++ [userMessage_of (textToSend_of cl messageText)] /\
  isLoading (store w') = true /\
  model_trace w' = model_trace w /\
  search_trace w' = search_trace w /\
  (telemetry_resolves o -> out = Returned tt).
Proof.
  unfold send_prelude, when, initializeContinuousImprovement, log_event, model_trace, search_trace.
  intros H.
  destruct (continuousImprovementSessionId cl) as [[|c sid]|] eqn:Hsid; cbn in H.
  all: destruct (user cl) as [u|]; cbn in H.
  all: repeat match type of H with
       | context [match respond ?o' ?c with _ => _ end] =>
           let E := fresh "E" in destruct (respond o' c) eqn:E; cbn in H
       | context [match ?x with _ => _ end] => destruct x; cbn in H
       end.
  all: injection H as <- <-; cbn; rewrite ?List.filter_app; cbn; rewrite ?app_nil_r.
  all: repeat match goal with x : unit |- _ => destruct x end.
  all: repeat split; try reflexivity.
  all: intros Ht; try reflexivity; rewrite Ht in *; discriminate.
Qed.

(** Loading the system prompt touches neither the history nor the model. *)
Lemma load_systemPrompt_spec o cl w :
  exists w',
    exec o (load_systemPrompt cl) w =
      (match systemPrompt_of o cl with
       | Some systemPrompt => Returned systemPrompt
       | None => Rejected (new_Error (lit
           "No system prompt configured. Please visit Admin panel to set up your prompt."))
       end, w') /\
    store w' = store w /\
    model_trace w' = model_trace w /\
    search_trace w' = search_trace w.
Proof.
  unfold load_systemPrompt, systemPrompt_of, model_trace, search_trace.
  assert (Hdone : forall (out : Outcome jsstring) w0, exists w',
            (out, w0) = (out, w') /\ store w' = store w0 /\
            List.filter is_model_call (calls w') = List.filter is_model_call (calls w0) /\
            List.filter is_search_call (calls w') = List.filter is_search_call (calls w0))
    by (intros; eexists; eauto).
  destruct (chatSession cl) as [session|]; [apply Hdone|].
  destruct (user cl) as [u|]; [|apply Hdone].
  destruct (truthy (uid u)); [|apply Hdone].
  cbn. destruct (respond o (loadLatestPrompt (uid u) (currentWorkspace cl))) as [e|[[|c r]|]];
    cbn; (eexists; split; [reflexivity|]); cbn; rewrite ?List.filter_app, ?app_nil_r; auto.
Qed.

(** One step of the symbolic run of a handler: the answer of a collaborator
    or the shape of an answer is split into its cases. *)
Ltac split_answer :=
  match goal with
  | |- context [scan_parts ?g ?cl ?sp ?t ?ps] => rewrite (scan_parts_eq g cl sp t ps)
  | |- context [log_event] => progress unfold log_event
  | H : user ?cl = _ |- context [user ?cl] => rewrite H
  | H : continuousImprovementSessionId ?cl = _
    |- context [continuousImprovementSessionId ?cl] => rewrite H
  | H : telemetry_resolves ?o |- context [respond ?o (addTechnicalLog ?sid ?e)] =>
      rewrite (H sid e)
  | |- context [match respond ?o ?c with _ => _ end] =>
      let E := fresh "E" in destruct (respond o c) eqn:E
  | |- context [match ?x with _ => _ end] =>
      lazymatch x with
      | context [exec] => fail
      | context [exec_interleaved] => fail
      | _ => destruct x eqn:?
      end
  end.

Ltac run_handler := cbn; repeat (split_answer; cbn).

(** Reading the record of a finished run. *)
Ltac read_run :=
  unfold model_calls, search_calls, recognized_returned, first_model_answer,
    search_succeeded, search_failed, follow_up_answer, error_events,
    model_trace, search_trace in *; cbn;
  rewrite ?List.filter_app; cbn;
  repeat match goal with
         | H : List.filter _ (calls ?w) = _ |- context [List.filter _ (calls ?w)] =>
             rewrite H
         end; cbn;
  unfold asks_for_search, first_candidate, parts_of_candidate;
  repeat match goal with H : ?x = _ |- context [?x] => rewrite H end; cbn.

(** ** Invocation counts *)

(** C9, as the code has it. A turn that passes the guard, in a signed-in
    render and with a telemetry sink that resolves, makes exactly 1 or 2 model
    invocations when a system prompt is available (none when it is not), 2
    exactly when a recognised function call is returned and the search
    succeeds; it makes 0 or 1 searches, 1 exactly when a recognised function
    call is returned; and the history is only appended to. *)
Theorem invocation_counts (gm : jsstring) (o : Collaborators) (cl : Render)
    (messageText : option jsstring) (s : Render) :
  rejects cl messageText = false ->
  telemetry_resolves o ->
  is_Some (user cl) ->
  let w := snd (exec o (handleSendMessage gm cl messageText) (initial s)) in
  match systemPrompt_of o cl with
  | Some _ => model_calls w = 1%nat \/ model_calls w = 2%nat
  | None => model_calls w = 0%nat
  end /\
  (model_calls w = 2%nat <-> recognized_returned w = true /\ search_succeeded w = true) /\
  (search_calls w = 0%nat \/ search_calls w = 1%nat) /\
  (search_calls w = 1%nat <-> recognized_returned w = true) /\
  (exists appended, messages (store w) = messages s ++ appended).
Proof.
  intros Hguard Htel [u Hu].
  unfold handleSendMessage. rewrite Hguard.
  rewrite exec_bind.
  destruct (exec o (send_prelude cl messageText) (initial s)) as [out w1] eqn:Hpre.
  apply send_prelude_spec in Hpre as (Hmsg1 & Hload1 & Hmodel1 & Hsearch1 & Hout1).
  cbn in Hmsg1, Hmodel1, Hsearch1.
  rewrite (Hout1 Htel).
  rewrite exec_try_finally, exec_try_catch. unfold turn_try.
  rewrite exec_bind.
  destruct (load_systemPrompt_spec o cl w1) as (w2 & -> & Hst2 & Hmodel2 & Hsearch2).
  rewrite Hmodel1 in Hmodel2. rewrite Hsearch1 in Hsearch2.
  destruct (systemPrompt_of o cl) as [systemPrompt|].
  2: { cbn. read_run. rewrite ?Hst2, ?Hmsg1, <- ?app_assoc.
       intuition (try discriminate; eauto). }
  unfold on_result, plain_answer.
  destruct (continuousImprovementSessionId cl) as [[|c sid]|] eqn:Hsid.
  all: run_handler.
  all: read_run.
  all: rewrite ?Hst2, ?Hmsg1, <- ?app_assoc.
  all: solve [intuition (try discriminate; try lia; eauto)].
Qed.

(** ** The follow-up invocation *)

Lemma after_model_calls_app n (quiet rest : list Call) :
  List.filter is_model_call quiet = [] ->
  after_model_calls (S n) (quiet ++ rest) = after_model_calls (S n) rest.
Proof.
  induction quiet as [|c quiet IH]; [reflexivity|].
  cbn [List.filter app after_model_calls]. destruct (is_model_call c); [discriminate|].
  exact IH.
Qed.

(** C3, as the code has it. Both model invocations of a turn are issued on
    the one model handle of lines 260-266, which carries the search function
    declaration; a turn makes at most two model invocations and at most one
    search, and after the second model invocation it calls neither the model
    nor the search again: a function call in the follow-up answer is not
    dispatched. *)
Theorem follow_up_uses_same_model (gm : jsstring) (o : Collaborators) (cl : Render)
    (messageText : option jsstring) (s : Render) :
  let w := snd (exec o (handleSendMessage gm cl messageText) (initial s)) in
  Forall (fun c => call_model c = Some (the_model gm)) (model_trace w) /\
  tools (the_model gm) = [searchERPFunction] /\
  (model_calls w <= 2)%nat /\
  (search_calls w <= 1)%nat /\
  Forall (fun c => is_model_call c = false /\ is_search_call c = false)
    (after_model_calls 2 (calls w)).
Proof.
  unfold handleSendMessage.
  destruct (rejects cl messageText); [cbn; auto 10|].
  rewrite exec_bind.
  destruct (exec o (send_prelude cl messageText) (initial s)) as [out w1] eqn:Hpre.
  apply send_prelude_spec in Hpre as (Hmsg1 & Hload1 & Hmodel1 & Hsearch1 & Hout1).
  cbn in Hmsg1, Hmodel1, Hsearch1.
  destruct out as [[]|e].
  2: { cbn. read_run.
       replace (calls w1) with (calls w1 ++ []) by apply app_nil_r.
       rewrite after_model_calls_app by exact Hmodel1. cbn. auto 10. }
  rewrite exec_try_finally, exec_try_catch. unfold turn_try.
  rewrite exec_bind.
  destruct (load_systemPrompt_spec o cl w1) as (w2 & -> & Hst2 & Hmodel2 & Hsearch2).
  rewrite Hmodel1 in Hmodel2. rewrite Hsearch1 in Hsearch2.
  destruct (systemPrompt_of o cl) as [systemPrompt|].
  2: { cbn. read_run.
       replace (calls w2) with (calls w2 ++ []) by apply app_nil_r.
       rewrite after_model_calls_app by exact Hmodel2. cbn. auto 10. }
  unfold on_result, plain_answer.
  destruct (continuousImprovementSessionId cl) as [[|c sid]|] eqn:Hsid.
  all: destruct (user cl) as [u|] eqn:Hu.
  all: run_handler.
  all: read_run.
  all: rewrite <- ?app_assoc; rewrite (after_model_calls_app _ _ _ Hmodel2); cbn.
  all: solve [repeat split; auto; repeat constructor].
Qed.

(** ** Unrecognised function calls *)

Lemma recognized_call_None ps :
  (forall part fc, In part ps -> functionCall part = Some fc ->
     fc_name fc <> lit "search_purchase_orders") ->
  recognized_call ps = None.
Proof.
  induction ps as [|part rest IH]; intros H; [reflexivity|].
  cbn [recognized_call].
  destruct (functionCall part) as [fc|] eqn:Hfc.
  - unfold eqb. rewrite bool_decide_eq_false_2.
    + apply IH. intros p' fc' Hin. apply H. right. exact Hin.
    + apply (H part fc); [left; reflexivity | exact Hfc].
  - apply IH. intros p' fc' Hin. apply H. right. exact Hin.
Qed.

Lemma exec_calls_grow {A} o (p : Prog A) (w : World) :
  exists l, calls (snd (exec o p w)) = calls w ++ l.
Proof.
  revert w. induction p as [a|e|X e k IH]; intros w;
    [exists []; cbn; symmetry; apply app_nil_r ..|].
  destruct e; cbn.
  - destruct (IH (respond o c) (record_call c (respond o c) w)) as [l Hl].
    exists (Called c (respond o c) :: l). rewrite Hl. cbn. rewrite <- app_assoc. reflexivity.
  - apply (IH tt (update_store f w)).
  - apply (IH tt (record_console level label w)).
  - apply IH.
Qed.

Lemma first_model_answer_grow (w w' : World) l a :
  calls w' = calls w ++ l ->
  first_model_answer w = Some a ->
  first_model_answer w' = Some a.
Proof.
  unfold first_model_answer, model_trace. intros ->. rewrite List.filter_app.
  destruct (List.filter is_model_call (calls w)); [discriminate|trivial].
Qed.

(** A turn that passes the guard, with a telemetry sink that resolves, up to
    its first model invocation. *)
Lemma turn_reaches_model gm o cl messageText s :
  rejects cl messageText = false ->
  telemetry_resolves o ->
  exists w2,
    messages (store w2) = messages s ++ [userMessage_of (textToSend_of cl messageText)] /\
    model_trace w2 = [] /\ search_trace w2 = [] /\
    exec o (handleSendMessage gm cl messageText) (initial s) =
    match systemPrompt_of o cl with
    | Some systemPrompt =>
        exec o
          (try_finally
             (try_catch
                (let* result :=
                   await (generateContent (the_model gm)
                            (first_contents cl systemPrompt (textToSend_of cl messageText))) in
                 on_result gm cl systemPrompt (textToSend_of cl messageText) result)
                turn_catch)
             (setIsLoading false)) w2
    | None =>
        (Returned tt,
         update_store (with_isLoading false)
           (update_store (with_messages (fun prev => prev ++ [generic_error_message]))
              (record_console console_error (lit "Error sending message:") w2)))
    end.
Proof.
  intros Hguard Htel.
  unfold handleSendMessage. rewrite Hguard.
  rewrite exec_bind.
  destruct (exec o (send_prelude cl messageText) (initial s)) as [out w1] eqn:Hpre.
  apply send_prelude_spec in Hpre as (Hmsg1 & Hload1 & Hmodel1 & Hsearch1 & Hout1).
  cbn in Hmsg1, Hmodel1, Hsearch1.
  rewrite (Hout1 Htel).
  destruct (load_systemPrompt_spec o cl w1) as (w2 & Hrun & Hst2 & Hmodel2 & Hsearch2).
  exists w2. rewrite Hst2, Hmodel2, Hsearch2. repeat split; try assumption.
  rewrite !exec_try_finally, !exec_try_catch. unfold turn_try.
  rewrite exec_bind, Hrun.
  destruct (systemPrompt_of o cl); [|reflexivity].
  rewrite exec_try_finally, exec_try_catch. reflexivity.
Qed.

(** C10, as the code has it. When the first model answer has function-call
    parts and none of them names [search_purchase_orders], and the telemetry
    sink resolves, the turn makes no search and appends the candidate's parts
    (with its citation metadata) as an ordinary model turn. *)
Theorem unrecognized_call_falls_through (gm : jsstring) (o : Collaborators) (cl : Render)
    (messageText : option jsstring) (s : Render)
    (result : GenerateContentResult) (candidate : Candidate) :
  let w := snd (exec o (handleSendMessage gm cl messageText) (initial s)) in
  telemetry_resolves o ->
  first_model_answer w = Some (inr result) ->
  first_candidate result = Some candidate ->
  (exists part fc, In part (parts_of_candidate candidate) /\ functionCall part = Some fc) ->
  (forall part fc, In part (parts_of_candidate candidate) -> functionCall part = Some fc ->
     fc_name fc <> lit "search_purchase_orders") ->
  search_calls w = 0%nat /\
  messages (store w) =
    messages s ++
    [userMessage_of (textToSend_of cl messageText);
     model_message (parts_of_candidate candidate)
       match candidate_citationMetadata candidate with
       | Some cm => match citationSources cm with Some _ => Some cm | None => None end
       | None => None
       end].
Proof.
  intros w Htel. subst w.
  destruct (rejects cl messageText) eqn:Hguard.
  { unfold handleSendMessage. rewrite Hguard. cbn. discriminate. }
  destruct (turn_reaches_model gm o cl messageText s Hguard Htel)
    as (w2 & Hmsg2 & Hmodel2 & Hsearch2 & ->).
  destruct (systemPrompt_of o cl) as [systemPrompt|].
  2: { cbn. read_run. discriminate. }
  cbn.
  destruct (respond o (generateContent (the_model gm)
              (first_contents cl systemPrompt (textToSend_of cl messageText))))
    as [e|result'] eqn:E1.
  { cbn. read_run. discriminate. }
  cbn.
  match goal with |- context [exec o ?p ?w0] =>
    destruct (exec_calls_grow o p w0) as [l Hl]; set (W0 := w0) in *;
    assert (H0 : first_model_answer W0 = Some (inr result'))
      by (subst W0; read_run; reflexivity)
  end.
  intros Hfirst.
  erewrite first_model_answer_grow in Hfirst; [|exact Hl|exact H0].
  injection Hfirst as ->. subst W0. clear Hl H0.
  intros Hcand (part & fc & Hin & Hfc) Hnone.
  unfold on_result. unfold first_candidate in Hcand.
  destruct (response result) as [[[[|candidate' rest]|]]|]; try discriminate.
  injection Hcand as ->.
  unfold parts_of_candidate in *.
  destruct (content candidate) as [[[ps|]]|] eqn:Hcontent; try contradiction.
  rewrite scan_parts_eq, (recognized_call_None ps Hnone).
  unfold plain_answer, log_event.
  destruct (continuousImprovementSessionId cl) as [[|c sid]|]; cbn; rewrite ?Htel; cbn.
  all: rewrite Hcontent; read_run; rewrite <- ?app_assoc; auto.
Qed.

(** ** Telemetry *)

(** C5, as the code has it. Telemetry writes are awaited: a turn with a
    telemetry session suspends on its [user_message] write before anything is
    sent to the model.  When the sink resolves the writes, they leave no
    mark on the conversation: the history after the turn is the history the
    same turn produces without a telemetry session. *)
Theorem telemetry_awaited_and_history_neutral (gm : jsstring) (o : Collaborators)
    (cl : Render) (messageText : option jsstring) (s : Render) (sid : jsstring) :
  rejects cl messageText = false ->
  continuousImprovementSessionId cl = Some sid ->
  truthy sid = true ->
  telemetry_resolves o ->
  (let suspended := until_await o (handleSendMessage gm cl messageText) (initial s) in
   fst suspended =
     Pending (Req (addTechnicalLog sid (user_message (textToSend_of cl messageText)))) /\
   messages (store (snd suspended)) =
     messages s ++ [userMessage_of (textToSend_of cl messageText)] /\
   isLoading (store (snd suspended)) = true /\
   model_calls (snd suspended) = 0%nat) /\
  messages (store (snd (exec o (handleSendMessage gm cl messageText) (initial s)))) =
  messages (store (snd (exec o
     (handleSendMessage gm (with_continuousImprovementSessionId None cl) messageText)
     (initial s)))).
Proof.
  intros Hguard Hsid Htruthy Htel. split.
  - unfold handleSendMessage, send_prelude, log_event, when. rewrite Hguard, Hsid.
    cbn. rewrite Htruthy. cbn. destruct (truthy_opt messageText); cbn; auto.
  - destruct (turn_reaches_model gm o cl messageText s Hguard Htel)
      as (w2 & Hmsg2 & _ & _ & ->).
    destruct (turn_reaches_model gm o (with_continuousImprovementSessionId None cl)
                messageText s Hguard Htel) as (w2' & Hmsg2' & _ & _ & ->).
    change (systemPrompt_of o (with_continuousImprovementSessionId None cl))
      with (systemPrompt_of o cl).
    change (textToSend_of (with_continuousImprovementSessionId None cl) messageText)
      with (textToSend_of cl messageText) in *.
    destruct (systemPrompt_of o cl) as [systemPrompt|].
    2: { cbn. rewrite Hmsg2, Hmsg2'. reflexivity. }
    unfold on_result, plain_answer, first_contents, followUp_contents, history_of.
    destruct sid as [|c sid']; [discriminate|].
    cbn; repeat (split_answer; cbn; unfold followUp_contents, history_of; cbn).
    all: rewrite Hmsg2, Hmsg2'; reflexivity.
Qed.

(** ** Reset during a turn *)

Lemma reset_clears_history o cl w :
  messages (store (snd (exec o (handleResetChat cl) w))) = [].
Proof.
  unfold handleResetChat. destruct (user cl) as [u|]; cbn; [|reflexivity].
  destruct (respond o (initializeChatSession (uid u) (currentWorkspace cl))); reflexivity.
Qed.

Lemma send_prelude_not_interleaved o cl messageText w :
  exec_interleaved o reset_during_model_call (send_prelude cl messageText) w =
  exec o (send_prelude cl messageText) w.
Proof.
  unfold send_prelude, when, initializeContinuousImprovement, log_event.
  destruct (continuousImprovementSessionId cl) as [[|c sid]|]; cbn.
  all: destruct (user cl) as [u|]; cbn.
  all: repeat match goal with
       | |- context [match respond ?o' ?c with _ => _ end] => destruct (respond o' c); cbn
       | |- context [match ?x with _ => _ end] => destruct x; cbn
       end.
  all: reflexivity.
Qed.

Lemma load_systemPrompt_not_interleaved o cl w :
  exec_interleaved o reset_during_model_call (load_systemPrompt cl) w =
  exec o (load_systemPrompt cl) w.
Proof.
  unfold load_systemPrompt.
  destruct (chatSession cl); [reflexivity|].
  destruct (user cl) as [u|]; [|reflexivity].
  destruct (truthy (uid u)); [|reflexivity].
  cbn. destruct (respond o (loadLatestPrompt (uid u) (currentWorkspace cl))) as [e|[[|c r]|]];
    reflexivity.
Qed.

Local Opaque handleResetChat.

(** C6, as the code has it. A reset does not cancel the turn in flight.
    When a reset runs while a model invocation of the turn is pending, what
    the turn would have appended after the user turn (the model turn built
    from the stale answer, or the error turn) is appended all the same, to
    the emptied history. *)
Theorem stale_answer_lands_after_reset (gm : jsstring) (o : Collaborators)
    (cl : Render) (messageText : option jsstring) (s : Render)
    (tail : list Message) :
  let alone := snd (exec o (handleSendMessage gm cl messageText) (initial s)) in
  let raced :=
    snd (exec_interleaved o reset_during_model_call
           (handleSendMessage gm cl messageText) (initial s)) in
  (1 <= model_calls alone)%nat ->
  messages (store alone) =
    messages s ++ userMessage_of (textToSend_of cl messageText) :: tail ->
  messages (store raced) = tail.
Proof.
  cbv zeta. unfold handleSendMessage.
  destruct (rejects cl messageText); [cbn; lia|].
  rewrite exec_bind, exec_interleaved_bind, send_prelude_not_interleaved.
  destruct (exec o (send_prelude cl messageText) (initial s)) as [out w1] eqn:Hpre.
  apply send_prelude_spec in Hpre as (Hmsg1 & Hload1 & Hmodel1 & Hsearch1 & Hout1).
  cbn in Hmsg1, Hmodel1, Hsearch1.
  destruct out as [[]|e].
  2: { cbn. unfold model_calls. rewrite Hmodel1. cbn. lia. }
  rewrite exec_try_finally, exec_try_catch, exec_interleaved_try_finally,
    exec_interleaved_try_catch.
  unfold turn_try.
  rewrite exec_bind, exec_interleaved_bind, load_systemPrompt_not_interleaved.
  destruct (load_systemPrompt_spec o cl w1) as (w2 & -> & Hst2 & Hmodel2 & Hsearch2).
  rewrite Hmodel1 in Hmodel2. rewrite <- Hst2 in Hmsg1.
  destruct (systemPrompt_of o cl) as [systemPrompt|].
  2: { cbn. unfold model_calls, model_trace in *. cbn. rewrite Hmodel2. cbn. lia. }
  unfold on_result, plain_answer.
  destruct (continuousImprovementSessionId cl) as [[|c sid]|] eqn:Hsid.
  all: destruct (user cl) as [u|] eqn:Hu.
  all: run_handler.
  all: intros _ H; rewrite Hmsg1, <- ?app_assoc in H; apply app_inv_head in H;
       injection H as <-; rewrite ?reset_clears_history; reflexivity.
Qed.

Local Transparent handleResetChat.

(** ** Failures on the function-call path *)

Lemma send_prelude_error_events o cl messageText w :
  error_events (snd (exec o (send_prelude cl messageText) w)) = error_events w.
Proof.
  unfold send_prelude, when, initializeContinuousImprovement, log_event, error_events.
  destruct (continuousImprovementSessionId cl) as [[|c sid]|]; cbn.
  all: destruct (user cl) as [u|]; cbn.
  all: repeat match goal with
       | |- context [match respond ?o' ?c with _ => _ end] => destruct (respond o' c); cbn
       | |- context [match ?x with _ => _ end] => destruct x; cbn
       end.
  all: rewrite ?List.filter_app; cbn; rewrite ?app_nil_r; reflexivity.
Qed.

Lemma load_systemPrompt_error_events o cl w :
  error_events (snd (exec o (load_systemPrompt cl) w)) = error_events w.
Proof.
  unfold load_systemPrompt, error_events.
  destruct (chatSession cl); [reflexivity|].
  destruct (user cl) as [u|]; [|reflexivity].
  destruct (truthy (uid u)); [|reflexivity].
  cbn. destruct (respond o (loadLatestPrompt (uid u) (currentWorkspace cl))) as [e|[[|c r]|]];
    cbn; rewrite List.filter_app; cbn; apply app_nil_r.
Qed.

(** A turn up to its first model invocation, whatever the telemetry sink
    does. *)
Lemma turn_starts gm o cl messageText s :
  rejects cl messageText = false ->
  exists (out1 : Outcome unit) w2,
    messages (store w2) = messages s ++ [userMessage_of (textToSend_of cl messageText)] /\
    model_trace w2 = [] /\ search_trace w2 = [] /\ error_events w2 = [] /\
    exec o (handleSendMessage gm cl messageText) (initial s) =
    match out1 with
    | Rejected e => (Rejected e, w2)
    | Returned _ =>
        match systemPrompt_of o cl with
        | Some systemPrompt =>
            exec o
              (try_finally
                 (try_catch
                    (let* result :=
                       await (generateContent (the_model gm)
                                (first_contents cl systemPrompt
                                   (textToSend_of cl messageText))) in
                     on_result gm cl systemPrompt (textToSend_of cl messageText) result)
                    turn_catch)
                 (setIsLoading false)) w2
        | None =>
            (Returned tt,
             update_store (with_isLoading false)
               (update_store (with_messages (fun prev => prev ++ [generic_error_message]))
                  (record_console console_error (lit "Error sending message:") w2)))
        end
    end.
Proof.
  intros Hguard.
  unfold handleSendMessage. rewrite Hguard.
  rewrite exec_bind.
  pose proof (send_prelude_error_events o cl messageText (initial s)) as Herr1.
  destruct (exec o (send_prelude cl messageText) (initial s)) as [out w1] eqn:Hpre.
  apply send_prelude_spec in Hpre as (Hmsg1 & Hload1 & Hmodel1 & Hsearch1 & Hout1).
  cbn in Hmsg1, Hmodel1, Hsearch1, Herr1.
  destruct out as [[]|e].
  2: { exists (Rejected e), w1. auto 10. }
  destruct (load_systemPrompt_spec o cl w1) as (w2 & Hrun & Hst2 & Hmodel2 & Hsearch2).
  exists (Returned tt), w2. rewrite Hst2, Hmodel2, Hsearch2.
  repeat split; try assumption.
  - pose proof (load_systemPrompt_error_events o cl w1) as Herr2.
    rewrite Hrun in Herr2. cbn in Herr2. congruence.
  - rewrite !exec_try_finally, !exec_try_catch. unfold turn_try.
    rewrite exec_bind, Hrun.
    destruct (systemPrompt_of o cl); [|reflexivity].
    rewrite exec_try_finally, exec_try_catch. reflexivity.
Qed.

(** Running a turn from its first model invocation on, all cases. *)
Ltac run_turn gm o cl messageText s Hguard :=
  destruct (turn_starts gm o cl messageText s Hguard)
    as (out1 & w2 & Hmsg2 & Hmodel2 & Hsearch2 & Herr2 & ->);
  destruct out1 as [[]|e1];
  [ destruct (systemPrompt_of o cl) as [systemPrompt|];
    [ unfold on_result, plain_answer;
      destruct (continuousImprovementSessionId cl) as [[|c sid]|] eqn:Hsid;
      destruct (user cl) as [u|] eqn:Hu;
      run_handler
    | cbn ]
  | cbn ];
  read_run.

(** When the follow-up answer has no first candidate with content, the turn
    ends without a model turn. *)
Lemma follow_up_without_content gm o cl messageText s r :
  follow_up_answer (snd (exec o (handleSendMessage gm cl messageText) (initial s))) =
    Some (inr r) ->
  first_content (response r) = None ->
  fst (exec o (handleSendMessage gm cl messageText) (initial s)) = Returned tt /\
  isLoading (store (snd (exec o (handleSendMessage gm cl messageText) (initial s)))) = false /\
  messages (store (snd (exec o (handleSendMessage gm cl messageText) (initial s)))) =
    messages s ++ [userMessage_of (textToSend_of cl messageText)].
Proof.
  destruct (rejects cl messageText) eqn:Hguard.
  { unfold handleSendMessage. rewrite Hguard. cbn. discriminate. }
  run_turn gm o cl messageText s Hguard.
  all: try discriminate.
  all: intros [= <-] Hnone; try congruence.
  all: auto.
Qed.

(** C1. When the follow-up answer has no candidates, or a first candidate
    without content, the handler returns and releases the flag, and the last
    turn of the history is the user turn: no model turn, not even the generic
    error turn, is appended. *)
Theorem empty_follow_up_leaves_user_turn_last (gm : jsstring) (o : Collaborators)
    (cl : Render) (messageText : option jsstring) (s : Render)
    (r : GenerateContentResult) :
  let run := exec o (handleSendMessage gm cl messageText) (initial s) in
  follow_up_answer (snd run) = Some (inr r) ->
  first_content (response r) = None ->
  fst run = Returned tt /\
  isLoading (store (snd run)) = false /\
  last (messages (store (snd run))) = Some (userMessage_of (textToSend_of cl messageText)).
Proof.
  intros run Hr Hnone.
  destruct (follow_up_without_content gm o cl messageText s r Hr Hnone) as (Hout & Hflag & Hmsg).
  subst run. rewrite Hmsg, last_snoc. auto.
Qed.

(** C2. When the follow-up answer has no candidates, or a first candidate
    without content, the completed turn has grown the history by one entry,
    the user turn. *)
Theorem follow_up_without_content_grows_history_by_one (gm : jsstring) (o : Collaborators)
    (cl : Render) (messageText : option jsstring) (s : Render)
    (r : GenerateContentResult) :
  let run := exec o (handleSendMessage gm cl messageText) (initial s) in
  follow_up_answer (snd run) = Some (inr r) ->
  first_content (response r) = None ->
  fst run = Returned tt /\
  length (messages (store (snd run))) = S (length (messages s)).
Proof.
  intros run Hr Hnone.
  destruct (follow_up_without_content gm o cl messageText s r Hr Hnone) as (Hout & Hflag & Hmsg).
  subst run. rewrite Hmsg, length_app. cbn. split; [assumption|lia].
Qed.

(** C4. When the search is rejected, the [catch] block of line 402 does not
    get past its first statement: it names [aiRequestId], which is declared
    inside the [try] block, so evaluating it throws and the outer [catch]
    answers.  The turn ends with the generic error turn, whose text does not
    contain "encountered an error"; no [function_call_error] event is
    written; one model invocation and one search were made. *)
Theorem search_failure_ends_in_generic_error (gm : jsstring) (o : Collaborators)
    (cl : Render) (messageText : option jsstring) (s : Render) :
  let run := exec o (handleSendMessage gm cl messageText) (initial s) in
  search_failed (snd run) = true ->
  fst run = Returned tt /\
  messages (store (snd run)) =
    messages s ++ [userMessage_of (textToSend_of cl messageText); generic_error_message] /\
  option_map (fun t => includes t (lit "encountered an error"))
    (first_text generic_error_message) = Some false /\
  error_events (snd run) = [] /\
  model_calls (snd run) = 1%nat /\
  search_calls (snd run) = 1%nat.
Proof.
  assert (Htext : option_map (fun t => includes t (lit "encountered an error"))
                    (first_text generic_error_message) = Some false)
    by (vm_compute; reflexivity).
  cbv zeta.
  destruct (rejects cl messageText) eqn:Hguard.
  { unfold handleSendMessage. rewrite Hguard. cbn. discriminate. }
  run_turn gm o cl messageText s Hguard.
  all: try discriminate.
  all: intros _; rewrite <- ?app_assoc; repeat split; solve [reflexivity | exact Htext].
Qed.


(** ** The guard *)

Lemma guarded_send_returns gm o cl messageText w :
  rejects cl messageText = true ->
  exec o (handleSendMessage gm cl messageText) w = (Returned tt, w).
Proof. intros H. unfold handleSendMessage. rewrite H. reflexivity. Qed.

Lemma send_rejected_when_loading gm o r messageText w :
  isLoading r = true ->
  exec o (handleSendMessage gm r messageText) w = (Returned tt, w).
Proof. intros H. apply guarded_send_returns. unfold rejects. rewrite H. apply orb_true_r. Qed.

(** * Concrete turns *)

Import Scenario.

(** The first answer with no candidates does get the generic error turn
    (line 456). *)
Lemma empty_first_answer_gets_error_turn :
  let run := turn (scripted (inr no_candidates) (inr final_text) (inr three_records)
                     log_ok None) ready in
  fst run = Returned tt /\
  messages (store (snd run)) =
    messages ready ++ [userMessage_of question; generic_error_message].
Proof. vm_compute. split; reflexivity. Qed.

(** C1 at a follow-up answer with no candidates. *)
Lemma empty_follow_up_leaves_user_turn_last_witness :
  let run := turn (scripted (inr asks_search) (inr no_candidates) (inr three_records)
                     log_ok None) ready in
  (follow_up_answer (snd run) = Some (inr no_candidates) /\
   first_content (response no_candidates) = None) /\
  fst run = Returned tt /\
  isLoading (store (snd run)) = false /\
  last (messages (store (snd run))) = Some (userMessage_of question).
Proof.
  intros run.
  assert (H1 : follow_up_answer (snd run) = Some (inr no_candidates))
    by (vm_compute; reflexivity).
  assert (H2 : first_content (response no_candidates) = None) by reflexivity.
  split; [auto|].
  exact (empty_follow_up_leaves_user_turn_last gm _ ready (Some question) ready
           no_candidates H1 H2).
Defined.

(** C2 at a follow-up answer whose candidate has no content. *)
Lemma follow_up_without_content_grows_history_by_one_witness :
  let run := turn (scripted (inr asks_search) (inr no_content) (inr three_records)
                     log_ok None) ready in
  (follow_up_answer (snd run) = Some (inr no_content) /\
   first_content (response no_content) = None) /\
  fst run = Returned tt /\
  length (messages (store (snd run))) = S (length (messages ready)).
Proof.
  intros run.
  assert (H1 : follow_up_answer (snd run) = Some (inr no_content))
    by (vm_compute; reflexivity).
  assert (H2 : first_content (response no_content) = None) by reflexivity.
  split; [auto|].
  exact (follow_up_without_content_grows_history_by_one gm _ ready (Some question) ready
           no_content H1 H2).
Defined.

(** C3 fails as stated: in a successful round-trip the second model
    invocation, issued with the function-call turn and the function-result
    turn appended to the turns of the first, carries the search function
    declaration, like the first. *)
Lemma follow_up_invocation_carries_tools :
  let run := turn (scripted (inr asks_search) (inr final_text) (inr three_records)
                     log_ok None) ready in
  match model_trace (snd run) with
  | [c1; c2] =>
      call_contents c2 =
        option_map
          (fun cs => cs ++
             [{| content_role := role_model;
                 content_parts := [search_call_part "search_purchase_orders"] |};
              functionResponse_of (lit "search_purchase_orders") three_records])
          (call_contents c1) /\
      option_map tools (call_model c1) = Some [searchERPFunction] /\
      option_map tools (call_model c2) = Some [searchERPFunction]
  | _ => False
  end /\
  [searchERPFunction] <> [].
Proof. split; [vm_compute; repeat split; reflexivity | discriminate]. Qed.

(** C4 at a search rejected with "No ERP data found". *)
Lemma search_failure_ends_in_generic_error_witness :
  let run := turn (scripted (inr asks_search) (inr final_text) (inl erp_unavailable)
                     log_ok None) ready in
  search_failed (snd run) = true /\
  fst run = Returned tt /\
  messages (store (snd run)) =
    messages ready ++ [userMessage_of question; generic_error_message] /\
  option_map (fun t => includes t (lit "encountered an error"))
    (first_text generic_error_message) = Some false /\
  error_events (snd run) = [] /\
  model_calls (snd run) = 1%nat /\
  search_calls (snd run) = 1%nat.
Proof.
  intros run.
  assert (H : search_failed (snd run) = true) by (vm_compute; reflexivity).
  split; [exact H|].
  exact (search_failure_ends_in_generic_error gm _ ready (Some question) ready H).
Defined.

(** C5 fails as stated.  The turn waits for its [user_message] write: at
    its first suspension the user turn is appended, the flag is raised and
    nothing has been sent to the model.  When that write is rejected, the
    rejection leaves the controller, with the user turn last and the flag
    still raised; when the [ai_response] write is rejected, the answer of the
    model is replaced by the generic error turn. *)
Lemma telemetry_write_blocks_and_propagates :
  let waiting :=
    until_await (scripted (inr plain_text) (inr final_text) (inr three_records) log_ok None)
      (handleSendMessage gm ready (Some question)) (initial ready) in
  let failed := turn (scripted (inr plain_text) (inr final_text) (inr three_records)
                        log_fails None) ready in
  let late := turn (scripted (inr plain_text) (inr final_text) (inr three_records)
                      log_fails_on_ai_response None) ready in
  (fst waiting = Pending (Req (addTechnicalLog (lit "ci1") (user_message question))) /\
   messages (store (snd waiting)) = messages ready ++ [userMessage_of question] /\
   model_calls (snd waiting) = 0%nat) /\
  (fst failed = Rejected (new_Error (lit "permission-denied")) /\
   messages (store (snd failed)) = messages ready ++ [userMessage_of question] /\
   isLoading (store (snd failed)) = true /\
   model_calls (snd failed) = 0%nat) /\
  (fst late = Returned tt /\
   messages (store (snd late)) =
     messages ready ++ [userMessage_of question; generic_error_message]).
Proof. vm_compute. repeat split; reflexivity. Qed.

(** C6 fails as stated: after a reset during the model invocation, the
    history consists of the model turn built from the stale answer. *)
Lemma stale_answer_in_reset_history :
  let run := raced_turn (scripted (inr plain_text) (inr final_text) (inr three_records)
                           log_ok None) ready in
  fst run = Returned tt /\
  messages (store (snd run)) =
    [model_message [text_part (lit "We use three suppliers.")] None] /\
  messages (store (snd run)) <> [].
Proof. vm_compute. repeat split; try reflexivity. discriminate. Qed.

(** C9 fails as stated: with no session context and no saved prompt, a turn
    that passes the guard makes no model invocation. *)
Lemma no_prompt_no_model_invocation :
  let run := turn (scripted (inr plain_text) (inr final_text) (inr three_records)
                     log_ok None) unconfigured in
  rejects unconfigured (Some question) = false /\
  messages (store (snd run)) =
    messages unconfigured ++ [userMessage_of question; generic_error_message] /\
  model_calls (snd run) = 0%nat.
Proof. vm_compute. repeat split; reflexivity. Qed.

(** C10 fails as stated: an answer that contains a function call naming
    another function, followed by one naming [search_purchase_orders], leads
    to a search and to the follow-up answer, not to the candidate's parts. *)
Lemma mixed_function_calls_reach_search :
  let run := turn (scripted (inr other_then_search) (inr final_text) (inr three_records)
                     log_ok None) ready in
  (exists part fc, In part (parts_of_candidate
      {| content := Some {| candidate_parts := Some
           [search_call_part "get_weather"; search_call_part "search_purchase_orders"] |};
         candidate_citationMetadata := None |}) /\
     functionCall part = Some fc /\ fc_name fc <> lit "search_purchase_orders") /\
  first_model_answer (snd run) = Some (inr other_then_search) /\
  search_calls (snd run) = 1%nat /\
  last_text (messages (store (snd run))) = Some (lit "Found 3 orders.").
Proof.
  split.
  - exists (search_call_part "get_weather"), {| fc_name := lit "get_weather";
      fc_args := [(lit "supplierName", lit "Huolto-Karhu")] |}.
    split; [left; reflexivity|]. split; [reflexivity|]. vm_compute. discriminate.
  - vm_compute. repeat split; reflexivity.
Qed.

(** C9 at a successful round-trip. *)
Lemma invocation_counts_witness :
  let o := scripted (inr asks_search) (inr final_text) (inr three_records) log_ok None in
  let w := snd (turn o ready) in
  (rejects ready (Some question) = false /\ telemetry_resolves o /\ is_Some (user ready)) /\
  match systemPrompt_of o ready with
  | Some _ => model_calls w = 1%nat \/ model_calls w = 2%nat
  | None => model_calls w = 0%nat
  end /\
  (model_calls w = 2%nat <-> recognized_returned w = true /\ search_succeeded w = true) /\
  (search_calls w = 0%nat \/ search_calls w = 1%nat) /\
  (search_calls w = 1%nat <-> recognized_returned w = true) /\
  (exists appended, messages (store w) = messages ready ++ appended).
Proof.
  intros o w.
  assert (Hguard : rejects ready (Some question) = false) by reflexivity.
  assert (Htel : telemetry_resolves o) by (intros sid entry; reflexivity).
  assert (Huser : is_Some (user ready)) by (eexists; reflexivity).
  split; [auto|].
  exact (invocation_counts gm o ready (Some question) ready Hguard Htel Huser).
Defined.

(** C10 at an answer whose only function call names another function. *)
Lemma unrecognized_call_falls_through_witness :
  let result := answer [search_call_part "get_weather"] in
  let candidate :=
    {| content := Some {| candidate_parts := Some [search_call_part "get_weather"] |};
       candidate_citationMetadata := None |} in
  let o := scripted (inr result) (inr final_text) (inr three_records) log_ok None in
  let w := snd (turn o ready) in
  (telemetry_resolves o /\
   first_model_answer w = Some (inr result) /\
   first_candidate result = Some candidate /\
   (exists part fc, In part (parts_of_candidate candidate) /\ functionCall part = Some fc) /\
   (forall part fc, In part (parts_of_candidate candidate) -> functionCall part = Some fc ->
      fc_name fc <> lit "search_purchase_orders")) /\
  search_calls w = 0%nat /\
  messages (store w) =
    messages ready ++
    [userMessage_of question; model_message [search_call_part "get_weather"] None].
Proof.
  intros result candidate o w.
  assert (Htel : telemetry_resolves o) by (intros sid entry; reflexivity).
  assert (Hfirst : first_model_answer w = Some (inr result)) by (vm_compute; reflexivity).
  assert (Hcand : first_candidate result = Some candidate) by reflexivity.
  assert (Hsome : exists part fc,
            In part (parts_of_candidate candidate) /\ functionCall part = Some fc).
  { exists (search_call_part "get_weather"). eexists. split; [left|]; reflexivity. }
  assert (Hnone : forall part fc, In part (parts_of_candidate candidate) ->
            functionCall part = Some fc -> fc_name fc <> lit "search_purchase_orders").
  { intros part fc [<-|[]] [= <-] H. vm_compute in H. discriminate. }
  split; [auto 10|].
  exact (unrecognized_call_falls_through gm o ready (Some question) ready result candidate
           Htel Hfirst Hcand Hsome Hnone).
Defined.

(** C5 at a plain answer, with the telemetry session of [ready]. *)
Lemma telemetry_awaited_and_history_neutral_witness :
  let o := scripted (inr plain_text) (inr final_text) (inr three_records) log_ok None in
  (rejects ready (Some question) = false /\
   continuousImprovementSessionId ready = Some (lit "ci1") /\
   truthy (lit "ci1") = true /\
   telemetry_resolves o) /\
  (let suspended := until_await o (handleSendMessage gm ready (Some question)) (initial ready) in
   fst suspended =
     Pending (Req (addTechnicalLog (lit "ci1")
                     (user_message (textToSend_of ready (Some question))))) /\
   messages (store (snd suspended)) =
     messages ready ++ [userMessage_of (textToSend_of ready (Some question))] /\
   isLoading (store (snd suspended)) = true /\
   model_calls (snd suspended) = 0%nat) /\
  messages (store (snd (exec o (handleSendMessage gm ready (Some question)) (initial ready)))) =
  messages (store (snd (exec o
     (handleSendMessage gm (with_continuousImprovementSessionId None ready) (Some question))
     (initial ready)))).
Proof.
  intros o.
  assert (Hguard : rejects ready (Some question) = false) by reflexivity.
  assert (Hsid : continuousImprovementSessionId ready = Some (lit "ci1")) by reflexivity.
  assert (Htruthy : truthy (lit "ci1") = true) by reflexivity.
  assert (Htel : telemetry_resolves o) by (intros sid entry; reflexivity).
  split; [auto|].
  exact (telemetry_awaited_and_history_neutral gm o ready (Some question) ready (lit "ci1")
           Hguard Hsid Htruthy Htel).
Defined.

(** C6 at a plain answer. *)
Lemma stale_answer_lands_after_reset_witness :
  let o := scripted (inr plain_text) (inr final_text) (inr three_records) log_ok None in
  let stale := [model_message [text_part (lit "We use three suppliers.")] None] in
  ((1 <= model_calls (snd (turn o ready)))%nat /\
   messages (store (snd (turn o ready))) =
     messages ready ++ userMessage_of (textToSend_of ready (Some question)) :: stale) /\
  messages (store (snd (raced_turn o ready))) = stale.
Proof.
  intros o stale.
  assert (Hcalls : (1 <= model_calls (snd (turn o ready)))%nat) by (vm_compute; lia).
  assert (Hmsgs : messages (store (snd (turn o ready))) =
            messages ready ++ userMessage_of (textToSend_of ready (Some question)) :: stale)
    by (vm_compute; reflexivity).
  split; [auto|].
  exact (stale_answer_lands_after_reset gm o ready (Some question) ready stale
           Hcalls Hmsgs).
Defined.

(** * More of the component *)

(** ** The program logic *)

Section Obeys.

Context (rid : jsstring) (PU : (Render -> Render) -> Prop) (PR : Request -> Prop).

Lemma obeys_bind {A B} (Q1 : A -> Prop) (Q : B -> Prop) E (p : Prog A) (f : A -> Prog B) :
  obeys rid PU PR Q1 E p ->
  (forall a, Q1 a -> obeys rid PU PR Q E (f a)) ->
  obeys rid PU PR Q E (bind p f).
Proof.
  intros Hp Hf. induction Hp; cbn; try (constructor; auto; fail).
  - apply Hf. assumption.
Qed.

Lemma obeys_try_catch {A} (Q : A -> Prop) (E1 E : Thrown -> Prop) (p : Prog A) h :
  obeys rid PU PR Q E1 p ->
  (forall e, E1 e -> obeys rid PU PR Q E (h e)) ->
  obeys rid PU PR Q E (try_catch p h).
Proof.
  intros Hp Hh. induction Hp; cbn; try (constructor; auto; fail).
  - apply Hh. assumption.
Qed.

Lemma obeys_try_finally {A} (Q : A -> Prop) (E : Thrown -> Prop) (p : Prog A) fin :
  obeys rid PU PR Q E p ->
  obeys rid PU PR (fun _ : unit => True) E fin ->
  obeys rid PU PR Q E (try_finally p fin).
Proof.
  intros Hp Hfin. induction Hp; cbn; try (constructor; auto; fail).
  - eapply obeys_bind; [exact Hfin|]. intros _ _. constructor. assumption.
  - eapply obeys_bind; [exact Hfin|]. intros _ _. constructor. assumption.
Qed.

Lemma obeys_weaken {A} (Q Q' : A -> Prop) (E E' : Thrown -> Prop) (p : Prog A) :
  obeys rid PU PR Q E p ->
  (forall a, Q a -> Q' a) -> (forall e, E e -> E' e) ->
  obeys rid PU PR Q' E' p.
Proof. intros Hp HQ HE. induction Hp; constructor; auto. Qed.

(** Soundness: what a derivation says about a run. *)
Lemma obeys_sound {A} (Q : A -> Prop) E (p : Prog A) o (I : Render -> Prop) :
  obeys rid PU PR Q E p ->
  random_id o = rid ->
  (forall f r, PU f -> I r -> I (f r)) ->
  forall w,
    I (store w) ->
    Forall (fun c => PR (request_of c)) (calls w) ->
    match fst (exec o p w) with
    | Returned a => Q a
    | Rejected e => E e
    end /\
    I (store (snd (exec o p w))) /\
    Forall (fun c => PR (request_of c)) (calls (snd (exec o p w))).
Proof.
  intros Hp Hrid HI.
  induction Hp as [a Ha|e He|X c k Hc _ IH|f k Hf _ IH|level label k _ IH|k _ IH];
    intros w Hw Hcalls; cbn.
  - auto.
  - auto.
  - apply IH; [exact Hw|]. cbn. apply Forall_app. split; [exact Hcalls|].
    constructor; [exact Hc|constructor].
  - apply IH; [|exact Hcalls]. cbn. apply HI; assumption.
  - apply IH; assumption.
  - rewrite Hrid. apply IH; assumption.
Qed.

End Obeys.

Lemma obeys_updates_weaken {A} rid (PU PU' : (Render -> Render) -> Prop) PR
    (Q : A -> Prop) E (p : Prog A) :
  obeys rid PU PR Q E p -> (forall f, PU f -> PU' f) -> obeys rid PU' PR Q E p.
Proof. intros Hp H. induction Hp; constructor; auto. Qed.

Lemma obeys_requests_weaken {A} rid PU (PR PR' : Request -> Prop)
    (Q : A -> Prop) E (p : Prog A) :
  obeys rid PU PR Q E p -> (forall q, PR q -> PR' q) -> obeys rid PU PR' Q E p.
Proof. intros Hp H. induction Hp; constructor; auto. Qed.

(** What a derivation says about the store alone. *)
Lemma obeys_store {A} rid PU PR (Q : A -> Prop) E (p : Prog A) o (I : Render -> Prop) w :
  obeys rid PU PR Q E p ->
  random_id o = rid ->
  (forall f r, PU f -> I r -> I (f r)) ->
  I (store w) ->
  match fst (exec o p w) with
  | Returned a => Q a
  | Rejected e => E e
  end /\
  I (store (snd (exec o p w))).
Proof.
  intros Hp Hrid HI Hw.
  apply (obeys_requests_weaken _ _ _ (fun _ => True)) in Hp; [|auto].
  destruct (obeys_sound _ _ _ _ _ _ o I Hp Hrid HI w Hw) as (H1 & H2 & _); auto.
  apply Forall_forall. auto.
Qed.

(** ** What [handleSendMessage] may do *)

Ltac obey :=
  unfold console, await, setMessages, setInput, setIsLoading, setSessionActive,
    setChatSession, setSessionInitializing, setContinuousImprovementSessionId, perform;
  cbn [bind try_catch try_finally];
  lazymatch goal with
  | |- obeys _ _ _ _ _ (Ret _) => apply obeys_ret
  | |- obeys _ _ _ _ _ (Throw _) => apply obeys_throw
  | |- obeys _ _ _ _ _ (Vis (Await _) _) => apply obeys_await; [|intros ?]
  | |- obeys _ _ _ _ _ (Vis (SetState _) _) => apply obeys_set
  | |- obeys _ _ _ _ _ (Vis (Console _ _) _) => apply obeys_console
  | |- obeys _ _ _ _ _ (Vis MathRandomId _) => apply obeys_random
  | |- obeys _ _ _ _ _ (match ?x with _ => _ end) => destruct x eqn:?
  | |- obeys _ _ _ _ _ (if ?x then _ else _) => destruct x eqn:?
  | |- obeys _ _ _ _ _ ?p =>
      match p with
      | context [match ?x with _ => _ end] => is_var x; destruct x
      | context [match ?x with _ => _ end] => destruct x eqn:?
      end
  end.

Lemma js_eqb_eq a b : eqb a b = true -> a = b.
Proof. unfold eqb. intros H. apply bool_decide_eq_true in H. exact H. Qed.

Lemma recognized_call_spec ps part fc :
  recognized_call ps = Some (part, fc) ->
  In part ps /\ functionCall part = Some fc /\ fc_name fc = lit "search_purchase_orders".
Proof.
  induction ps as [|p rest IH]; [discriminate|]. cbn.
  destruct (functionCall p) as [fc'|] eqn:Hfc.
  - destruct (eqb (fc_name fc') (lit "search_purchase_orders")) eqn:Hname.
    + intros [= <- <-]. auto using js_eqb_eq.
    + intros H. destruct (IH H) as (? & ? & ?). auto.
  - intros H. destruct (IH H) as (? & ? & ?). auto.
Qed.

Lemma take_length_le {A} n (l : list A) : (length (take n l) <= n)%nat.
Proof. rewrite length_take. lia. Qed.

Section SendObeys.

Context (gm : jsstring) (cl : Render) (t rid : jsstring) (P : jsstring -> Prop).

Lemma initializeContinuousImprovement_obeys messageText :
  truthy_opt (continuousImprovementSessionId cl) = false ->
  obeys rid (send_update cl messageText) (send_request gm cl t rid P)
    (fun _ : unit => True) (fun _ => False) (initializeContinuousImprovement cl).
Proof.
  intros Hsid. unfold initializeContinuousImprovement. rewrite Hsid.
  destruct (user cl) as [u|] eqn:Hu; cbn; repeat (obey; cbn); auto.
  - repeat split; eauto.
  - apply send_sets_session. exact Hsid.
Qed.

Lemma log_event_obeys PU entry :
  logged t rid entry ->
  obeys rid PU (send_request gm cl t rid P)
    (fun _ : unit => True) (fun _ => has_telemetry_session cl) (log_event cl entry).
Proof.
  intros Hentry. unfold log_event, has_telemetry_session.
  destruct (continuousImprovementSessionId cl) as [sid|] eqn:Hsid; cbn; [|obey; auto].
  destruct (truthy sid) eqn:Ht; cbn; repeat (obey; cbn); auto.
Qed.

Lemma log_event_obeys_in_try PU entry :
  logged t rid entry ->
  obeys rid PU (send_request gm cl t rid P)
    (fun _ : unit => True) (fun _ => True) (log_event cl entry).
Proof.
  intros H. eapply obeys_weaken; [apply log_event_obeys; exact H|auto..].
Qed.

Lemma load_systemPrompt_obeys PU :
  obeys rid PU (send_request gm cl t rid P)
    (prompt_of_render cl) (fun _ => True) (load_systemPrompt cl).
Proof.
  unfold load_systemPrompt, prompt_of_render.
  destruct (chatSession cl) as [session|] eqn:Hcs; [obey; reflexivity|].
  destruct (user cl) as [u|] eqn:Hu; cbn; repeat (obey; cbn); auto.
  all: try (cbn; rewrite Hcs; eauto; fail).
  all: try discriminate.
  all: unfold or_else in *; repeat (obey; cbn); auto.
Qed.

Lemma search_try_obeys systemPrompt part fc :
  P systemPrompt ->
  functionCall part = Some fc -> fc_name fc = lit "search_purchase_orders" ->
  obeys rid turn_update (send_request gm cl t rid P)
    (fun _ : unit => True) (fun _ => True)
    (search_try gm cl systemPrompt t part (fc_name fc) (fc_args fc)).
Proof.
  intros Hsp Hfc Hname. unfold search_try. cbn. obey. obey.
  eapply obeys_bind with (Q1 := fun _ => True).
  { apply log_event_obeys_in_try. cbn. auto. }
  intros _ _.
  destruct (user cl) as [u|] eqn:Hu; cbn; [|obey; auto].
  obey. { cbn. eauto. }
  destruct x as [e|searchResult]; cbn; [obey; auto|].
  obey.
  eapply obeys_bind with (Q1 := fun _ => True).
  { apply log_event_obeys_in_try. cbn. auto using take_length_le. }
  intros _ _. cbn. obey.
  { cbn. split; [reflexivity|].
    exists systemPrompt, [{| content_role := role_model; content_parts := [part] |};
                          functionResponse_of (lit "search_purchase_orders") searchResult].
    split; [exact Hsp|]. split.
    - rewrite Hname. unfold followUp_contents, first_contents.
      rewrite app_comm_cons, <- app_assoc. reflexivity.
    - right. exists part, fc, searchResult. auto. }
  destruct x as [e|followUpResult]; cbn; [obey; auto|].
  destruct (first_content (response followUpResult)) as [c|]; [|obey; auto].
  obey.
  eapply obeys_bind with (Q1 := fun _ => True).
  { apply log_event_obeys_in_try. cbn. auto using take_length_le. }
  intros _ _. cbn. obey; [|obey; auto].
  apply turn_appends. reflexivity.
Qed.

Lemma search_catch_obeys systemPrompt functionName functionArgs e :
  obeys rid turn_update (send_request gm cl t rid P)
    (fun _ : unit => True) (fun _ => True)
    (search_catch gm cl systemPrompt t functionName functionArgs e).
Proof. unfold search_catch. cbn. obey. auto. Qed.

Lemma scan_parts_obeys systemPrompt ps :
  P systemPrompt ->
  obeys rid turn_update (send_request gm cl t rid P)
    (fun _ : bool => True) (fun _ => True)
    (scan_parts gm cl systemPrompt t ps).
Proof.
  intros Hsp. rewrite scan_parts_eq.
  destruct (recognized_call ps) as [[part fc]|] eqn:Hrec; [|obey; auto].
  apply recognized_call_spec in Hrec as (_ & Hfc & Hname).
  eapply obeys_bind with (Q1 := fun _ => True); [|intros _ _; obey; auto].
  eapply obeys_try_catch.
  - apply search_try_obeys; eassumption.
  - intros e _. apply search_catch_obeys.
Qed.

Lemma plain_answer_obeys candidate :
  obeys rid turn_update (send_request gm cl t rid P)
    (fun _ : unit => True) (fun _ => True) (plain_answer cl candidate).
Proof.
  unfold plain_answer.
  eapply obeys_bind with (Q1 := fun _ => True).
  { apply log_event_obeys_in_try. cbn. auto using take_length_le. }
  intros _ _. cbn. obey; [|obey; auto].
  apply turn_appends. reflexivity.
Qed.

Lemma on_result_obeys systemPrompt result :
  P systemPrompt ->
  obeys rid turn_update (send_request gm cl t rid P)
    (fun _ : unit => True) (fun _ => True) (on_result gm cl systemPrompt t result).
Proof.
  intros Hsp. unfold on_result.
  destruct (response result) as [[[[|candidate rest]|]]|]; try (obey; auto; fail).
  eapply obeys_bind with (Q1 := fun _ => True).
  - destruct (content candidate) as [[[ps|]]|]; try (obey; auto; fail).
    apply scan_parts_obeys. exact Hsp.
  - intros [] _; [obey; auto|]. apply plain_answer_obeys.
Qed.

(** The turn from its first model invocation on, with the system prompt in
    hand. *)
Lemma answer_obeys systemPrompt :
  P systemPrompt ->
  obeys rid turn_update (send_request gm cl t rid P)
    (fun _ : unit => True) (fun _ => True)
    (let* result :=
       await (generateContent (the_model gm) (first_contents cl systemPrompt t)) in
     on_result gm cl systemPrompt t result).
Proof.
  intros Hsp. cbn. obey.
  { cbn. split; [reflexivity|]. exists systemPrompt, []. rewrite app_nil_r. auto. }
  destruct x as [e|result]; cbn; [obey; auto|].
  apply on_result_obeys. exact Hsp.
Qed.

Lemma turn_catch_obeys e :
  obeys rid turn_update (send_request gm cl t rid P)
    (fun _ : unit => True) (fun _ => False) (turn_catch e).
Proof.
  unfold turn_catch. cbn. obey. obey; [|obey; auto].
  apply turn_appends. reflexivity.
Qed.

Lemma release_obeys :
  obeys rid turn_update (send_request gm cl t rid P)
    (fun _ : unit => True) (fun _ => False) (setIsLoading false).
Proof. cbn. obey; [|obey; auto]. apply turn_sets_loading. Qed.

Lemma answered_turn_obeys systemPrompt :
  P systemPrompt ->
  obeys rid turn_update (send_request gm cl t rid P)
    (fun _ : unit => True) (fun _ => False)
    (try_finally
       (try_catch
          (let* result :=
             await (generateContent (the_model gm) (first_contents cl systemPrompt t)) in
           on_result gm cl systemPrompt t result)
          turn_catch)
       (setIsLoading false)).
Proof.
  intros Hsp. eapply obeys_try_finally; [|apply release_obeys].
  eapply obeys_try_catch; [apply answer_obeys; exact Hsp|].
  intros e _. apply turn_catch_obeys.
Qed.

Lemma turn_try_obeys :
  (forall systemPrompt, prompt_of_render cl systemPrompt -> P systemPrompt) ->
  obeys rid turn_update (send_request gm cl t rid P)
    (fun _ : unit => True) (fun _ => True) (turn_try gm cl t).
Proof.
  intros HP. unfold turn_try.
  eapply obeys_bind; [apply load_systemPrompt_obeys|].
  intros systemPrompt Hsp. apply answer_obeys. apply HP. exact Hsp.
Qed.

(** The [try]/[catch]/[finally] of lines 234-466 never throws. *)
Lemma turn_obeys :
  (forall systemPrompt, prompt_of_render cl systemPrompt -> P systemPrompt) ->
  obeys rid turn_update (send_request gm cl t rid P)
    (fun _ : unit => True) (fun _ => False)
    (try_finally (try_catch (turn_try gm cl t) turn_catch) (setIsLoading false)).
Proof.
  intros HP. eapply obeys_try_finally; [|apply release_obeys].
  eapply obeys_try_catch; [apply turn_try_obeys; exact HP|].
  intros e _. apply turn_catch_obeys.
Qed.

End SendObeys.

Lemma send_prelude_obeys gm cl messageText rid P :
  obeys rid (send_update cl messageText)
    (send_request gm cl (textToSend_of cl messageText) rid P)
    (fun _ : unit => True) (fun _ => has_telemetry_session cl)
    (send_prelude cl messageText).
Proof.
  unfold send_prelude.
  eapply obeys_bind with (Q1 := fun _ => True).
  { unfold when. destruct (truthy_opt (continuousImprovementSessionId cl)) eqn:Hsid; cbn.
    - obey. auto.
    - eapply obeys_weaken;
        [apply initializeContinuousImprovement_obeys; exact Hsid|auto|intros ? []]. }
  intros _ _. cbn. obey; [apply send_appends_user|].
  eapply obeys_bind with (Q1 := fun _ => True).
  { unfold when. destruct (truthy_opt messageText) eqn:Hmt; cbn; repeat (obey; cbn); auto.
    apply send_clears_input. exact Hmt. }
  intros _ _. cbn. obey; [apply send_in_turn, turn_sets_loading|].
  apply log_event_obeys. reflexivity.
Qed.

(** Every run of [handleSendMessage] stays within [send_update] and
    [send_request]; a value thrown out of it was thrown at a telemetry
    write. *)
Lemma handleSendMessage_obeys gm cl messageText rid :
  obeys rid (send_update cl messageText)
    (send_request gm cl (textToSend_of cl messageText) rid (prompt_of_render cl))
    (fun _ : unit => True) (fun _ => has_telemetry_session cl)
    (handleSendMessage gm cl messageText).
Proof.
  unfold handleSendMessage.
  destruct (rejects cl messageText); [obey; auto|].
  eapply obeys_bind; [apply send_prelude_obeys|]. intros _ _.
  eapply obeys_weaken with (E := fun _ => False); [|auto|intros ? []].
  eapply obeys_updates_weaken; [apply turn_obeys; auto|apply send_in_turn].
Qed.

(** The requests a send made, read off its record. *)
Lemma send_calls gm o cl messageText s :
  Forall (fun c => send_request gm cl (textToSend_of cl messageText) (random_id o)
                     (prompt_of_render cl) (request_of c))
    (calls (snd (exec o (handleSendMessage gm cl messageText) (initial s)))).
Proof.
  apply (obeys_sound _ _ _ _ _ _ o (fun _ => True)
           (handleSendMessage_obeys gm cl messageText (random_id o)) eq_refl); auto.
Qed.

(** X1. A send never touches the session: the session context, the
    session flags, the keys, the user and the workspace of the store are
    left as they were, and the history is only extended, by the user turn
    of this send and by model turns. *)
Theorem send_keeps_session_state (gm : jsstring) (o : Collaborators) (cl : Render)
    (messageText : option jsstring) (w : World) :
  let r := store (snd (exec o (handleSendMessage gm cl messageText) w)) in
  session_state_kept (store w) r /\
  exists added,
    messages r = messages (store w) ++ added /\
    Forall (fun m => m = userMessage_of (textToSend_of cl messageText) \/
                     role m = role_model) added.
Proof.
  cbv zeta.
  apply (obeys_store _ _ _ _ _ _ o
           (fun r => session_state_kept (store w) r /\
                     exists added, messages r = messages (store w) ++ added /\
                       Forall (fun m => m = userMessage_of (textToSend_of cl messageText) \/
                                        role m = role_model) added) w
           (handleSendMessage_obeys gm cl messageText (random_id o)) eq_refl).
  - intros f r Hf (Hkept & added & Hadd & Hall).
    assert (Hgrow : forall m,
              (m = userMessage_of (textToSend_of cl messageText) \/ role m = role_model) ->
              exists added', messages r ++ [m] = messages (store w) ++ added' /\
                Forall (fun m => m = userMessage_of (textToSend_of cl messageText) \/
                                 role m = role_model) added').
    { intros m Hm. exists (added ++ [m]). rewrite Hadd, app_assoc. split; [reflexivity|].
      apply Forall_app. split; [exact Hall|]. constructor; [exact Hm|constructor]. }
    destruct Hf as [f [m Hm|b]| | |]; cbn; eauto.
  - split; [repeat split|]. exists []. rewrite app_nil_r. split; [reflexivity|constructor].
Qed.

(** X2. Every telemetry write of a send goes to the telemetry session of
    the render the handler was created in, and carries the text of this
    send, the one correlation id drawn in it, at most 3 records and at most
    500 code units of answer text; a [function_call_error] event is never
    written. *)
Theorem send_logs_to_closure_session (gm : jsstring) (o : Collaborators) (cl : Render)
    (messageText : option jsstring) (s : Render) :
  Forall (fun c =>
            match telemetry_target c with
            | Some (sessionId, entry) =>
                continuousImprovementSessionId cl = Some sessionId /\
                logged (textToSend_of cl messageText) (random_id o) entry
            | None => True
            end)
    (calls (snd (exec o (handleSendMessage gm cl messageText) (initial s)))).
Proof.
  eapply Forall_impl; [apply send_calls|].
  intros [X c r]. unfold telemetry_target. cbn. destruct c; cbn; tauto.
Qed.

Lemma filter_nil_Forall {A} (f : A -> bool) (Q : A -> Prop) (l : list A) :
  (forall a, f a = false -> Q a) ->
  List.filter f l = [] -> Forall Q l.
Proof.
  intros HQ. induction l as [|a l IH]; [constructor|]. cbn.
  destruct (f a) eqn:Ha; [discriminate|]. intros H. constructor; auto.
Qed.

(** What has been called before the first model invocation says nothing
    about model invocations. *)
Lemma quiet_calls_have_no_contents (l : list Call) (P : list Content -> Prop) :
  List.filter is_model_call l = [] ->
  Forall (fun c => match call_contents c with Some contents => P contents | None => True end) l.
Proof.
  apply filter_nil_Forall. intros [X c r]. destruct c; cbn; auto; discriminate.
Qed.

(** X3. Every model invocation of a send is issued with the system prompt
    turn, the history of the render the handler was created in and the user
    turn, followed by nothing or by the two turns of a follow-up.  The system
    prompt is the one lines 236-258 arrive at: the session context when that
    render has one, and otherwise the non-empty prompt that the prompt store
    returned for the user and workspace of that render. *)
Theorem send_model_contents (gm : jsstring) (o : Collaborators) (cl : Render)
    (messageText : option jsstring) (s : Render) :
  Forall (fun c =>
            match call_contents c with
            | Some contents =>
                exists systemPrompt rest,
                  systemPrompt_of o cl = Some systemPrompt /\
                  match chatSession cl with
                  | Some session => systemPrompt = fullContext session
                  | None =>
                      truthy systemPrompt = true /\
                      exists u,
                        user cl = Some u /\
                        respond o (loadLatestPrompt (uid u) (currentWorkspace cl)) =
                          inr (Some systemPrompt)
                  end /\
                  contents =
                    first_contents cl systemPrompt (textToSend_of cl messageText) ++ rest /\
                  (rest = [] \/ follow_up_turns rest)
            | None => True
            end)
    (calls (snd (exec o (handleSendMessage gm cl messageText) (initial s)))).
Proof.
  destruct (rejects cl messageText) eqn:Hguard.
  { rewrite guarded_send_returns by exact Hguard. constructor. }
  destruct (turn_starts gm o cl messageText s Hguard)
    as (out1 & w2 & _ & Hmodel2 & _ & _ & ->).
  destruct out1 as [[]|e1]; [|apply quiet_calls_have_no_contents; exact Hmodel2].
  destruct (systemPrompt_of o cl) as [systemPrompt|] eqn:Hprompt;
    [|apply quiet_calls_have_no_contents; exact Hmodel2].
  assert (Hread : match chatSession cl with
                  | Some session => systemPrompt = fullContext session
                  | None =>
                      truthy systemPrompt = true /\
                      exists u,
                        user cl = Some u /\
                        respond o (loadLatestPrompt (uid u) (currentWorkspace cl)) =
                          inr (Some systemPrompt)
                  end).
  { unfold systemPrompt_of in Hprompt.
    destruct (chatSession cl) as [session|]; [congruence|].
    destruct (user cl) as [u|]; [|discriminate].
    destruct (truthy (uid u)); [|discriminate].
    destruct (respond o (loadLatestPrompt (uid u) (currentWorkspace cl)))
      as [e|[[|c r]|]] eqn:Hload; try discriminate.
    injection Hprompt as <-. split; [reflexivity|]. exists u. auto. }
  set (expected := fun contents : list Content =>
         exists systemPrompt0 rest,
           Some systemPrompt = Some systemPrompt0 /\
           match chatSession cl with
           | Some session => systemPrompt0 = fullContext session
           | None =>
               truthy systemPrompt0 = true /\
               exists u,
                 user cl = Some u /\
                 respond o (loadLatestPrompt (uid u) (currentWorkspace cl)) =
                   inr (Some systemPrompt0)
           end /\
           contents =
             first_contents cl systemPrompt0 (textToSend_of cl messageText) ++ rest /\
           (rest = [] \/ follow_up_turns rest)).
  set (asked := fun c : Call =>
         match call_contents c with Some contents => expected contents | None => True end).
  assert (Hobeys : obeys (random_id o) turn_update
            (fun q => forall c, request_of c = q -> asked c)
            (fun _ : unit => True) (fun _ => False)
            (try_finally
               (try_catch
                  (let* result :=
                     await (generateContent (the_model gm)
                              (first_contents cl systemPrompt
                                 (textToSend_of cl messageText))) in
                   on_result gm cl systemPrompt (textToSend_of cl messageText) result)
                  turn_catch)
               (setIsLoading false))).
  { eapply obeys_requests_weaken;
      [apply (answered_turn_obeys gm cl (textToSend_of cl messageText) (random_id o)
                (eq systemPrompt) systemPrompt eq_refl)|].
    intros q Hq [X c r] <-. cbn in Hq. subst asked expected. destruct c; cbn; try exact I.
    destruct Hq as (_ & systemPrompt0 & rest & <- & -> & Hrest). eauto 10. }
  assert (Hbefore : Forall (fun c => forall c', request_of c' = request_of c -> asked c')
                      (calls w2)).
  { apply (filter_nil_Forall is_model_call); [|exact Hmodel2].
    intros [X c r] Hc [X' c' r'] Heq. subst asked. cbn in *.
    destruct c; try discriminate; destruct c'; try discriminate; exact I. }
  destruct (obeys_sound _ _ _ _ _ _ o (fun _ => True) Hobeys eq_refl (fun _ _ _ _ => I)
              w2 I Hbefore) as (_ & _ & Hcalls).
  eapply Forall_impl; [exact Hcalls|]. intros c Hc. apply (Hc c eq_refl).
Qed.

(** X4. A send asks the other collaborators only on behalf of the render it
    was created in: it never initialises a chat session; it reads the prompt
    store only when that render has no session context, and creates a
    telemetry session only when that render has none; these requests and
    every search carry the uid and the workspace of that render. *)
Theorem send_requests_are_scoped (gm : jsstring) (o : Collaborators) (cl : Render)
    (messageText : option jsstring) (s : Render) :
  Forall (fun c =>
            match request_of c with
            | Req (initializeChatSession _ _) => False
            | Req (loadLatestPrompt userId workspace) =>
                chatSession cl = None /\ workspace = currentWorkspace cl /\
                option_map uid (user cl) = Some userId
            | Req (createContinuousImprovementSession _ chatKey userId workspace) =>
                truthy_opt (continuousImprovementSessionId cl) = false /\
                chatKey = chatSessionKey cl /\ workspace = currentWorkspace cl /\
                option_map uid (user cl) = Some userId
            | Req (searchRecords userId _) => option_map uid (user cl) = Some userId
            | _ => True
            end)
    (calls (snd (exec o (handleSendMessage gm cl messageText) (initial s)))).
Proof.
  eapply Forall_impl; [apply send_calls|].
  intros [X c r]. cbn. destruct c; cbn; try tauto.
  - intros (? & ? & ? & u & -> & ->). auto.
  - intros (? & ? & u & -> & ->). auto.
  - intros (u & -> & ->). auto.
Qed.

(** The prelude, by what the collaborators answer. *)
Lemma send_prelude_run o cl messageText w :
  let t := textToSend_of cl messageText in
  let w' := snd (exec o (send_prelude cl messageText) w) in
  messages (store w') = messages (store w) ++ [userMessage_of t] /\
  isLoading (store w') = true /\
  input (store w') = (if truthy_opt messageText then input (store w) else []) /\
  model_trace w' = model_trace w /\
  match fst (exec o (send_prelude cl messageText) w) with
  | Returned _ => True
  | Rejected e =>
      exists sessionId,
        continuousImprovementSessionId cl = Some sessionId /\
        respond o (addTechnicalLog sessionId (user_message t)) = inl e
  end /\
  continuousImprovementSessionId (store w') =
    match continuousImprovementSessionId cl, user cl with
    | Some (_ :: _), _ | _, None => continuousImprovementSessionId (store w)
    | _, Some u =>
        match respond o (createContinuousImprovementSession (promptKey_of cl u)
                           (chatSessionKey cl) (uid u) (currentWorkspace cl)) with
        | inr sessionId => Some sessionId
        | inl _ => continuousImprovementSessionId (store w)
        end
    end.
Proof.
  unfold send_prelude, when, initializeContinuousImprovement, log_event, model_trace,
    promptKey_of.
  destruct (continuousImprovementSessionId cl) as [[|c sid]|] eqn:Hsid; cbn.
  all: destruct (user cl) as [u|]; cbn.
  all: destruct (truthy_opt messageText); cbn.
  all: repeat match goal with
       | |- context [match respond ?o' ?c with _ => _ end] =>
           let E := fresh "E" in destruct (respond o' c) eqn:E; cbn
       end.
  all: rewrite ?List.filter_app; cbn; rewrite ?app_nil_r.
  all: repeat split; eauto.
Qed.

(** The turn proper always returns, with the flag released. *)
Lemma turn_run gm o cl t w :
  let run := exec o (try_finally (try_catch (turn_try gm cl t) turn_catch)
                       (setIsLoading false)) w in
  fst run = Returned tt /\
  isLoading (store (snd run)) = false /\
  input (store (snd run)) = input (store w) /\
  continuousImprovementSessionId (store (snd run)) =
    continuousImprovementSessionId (store w).
Proof.
  cbv zeta. split; [|split].
  - rewrite exec_try_finally, exec_try_catch.
    destruct (exec o (turn_try gm cl t) w) as [[[]|e] w1]; reflexivity.
  - rewrite exec_try_finally, exec_try_catch.
    destruct (exec o (turn_try gm cl t) w) as [[[]|e] w1]; reflexivity.
  - apply (obeys_store _ _ _ _ _ _ o
             (fun r => input r = input (store w) /\
                       continuousImprovementSessionId r =
                         continuousImprovementSessionId (store w)) w
             (turn_obeys gm cl t (random_id o) (prompt_of_render cl) (fun _ H => H)) eq_refl); [|auto].
    intros f r [m Hm|b]; cbn; auto.
Qed.

(** The turn proper only extends the history. *)
Lemma send_keeps_history gm o cl t w :
  exists rest,
    messages (store (snd (exec o (try_finally (try_catch (turn_try gm cl t) turn_catch)
                                    (setIsLoading false)) w))) =
    messages (store w) ++ rest.
Proof.
  apply (obeys_store _ _ _ _ _ _ o
           (fun r => exists rest, messages r = messages (store w) ++ rest) w
           (turn_obeys gm cl t (random_id o) (prompt_of_render cl) (fun _ H => H)) eq_refl).
  - intros f r [m Hm|b] (rest & Hr); cbn; [|eauto].
    exists (rest ++ [m]). rewrite Hr, app_assoc. reflexivity.
  - exists []. rewrite app_nil_r. reflexivity.
Qed.

(** X5. A send that passes the guard returns with the in-flight flag
    released, or else the telemetry write of its user message was rejected:
    then that rejection leaves the handler before its [try] block is
    entered, the model is not invoked, the user turn stays the last of the
    history and the flag stays raised, so that every later send from the
    resulting render is turned away by the guard. *)
Theorem send_releases_flag_unless_logging_fails (gm : jsstring) (o : Collaborators)
    (cl : Render) (messageText : option jsstring) (s : Render) :
  rejects cl messageText = false ->
  let t := textToSend_of cl messageText in
  let run := exec o (handleSendMessage gm cl messageText) (initial s) in
  (fst run = Returned tt /\ isLoading (store (snd run)) = false) \/
  (exists sessionId e,
     continuousImprovementSessionId cl = Some sessionId /\
     respond o (addTechnicalLog sessionId (user_message t)) = inl e /\
     fst run = Rejected e /\
     isLoading (store (snd run)) = true /\
     model_trace (snd run) = [] /\
     messages (store (snd run)) = messages s ++ [userMessage_of t] /\
     forall o' text w,
       exec o' (handleSendMessage gm (store (snd run)) text) w = (Returned tt, w)).
Proof.
  intros Hguard. cbv zeta. unfold handleSendMessage. rewrite Hguard, exec_bind.
  destruct (send_prelude_run o cl messageText (initial s)) as (Hmsg & Hload & _ & Hmodel & Hout & _).
  destruct (exec o (send_prelude cl messageText) (initial s)) as [[[]|e] w1]; cbn in *.
  - left. destruct (turn_run gm o cl (textToSend_of cl messageText) w1) as (H1 & H2 & _). auto.
  - right. destruct Hout as (sessionId & Hsid & He).
    exists sessionId, e. repeat split; auto.
    intros o' text w. apply send_rejected_when_loading. exact Hload.
Qed.

(** X6. The first send of a render without telemetry session creates the
    session and stores its id, but writes nothing to it: the handler still
    reads the id of the render it was created in.  Such a send always
    returns. *)
Theorem first_send_is_not_logged (gm : jsstring) (o : Collaborators)
    (cl : Render) (messageText : option jsstring) (s : Render)
    (u : User) (sessionId : jsstring) :
  rejects cl messageText = false ->
  truthy_opt (continuousImprovementSessionId cl) = false ->
  user cl = Some u ->
  respond o (createContinuousImprovementSession (promptKey_of cl u) (chatSessionKey cl)
               (uid u) (currentWorkspace cl)) = inr sessionId ->
  let run := exec o (handleSendMessage gm cl messageText) (initial s) in
  fst run = Returned tt /\
  continuousImprovementSessionId (store (snd run)) = Some sessionId /\
  omap telemetry_target (calls (snd run)) = [].
Proof.
  intros Hguard Hsid Hu Hcreate. cbv zeta. split; [|split].
  - destruct (obeys_store _ _ _ _ _ _ o (fun _ => True) (initial s)
                (handleSendMessage_obeys gm cl messageText (random_id o)) eq_refl) as [H _];
      [auto..|].
    destruct (fst (exec o (handleSendMessage gm cl messageText) (initial s))) as [[]|e];
      [reflexivity|].
    unfold has_telemetry_session in H. congruence.
  - unfold handleSendMessage. rewrite Hguard, exec_bind.
    destruct (send_prelude_run o cl messageText (initial s)) as (_ & _ & _ & _ & _ & Hstore).
    rewrite Hu, Hcreate in Hstore.
    destruct (exec o (send_prelude cl messageText) (initial s)) as [[[]|e] w1]; cbn in *.
    + destruct (turn_run gm o cl (textToSend_of cl messageText) w1) as (_ & _ & _ & ->).
      destruct (continuousImprovementSessionId cl) as [[|c r]|]; try exact Hstore.
      discriminate.
    + destruct (continuousImprovementSessionId cl) as [[|c r]|]; try exact Hstore.
      discriminate.
  - pose proof (send_calls gm o cl messageText s) as Hcalls.
    induction Hcalls as [|c l Hc _ IH]; [reflexivity|].
    cbn. rewrite IH. destruct c as [X c r]. unfold telemetry_target. cbn in *.
    destruct c; cbn in *; try reflexivity.
    destruct Hc as (Hc & Ht & _). rewrite Hc in Hsid. cbn in Hsid. congruence.
Qed.

(** X7. A send of the input field ([handleSendMessage()] without
    argument) that passes the guard leaves the field empty, whatever the
    collaborators answer. *)
Theorem field_send_clears_input (gm : jsstring) (o : Collaborators) (cl : Render)
    (s : Render) :
  rejects cl None = false ->
  input (store (snd (exec o (handleSendMessage gm cl None) (initial s)))) = [].
Proof.
  intros Hguard. unfold handleSendMessage. rewrite Hguard, exec_bind.
  destruct (send_prelude_run o cl None (initial s)) as (_ & _ & Hin & _).
  destruct (exec o (send_prelude cl None) (initial s)) as [[[]|e] w1];
    cbn in Hin; cbv beta iota.
  - destruct (turn_run gm o cl (textToSend_of cl None) w1) as (_ & _ & -> & _). exact Hin.
  - exact Hin.
Qed.

Lemma quickActions_pass_the_guard :
  Forall (fun action => truthy action = true /\ truthy (trim action) = true) quickActions.
Proof. repeat constructor. Qed.

(** X8. A quick action, clicked in a render in which no turn is in flight,
    sends its text as the user turn and leaves that text in the input
    field, whatever the collaborators answer: unlike a send of the field,
    it does not clear what it has put there. *)
Theorem quick_action_stays_in_field (gm : jsstring) (o : Collaborators) (cl : Render)
    (s : Render) (action : jsstring) :
  In action quickActions ->
  isLoading cl = false ->
  let run := exec o (handleQuickAction gm cl action) (initial s) in
  input (store (snd run)) = action /\
  exists rest, messages (store (snd run)) = messages s ++ userMessage_of action :: rest.
Proof.
  intros Hin Hload. cbv zeta.
  pose proof quickActions_pass_the_guard as Hq. rewrite List.Forall_forall in Hq.
  destruct (Hq action Hin) as [Htruthy Htrim].
  assert (Htext : textToSend_of cl (Some action) = action).
  { unfold textToSend_of, or_else. destruct action; [discriminate|reflexivity]. }
  assert (Hguard : rejects cl (Some action) = false).
  { unfold rejects. rewrite Htext, Htrim, Hload. reflexivity. }
  unfold handleQuickAction. cbn [setInput perform bind exec].
  unfold handleSendMessage. rewrite Hguard, exec_bind.
  destruct (send_prelude_run o cl (Some action) (update_store (with_input action) (initial s)))
    as (Hmsg & _ & Hinput & _).
  cbn [truthy_opt] in Hinput. rewrite Htruthy, Htext in *.
  destruct (exec o (send_prelude cl (Some action)) (update_store (with_input action) (initial s)))
    as [[[]|e] w1]; cbn in Hmsg, Hinput; cbv beta iota.
  - destruct (turn_run gm o cl action w1) as (_ & _ & Hin' & _).
    rewrite Hin'. split; [exact Hinput|].
    destruct (send_keeps_history gm o cl action w1) as (rest & ->).
    rewrite Hmsg, <- app_assoc. eauto.
  - split; [exact Hinput|]. exists []. exact Hmsg.
Qed.

(** X9. A send that passes the guard and returns has extended the history
    by the user turn and exactly one model turn, except when the follow-up
    answer has no first candidate with content: then by the user turn
    alone. *)
Theorem returned_send_appends_one_answer (gm : jsstring) (o : Collaborators)
    (cl : Render) (messageText : option jsstring) (s : Render) :
  rejects cl messageText = false ->
  let t := textToSend_of cl messageText in
  let run := exec o (handleSendMessage gm cl messageText) (initial s) in
  fst run = Returned tt ->
  (exists m, role m = role_model /\
     messages (store (snd run)) = messages s ++ [userMessage_of t; m]) \/
  (exists r, follow_up_answer (snd run) = Some (inr r) /\
     first_content (response r) = None /\
     messages (store (snd run)) = messages s ++ [userMessage_of t]).
Proof.
  intros Hguard. cbv zeta.
  run_turn gm o cl messageText s Hguard.
  all: try discriminate.
  all: intros _.
  all: try (left; eexists; split; [|rewrite <- ?app_assoc; reflexivity]; reflexivity).
  all: right; eexists; split; [reflexivity|]; split; [assumption|reflexivity].
Qed.

(** X10. The function-call path carries the data it is given.  A send
    makes no search, or exactly one: under the uid of the render's user, with
    the arguments of the first recognised function call of the first model
    answer.  When a second model invocation is made, the search has
    returned; the first invocation was issued with the system prompt of
    lines 236-258, the history of the render and the user turn, and the
    second is issued with exactly these contents followed by the model's
    function-call part and the function response built from what that
    search returned. *)
Theorem search_follows_recognised_call (gm : jsstring) (o : Collaborators)
    (cl : Render) (messageText : option jsstring) (s : Render) :
  rejects cl messageText = false ->
  let t := textToSend_of cl messageText in
  let run := exec o (handleSendMessage gm cl messageText) (initial s) in
  search_trace (snd run) = [] \/
  exists result candidate part fc u answer,
    first_model_answer (snd run) = Some (inr result) /\
    first_candidate result = Some candidate /\
    recognized_call (parts_of_candidate candidate) = Some (part, fc) /\
    user cl = Some u /\
    search_trace (snd run) = [Called (searchRecords (uid u) (fc_args fc)) answer] /\
    forall c1 c2 rest, model_trace (snd run) = c1 :: c2 :: rest ->
      exists systemPrompt searchResult,
        systemPrompt_of o cl = Some systemPrompt /\
        answer = inr searchResult /\
        call_contents c1 = Some (first_contents cl systemPrompt t) /\
        call_contents c2 =
          Some (first_contents cl systemPrompt t ++
                [{| content_role := role_model; content_parts := [part] |};
                 functionResponse_of (fc_name fc) searchResult]).
Proof.
  intros Hguard. cbv zeta.
  destruct (turn_starts gm o cl messageText s Hguard)
    as (out1 & w2 & Hmsg2 & Hmodel2 & Hsearch2 & Herr2 & ->).
  destruct out1 as [[]|e1];
    [ destruct (systemPrompt_of o cl) as [systemPrompt|] eqn:Hprompt;
      [ unfold on_result, plain_answer;
        destruct (continuousImprovementSessionId cl) as [[|c sid]|] eqn:Hsid;
        destruct (user cl) as [u|] eqn:Hu;
        run_handler
      | cbn ]
    | cbn ];
    read_run.
  all: try (left; reflexivity).
  all: right; do 6 eexists; (split; [reflexivity|]).
  all: (split; [match goal with H : response _ = _ |- _ => rewrite H end; reflexivity|]).
  all: (split; [match goal with H : content _ = _ |- _ => rewrite H end; eassumption|]).
  all: (split; [reflexivity|]); (split; [reflexivity|]).
  all: intros first second others Hc; try discriminate.
  all: injection Hc as <- <- _; do 2 eexists; (split; [reflexivity|]).
  all: split; [reflexivity|split; [reflexivity|]].
  all: cbn; unfold followUp_contents, first_contents; rewrite app_comm_cons, <- app_assoc.
  all: reflexivity.
Qed.

(** ** Reset and the telemetry session *)

(** What a reset that gets a new session context leaves in the store. *)
Lemma handleResetChat_store o cl w u session :
  user cl = Some u ->
  respond o (initializeChatSession (uid u) (currentWorkspace cl)) = inr session ->
  let r := store (snd (exec o (handleResetChat cl) w)) in
  messages r = [] /\ input r = [] /\ chatSession r = Some session.
Proof.
  intros Hu Hsession. cbv zeta. unfold handleResetChat. rewrite Hu. cbn.
  rewrite Hsession. cbn. auto.
Qed.

(** X11. A reset never rejects.  It leaves the history and the input field
    empty and the session marked inactive, also when the session context was
    refreshed; with a signed-in user it asks for one new session context and
    stores it when that resolves (none when it is rejected), and ends with
    the initialising flag down.  It touches neither the in-flight flag nor
    the telemetry session. *)
Theorem reset_outcome (o : Collaborators) (cl : Render) (w : World) :
  let run := exec o (handleResetChat cl) w in
  fst run = Returned tt /\
  messages (store (snd run)) = [] /\
  input (store (snd run)) = [] /\
  sessionActive (store (snd run)) = false /\
  isLoading (store (snd run)) = isLoading (store w) /\
  continuousImprovementSessionId (store (snd run)) =
    continuousImprovementSessionId (store w) /\
  match user cl with
  | Some u =>
      let request := initializeChatSession (uid u) (currentWorkspace cl) in
      calls (snd run) = calls w ++ [Called request (respond o request)] /\
      chatSession (store (snd run)) =
        match respond o request with
        | inr session => Some session
        | inl _ => None
        end /\
      sessionInitializing (store (snd run)) = false
  | None =>
      calls (snd run) = calls w /\
      chatSession (store (snd run)) = None /\
      sessionInitializing (store (snd run)) = sessionInitializing (store w)
  end.
Proof.
  cbv zeta. unfold handleResetChat.
  destruct (user cl) as [u|]; cbn.
  - destruct (respond o (initializeChatSession (uid u) (currentWorkspace cl))) as [e|session];
      cbn; auto 10.
  - auto 10.
Qed.

Lemma split_head_no_sep sep s : ~ In sep (split_head sep s).
Proof.
  induction s as [|c r IH]; cbn; [tauto|].
  destruct (N.eqb_spec c sep) as [->|Hne]; cbn; [tauto|].
  intros [H|H]; [congruence|tauto].
Qed.

(** X12. [initializeContinuousImprovement] never rejects.  Without a user,
    or in a render that has a telemetry session, it does nothing.  Otherwise
    it makes one request, for the chat key, the uid and the workspace of the
    render, and stores the id when the request resolves (nothing when it is
    rejected).  The prompt key of the request is never empty; when the render
    has no prompt key it is a non-empty local part without the at sign,
    followed by [_v1]. *)
Theorem telemetry_session_initialisation (o : Collaborators) (cl : Render) (w : World) :
  let run := exec o (initializeContinuousImprovement cl) w in
  fst run = Returned tt /\
  match user cl with
  | Some u =>
      if truthy_opt (continuousImprovementSessionId cl) then
        store (snd run) = store w /\ calls (snd run) = calls w
      else
        let request :=
          createContinuousImprovementSession (promptKey_of cl u) (chatSessionKey cl)
            (uid u) (currentWorkspace cl) in
        calls (snd run) = calls w ++ [Called request (respond o request)] /\
        store (snd run) =
          match respond o request with
          | inr sessionId => with_continuousImprovementSessionId (Some sessionId) (store w)
          | inl _ => store w
          end /\
        truthy (promptKey_of cl u) = true /\
        (truthy_opt (currentPromptKey cl) = false ->
         exists localPart,
           promptKey_of cl u = localPart ++ lit "_v1" /\
           truthy localPart = true /\ ~ In 64%N localPart)
  | None => store (snd run) = store w /\ calls (snd run) = calls w
  end.
Proof.
  cbv zeta. unfold initializeContinuousImprovement.
  destruct (user cl) as [u|]; [|cbn; auto].
  destruct (truthy_opt (continuousImprovementSessionId cl)); [cbn; auto|].
  fold (promptKey_of cl u). cbn.
  assert (Hlocal : exists localPart,
            or_else (option_map (split_head 64) (email u)) (lit "user") = localPart /\
            truthy localPart = true /\ ~ In 64%N localPart).
  { eexists. split; [reflexivity|].
    destruct (email u) as [e|]; cbn.
    - pose proof (split_head_no_sep 64%N e) as Hno.
      destruct (split_head 64 e) as [|c r]; cbn.
      + split; [reflexivity|]. vm_compute. intuition discriminate.
      + auto.
    - split; [reflexivity|]. vm_compute. intuition discriminate. }
  destruct Hlocal as (localPart & Hl & Htl & Hno).
  assert (Hkey : truthy (promptKey_of cl u) = true /\
                 (truthy_opt (currentPromptKey cl) = false ->
                  exists localPart, promptKey_of cl u = localPart ++ lit "_v1" /\
                    truthy localPart = true /\ ~ In 64%N localPart)).
  { unfold promptKey_of. rewrite Hl.
    destruct (currentPromptKey cl) as [[|c r]|]; cbn.
    - split; [destruct localPart; [discriminate|reflexivity]|eauto].
    - split; [reflexivity|discriminate].
    - split; [destruct localPart; [discriminate|reflexivity]|eauto]. }
  destruct (respond o (createContinuousImprovementSession (promptKey_of cl u)
                         (chatSessionKey cl) (uid u) (currentWorkspace cl)))
    as [e|sessionId]; cbn; tauto.
Qed.

(** X13. Reset, then send.  When the reset of a signed-in render gets a
    new session context, every model invocation of a send from the resulting
    render starts with exactly two turns, the new context as system prompt
    and the user turn: nothing of the history before the reset is sent. *)
Theorem send_after_reset_starts_afresh (gm : jsstring) (o o' : Collaborators)
    (cl : Render) (w : World) (u : User) (session : ChatSession)
    (messageText : option jsstring) :
  user cl = Some u ->
  respond o (initializeChatSession (uid u) (currentWorkspace cl)) = inr session ->
  let r := store (snd (exec o (handleResetChat cl) w)) in
  Forall (fun c =>
            match call_contents c with
            | Some contents =>
                exists rest,
                  contents =
                    [{| content_role := role_user;
                        content_parts := [text_part (fullContext session)] |};
                     {| content_role := role_user;
                        content_parts := [text_part (or_else messageText [])] |}] ++ rest /\
                  (rest = [] \/ follow_up_turns rest)
            | None => True
            end)
    (calls (snd (exec o' (handleSendMessage gm r messageText) (initial r)))).
Proof.
  intros Hu Hsession. cbv zeta.
  destruct (handleResetChat_store o cl w u session Hu Hsession) as (Hmsg & Hin & Hcs).
  set (r := store (snd (exec o (handleResetChat cl) w))) in *.
  eapply Forall_impl; [apply send_calls|].
  intros [X c a]. cbn. destruct c; cbn; try tauto.
  intros (_ & systemPrompt & rest & Hsp & -> & Hrest).
  exists rest. split; [|exact Hrest].
  unfold prompt_of_render in Hsp. rewrite Hcs in Hsp. subst systemPrompt.
  unfold first_contents, history_of, textToSend_of. rewrite Hmsg, Hin.
  destruct messageText as [[|c r0]|]; reflexivity.
Qed.

(** ** Rendering *)

Lemma processed_sources text srcs :
  processed_formattedSources (processTextWithCitations text srcs) =
  imap source_entry (dedupe_by_uri (List.filter has_uri (default [] srcs))).
Proof.
  unfold processTextWithCitations. cbn [processed_formattedSources].
  destruct srcs as [[|a l]|]; [reflexivity| |reflexivity].
  rewrite citation_loop_spec. cbn [formattedSources uniqueUris sourceNumber app default].
  assert (Hfresh : forall l0, List.filter (fresh_source ∅) l0 = List.filter has_uri l0).
  { intros l0. apply List.filter_ext. intros t. unfold fresh_source, has_uri, truthy_opt.
    destruct (uri t); [|reflexivity].
    rewrite bool_decide_eq_false_2 by apply not_elem_of_empty. apply andb_true_r. }
  rewrite Hfresh. apply imap_ext. intros i t _. unfold source_entry. f_equal. lia.
Qed.

Lemma filter_nil_iff {A} (P : A -> bool) l :
  List.filter P l = [] <-> Forall (fun a => P a = false) l.
Proof.
  induction l as [|a l IH]; cbn.
  - split; [constructor|reflexivity].
  - destruct (P a) eqn:Ha.
    + split; [discriminate|]. intros H. inversion H. congruence.
    + rewrite IH. split; [intros H; constructor; assumption|intros H; inversion H; assumption].
Qed.

(** X14. A part with text is rendered as that text, followed, when some
    citation of the message carries a URI, by the sources heading and one
    line for each source kept; when no citation carries a URI (or the
    message has no citation metadata) the rendering is the text itself. *)
Theorem rendering_appends_sources (message : Message) (part : Part) (t : jsstring) :
  text part = Some t ->
  truthy t = true ->
  let cited := default [] (cited_sources message) in
  let kept := dedupe_by_uri (List.filter has_uri cited) in
  rendered_markdown message part =
    Some (t ++ match kept with
               | [] => []
               | _ :: _ => sources_heading ++ join [10%N] (imap source_entry kept)
               end) /\
  (kept = [] <-> Forall (fun source => has_uri source = false) cited).
Proof.
  intros Ht Htruthy. cbv zeta. split.
  - unfold rendered_markdown. rewrite Ht. destruct t as [|c r]; [discriminate|].
    rewrite processed_sources. cbn [originalText processTextWithCitations].
    destruct (dedupe_by_uri (List.filter has_uri (default [] (cited_sources message))));
      reflexivity.
  - rewrite <- filter_nil_iff.
    destruct (List.filter has_uri (default [] (cited_sources message))); cbn;
      split; congruence.
Qed.

Lemma rendered_without_citations message part t :
  citationMetadata message = None ->
  text part = Some t -> truthy t = true ->
  rendered_markdown message part = Some t.
Proof.
  intros Hcm Ht Htruthy. unfold rendered_markdown, cited_sources. rewrite Ht, Hcm.
  destruct t as [|c r]; [discriminate|]. cbn. rewrite app_nil_r. reflexivity.
Qed.

(** X15. Citations are shown for plain answers only.  When the first model
    answer carries a recognised function call, no turn the send appends has
    citation metadata, whatever the follow-up answer carries: each of their
    text parts is rendered as the text itself. *)
Theorem search_path_drops_citations (gm : jsstring) (o : Collaborators)
    (cl : Render) (messageText : option jsstring) (s : Render) :
  rejects cl messageText = false ->
  let run := exec o (handleSendMessage gm cl messageText) (initial s) in
  recognized_returned (snd run) = true ->
  exists added,
    messages (store (snd run)) = messages s ++ added /\
    Forall (fun m =>
              citationMetadata m = None /\
              forall part t, In part (parts m) -> text part = Some t -> truthy t = true ->
                rendered_markdown m part = Some t) added.
Proof.
  intros Hguard. cbv zeta.
  assert (Hplain : forall added : list Message,
            Forall (fun m => citationMetadata m = None) added ->
            Forall (fun m =>
                      citationMetadata m = None /\
                      forall part t, In part (parts m) -> text part = Some t ->
                        truthy t = true -> rendered_markdown m part = Some t) added).
  { intros added H. eapply Forall_impl; [exact H|]. intros m Hm. split; [exact Hm|].
    intros part t _. apply rendered_without_citations. exact Hm. }
  run_turn gm o cl messageText s Hguard.
  all: try discriminate.
  all: intros _; rewrite <- ?app_assoc; eexists; (split; [reflexivity|]).
  all: apply Hplain; repeat constructor.
Qed.

(** ** Session initialisation *)

(** What a successful initialisation leaves in the store. *)
Lemma initializeSession_store sv cl s u session :
  user cl = Some u ->
  serve sv (collaborator (initializeChatSession (uid u) (currentWorkspace cl))) =
    inr session ->
  let r := state (snd (initializeSession cl sv (starting s))) in
  messages r = [welcomeMessage (currentWorkspace cl) session] /\
  chatSession r = Some session.
Proof.
  intros Hu Hsession. cbv zeta. unfold initializeSession. rewrite Hu.
  unfold finally, catching, and_then, update, notify, call, starting; cbn.
  rewrite Hsession; cbn.
  destruct (length (documentsUsed session) =? 0)%nat; cbn; auto.
Qed.

(** X16. With a signed-in user, [initializeSession] never rejects and asks
    for one session context.  Whatever the store held, it ends with the
    initialising flag down and with a history that is the welcome turn alone
    (session stored and marked active, one success toast) when the request
    resolves, and empty (no session, marked inactive, an error toast) when it
    is rejected.  It touches neither the in-flight flag nor the input field
    nor the telemetry session.  Without a user it does nothing. *)
Theorem session_initialisation_outcome (sv : Services) (cl : Render) (s : Render) :
  let run := initializeSession cl sv (starting s) in
  fst run = Returned tt /\
  match user cl with
  | Some u =>
      let request := collaborator (initializeChatSession (uid u) (currentWorkspace cl)) in
      invoked (snd run) = [served request (serve sv request)] /\
      sessionInitializing (state (snd run)) = false /\
      isLoading (state (snd run)) = isLoading s /\
      input (state (snd run)) = input s /\
      continuousImprovementSessionId (state (snd run)) = continuousImprovementSessionId s /\
      match serve sv request with
      | inr session =>
          messages (state (snd run)) = [welcomeMessage (currentWorkspace cl) session] /\
          chatSession (state (snd run)) = Some session /\
          sessionActive (state (snd run)) = true /\
          exists message duration, notices (snd run) = [toasts_success message duration]
      | inl error =>
          messages (state (snd run)) = [] /\
          chatSession (state (snd run)) = None /\
          sessionActive (state (snd run)) = false /\
          exists message,
            notices (snd run) =
              [logs_error (lit "Failed to initialize session:"); toasts_error message]
      end
  | None => snd run = starting s
  end.
Proof.
  cbv zeta. unfold initializeSession.
  destruct (user cl) as [u|]; [|auto].
  unfold finally, catching, and_then, update, notify, call, starting; cbn.
  destruct (serve sv (collaborator (initializeChatSession (uid u) (currentWorkspace cl))))
    as [error|session]; cbn.
  - destruct (is_Error_with "No system prompt configured" error); cbn; eauto 12.
  - destruct (length (documentsUsed session) =? 0)%nat; cbn; eauto 12.
Qed.

(** X17. The welcome turn is part of what the model is given.  After an
    initialisation that got a session context, every model invocation of a
    send from the resulting render starts with three turns: the session
    context as system prompt, the welcome turn as a model turn, and the user
    turn. *)
Theorem first_send_carries_welcome (gm : jsstring) (sv : Services) (o : Collaborators)
    (cl s : Render) (u : User) (session : ChatSession) (messageText : option jsstring) :
  user cl = Some u ->
  serve sv (collaborator (initializeChatSession (uid u) (currentWorkspace cl))) =
    inr session ->
  let r := state (snd (initializeSession cl sv (starting s))) in
  Forall (fun c =>
            match call_contents c with
            | Some contents =>
                exists rest,
                  contents =
                    [{| content_role := role_user;
                        content_parts := [text_part (fullContext session)] |};
                     {| content_role := role_model;
                        content_parts := parts (welcomeMessage (currentWorkspace cl) session) |};
                     {| content_role := role_user;
                        content_parts := [text_part (textToSend_of r messageText)] |}] ++
                    rest /\
                  (rest = [] \/ follow_up_turns rest)
            | None => True
            end)
    (calls (snd (exec o (handleSendMessage gm r messageText) (initial r)))).
Proof.
  intros Hu Hsession. cbv zeta.
  destruct (initializeSession_store sv cl s u session Hu Hsession) as (Hmsg & Hcs).
  set (r := state (snd (initializeSession cl sv (starting s)))) in *.
  eapply Forall_impl; [apply send_calls|].
  intros [X c a]. cbn. destruct c; cbn; try tauto.
  intros (_ & systemPrompt & rest & Hsp & -> & Hrest).
  exists rest. split; [|exact Hrest].
  unfold prompt_of_render in Hsp. rewrite Hcs in Hsp. subst systemPrompt.
  unfold first_contents, history_of. rewrite Hmsg. reflexivity.
Qed.

(** ** The feedback dialog *)

Lemma initializeContinuousImprovement_returns o cl w :
  fst (exec o (initializeContinuousImprovement cl) w) = Returned tt.
Proof.
  unfold initializeContinuousImprovement.
  destruct (user cl) as [u|]; [|reflexivity].
  destruct (truthy_opt (continuousImprovementSessionId cl)); [reflexivity|].
  cbn. destruct (respond o _); reflexivity.
Qed.

(** X18. [handleFeedback] never rejects, and opens the dialog on the chosen
    feedback and message with an empty comment, whatever the dialog held (a
    draft comment is discarded).  Cancelling then leaves the dialog as the
    component starts with: closed, nothing pending, no comment, and nothing
    is written anywhere. *)
Theorem feedback_dialog_opens_and_cancels (o : Collaborators) (sv : Services)
    (cl : Render) (feedback : Feedback) (messageIndex : N) (w : World)
    (d : FeedbackDialog) :
  exists opened,
    fst (exec o (handleFeedback cl feedback messageIndex) w) = Returned opened /\
    opened d =
      {| feedbackDialogOpen := true; pendingFeedback := Some feedback;
         pendingMessageIndex := Some messageIndex; feedbackComment := [] |} /\
    cancelFeedback sv (starting (opened d)) =
      (Returned tt,
       starting {| feedbackDialogOpen := false; pendingFeedback := None;
                   pendingMessageIndex := None; feedbackComment := [] |}).
Proof.
  unfold handleFeedback. rewrite exec_bind. unfold when.
  destruct (negb (truthy_opt (continuousImprovementSessionId cl))).
  - pose proof (initializeContinuousImprovement_returns o cl w) as Hret.
    destruct (exec o (initializeContinuousImprovement cl) w) as [[[]|e] w1];
      [|discriminate].
    cbn. eexists. split; [reflexivity|]. split; reflexivity.
  - cbn. eexists. split; [reflexivity|]. split; reflexivity.
Qed.

Lemma submitFeedback_run sessionId cl feedback messageIndex sv r :
  truthy sessionId = true ->
  pendingFeedback cl = Some feedback ->
  pendingMessageIndex cl = Some messageIndex ->
  let log := feedback_log sessionId cl feedback messageIndex in
  let save := feedback_save sessionId cl feedback in
  exists message,
    submitFeedback (Some sessionId) cl sv r =
    (Returned tt,
     match serve sv log with
     | inl e =>
         {| state := state r;
            invoked := invoked r ++ [served log (inl e)];
            notices := notices r ++
              [logs_error (lit "Failed to save feedback:");
               toasts_error (lit "Failed to save feedback")] |}
     | inr _ =>
         match serve sv save with
         | inl e =>
             {| state := state r;
                invoked := invoked r ++ [served log (serve sv log); served save (inl e)];
                notices := notices r ++
                  [logs_error (lit "Failed to save feedback:");
                   toasts_error (lit "Failed to save feedback")] |}
         | inr _ =>
             {| state := closed_dialog;
                invoked := invoked r ++
                           [served log (serve sv log); served save (serve sv save)];
                notices := notices r ++ [toasts_success message None] |}
         end
     end).
Proof.
  intros Hsid Hfb Hidx. cbv zeta. unfold submitFeedback, feedback_log, feedback_save.
  rewrite Hfb, Hidx. destruct sessionId as [|c sid]; [discriminate|].
  unfold catching, and_then, close_dialog, and_then, update, notify, call; cbn.
  eexists.
  destruct (serve sv (collaborator _)) as [e|[]] eqn:Hlog; cbn;
    [rewrite <- ?app_assoc; reflexivity|].
  destruct (serve sv (setUserFeedback _ _ _)) as [e|[]] eqn:Hsave; cbn;
    rewrite <- ?app_assoc; reflexivity.
Qed.

(** X19. A submit that passes its guard never rejects, and makes the
    telemetry write before the feedback write, both for the session of its
    render.  The dialog is closed and emptied exactly when both writes
    resolve; when either is rejected the dialog is left as it was, with the
    pending feedback and the comment, and an error toast is shown.  A message
    index of 0 passes the guard like any other. *)
Theorem submit_closes_dialog_when_both_writes_resolve (sv : Services)
    (sessionId : jsstring) (cl : FeedbackDialog) (feedback : Feedback)
    (messageIndex : N) (r : Run FeedbackDialog) :
  truthy sessionId = true ->
  pendingFeedback cl = Some feedback ->
  pendingMessageIndex cl = Some messageIndex ->
  let log := feedback_log sessionId cl feedback messageIndex in
  let save := feedback_save sessionId cl feedback in
  let run := submitFeedback (Some sessionId) cl sv r in
  fst run = Returned tt /\
  ((serve sv log = inr tt /\ serve sv save = inr tt /\
    state (snd run) = closed_dialog /\
    invoked (snd run) = invoked r ++ [served log (inr tt); served save (inr tt)] /\
    exists message, notices (snd run) = notices r ++ [toasts_success message None]) \/
   ((exists e, serve sv log = inl e /\
               invoked (snd run) = invoked r ++ [served log (inl e)]) \/
    (exists e, serve sv log = inr tt /\ serve sv save = inl e /\
               invoked (snd run) =
                 invoked r ++ [served log (inr tt); served save (inl e)])) /\
   state (snd run) = state r /\
   notices (snd run) =
     notices r ++ [logs_error (lit "Failed to save feedback:");
                   toasts_error (lit "Failed to save feedback")]).
Proof.
  intros Hsid Hfb Hidx. cbv zeta.
  destruct (submitFeedback_run sessionId cl feedback messageIndex sv r Hsid Hfb Hidx)
    as (message & ->).
  split; [reflexivity|]. cbn [snd].
  destruct (serve sv (feedback_log sessionId cl feedback messageIndex)) as [e|[]].
  - right. cbn. eauto 10.
  - destruct (serve sv (feedback_save sessionId cl feedback)) as [e|[]]; cbn.
    + right. eauto 10.
    + left. eauto 10.
Qed.

(** X20. A retry repeats the telemetry write.  When the telemetry write of
    a submit resolves and its feedback write is rejected, the dialog is left
    as it was; a second submit from it, whose writes both resolve, has
    written the same telemetry entry a second time: the log holds the entry
    twice for a feedback that was saved once. *)
Theorem retried_submit_logs_twice (sv sv' : Services) (sessionId : jsstring)
    (cl : FeedbackDialog) (feedback : Feedback) (messageIndex : N) (e : Thrown) :
  truthy sessionId = true ->
  pendingFeedback cl = Some feedback ->
  pendingMessageIndex cl = Some messageIndex ->
  let log := feedback_log sessionId cl feedback messageIndex in
  let save := feedback_save sessionId cl feedback in
  serve sv log = inr tt -> serve sv save = inl e ->
  serve sv' log = inr tt -> serve sv' save = inr tt ->
  let first := submitFeedback (Some sessionId) cl sv (starting cl) in
  let second := submitFeedback (Some sessionId) (state (snd first)) sv' (snd first) in
  state (snd first) = cl /\
  state (snd second) = closed_dialog /\
  invoked (snd second) =
    [served log (inr tt); served save (inl e); served log (inr tt); served save (inr tt)].
Proof.
  intros Hsid Hfb Hidx. cbv zeta. intros Hlog Hsave Hlog' Hsave'.
  destruct (submitFeedback_run sessionId cl feedback messageIndex sv (starting cl)
              Hsid Hfb Hidx) as (message & ->).
  rewrite Hlog, Hsave. cbn [snd state starting].
  match goal with
  | |- context [submitFeedback _ cl sv' ?r1] =>
      destruct (submitFeedback_run sessionId cl feedback messageIndex sv' r1 Hsid Hfb Hidx)
        as (message' & ->)
  end.
  rewrite Hlog', Hsave'. cbn. auto.
Qed.

(** X21. Feedback that cannot be given.  When the render has no telemetry
    session and none can be created (nobody is signed in, or the creation is
    rejected), [handleFeedback] still opens the dialog; a submit from the
    resulting state then does nothing at all: no write, no toast, and the
    dialog stays open. *)
Theorem feedback_without_session_cannot_be_submitted (o : Collaborators) (sv : Services)
    (cl : Render) (feedback : Feedback) (messageIndex : N) (s : Render)
    (d : FeedbackDialog) (r : Run FeedbackDialog) :
  truthy_opt (continuousImprovementSessionId cl) = false ->
  truthy_opt (continuousImprovementSessionId s) = false ->
  match user cl with
  | Some u =>
      exists e,
        respond o (createContinuousImprovementSession (promptKey_of cl u)
                     (chatSessionKey cl) (uid u) (currentWorkspace cl)) = inl e
  | None => True
  end ->
  let run := exec o (handleFeedback cl feedback messageIndex) (initial s) in
  exists opened,
    fst run = Returned opened /\
    feedbackDialogOpen (opened d) = true /\
    submitFeedback (continuousImprovementSessionId (store (snd run))) (opened d) sv r =
      (Returned tt, r).
Proof.
  intros Hcl Hs Hnone. cbv zeta.
  unfold handleFeedback, when, initializeContinuousImprovement. rewrite Hcl. cbn [negb].
  destruct (user cl) as [u|].
  - destruct Hnone as (e & He). fold (promptKey_of cl u). cbn. rewrite He. cbn.
    eexists. split; [reflexivity|]. split; [reflexivity|].
    unfold submitFeedback.
    destruct (continuousImprovementSessionId s) as [[|c sid]|]; try reflexivity.
    discriminate.
  - cbn. eexists. split; [reflexivity|]. split; [reflexivity|].
    unfold submitFeedback.
    destruct (continuousImprovementSessionId s) as [[|c sid]|]; try reflexivity.
    discriminate.
Qed.

(** ** The guard and the first await

    The guard of line 214 tests [isLoading], which line 224 raises: after the
    [await] of line 218. *)

(** The calls a program adds do not depend on the world it starts in. *)
Lemma exec_calls_uniform {A} o (p : Prog A) :
  exists added, forall w, calls (snd (exec o p w)) = calls w ++ added.
Proof.
  induction p as [a|e|X e k IH].
  - exists []. intros w. cbn. symmetry. apply app_nil_r.
  - exists []. intros w. cbn. symmetry. apply app_nil_r.
  - destruct e; cbn.
    + destruct (IH (respond o c)) as [l Hl]. exists (Called c (respond o c) :: l).
      intros w. rewrite Hl. cbn. rewrite <- app_assoc. reflexivity.
    + destruct (IH tt) as [l Hl]. exists l. intros w. apply (Hl (update_store f w)).
    + destruct (IH tt) as [l Hl]. exists l. intros w.
      apply (Hl (record_console level label w)).
    + apply IH.
Qed.

(** The calls of a run that starts after another run: those of the other
    run, then those the program makes from an empty record. *)
Lemma exec_calls_after {A} o (p : Prog A) s w :
  calls (snd (exec o p w)) = calls w ++ calls (snd (exec o p (initial s))).
Proof.
  destruct (exec_calls_uniform o p) as [added H].
  rewrite (H w), (H (initial s)). reflexivity.
Qed.

(** A send that passes the guard appends its user turn and then only
    extends the history. *)
Lemma send_history gm o cl messageText w :
  rejects cl messageText = false ->
  exists rest,
    messages (store (snd (exec o (handleSendMessage gm cl messageText) w))) =
    messages (store w) ++ userMessage_of (textToSend_of cl messageText) :: rest.
Proof.
  intros Hguard. unfold handleSendMessage. rewrite Hguard, exec_bind.
  destruct (send_prelude_run o cl messageText w) as (Hmsg & _).
  destruct (exec o (send_prelude cl messageText) w) as [[[]|e] w1]; cbn in Hmsg; cbv beta iota.
  - destruct (send_keeps_history gm o cl (textToSend_of cl messageText) w1) as (rest & ->).
    rewrite Hmsg, <- app_assoc. eauto.
  - exists []. exact Hmsg.
Qed.

Section Guard.

Local Arguments handleSendMessage : simpl never.

Lemma load_systemPrompt_undisturbed gm o text2 cl w :
  isLoading (store w) = true ->
  exec_interleaved o (send_during_turn gm text2) (load_systemPrompt cl) w =
  exec o (load_systemPrompt cl) w.
Proof.
  intros Hload. unfold load_systemPrompt.
  destruct (chatSession cl); [reflexivity|].
  destruct (user cl) as [u|]; [|reflexivity].
  destruct (truthy (uid u)); [|reflexivity].
  cbn. unfold send_during_turn.
  rewrite (send_rejected_when_loading gm o (store w) text2 w Hload). cbn.
  destruct (respond o (loadLatestPrompt (uid u) (currentWorkspace cl))) as [e|[[|c r]|]];
    reflexivity.
Qed.

(** Once the flag is raised, a second send at any suspension of the turn
    proper is turned away. *)
Lemma turn_undisturbed gm o text2 cl t w :
  isLoading (store w) = true ->
  exec_interleaved o (send_during_turn gm text2)
    (try_finally (try_catch (turn_try gm cl t) turn_catch) (setIsLoading false)) w =
  exec o (try_finally (try_catch (turn_try gm cl t) turn_catch) (setIsLoading false)) w.
Proof.
  intros Hload1.
  rewrite exec_try_finally, exec_try_catch, exec_interleaved_try_finally,
    exec_interleaved_try_catch.
  unfold turn_try.
  rewrite exec_bind, exec_interleaved_bind, load_systemPrompt_undisturbed by exact Hload1.
  destruct (load_systemPrompt_spec o cl w) as (w2 & -> & Hst2 & _).
  rewrite <- Hst2 in Hload1.
  destruct (systemPrompt_of o cl) as [systemPrompt|]; [|reflexivity].
  unfold on_result, plain_answer, send_during_turn.
  destruct (continuousImprovementSessionId cl) as [[|c sid]|] eqn:Hsid.
  all: destruct (user cl) as [u|] eqn:Hu.
  all: cbn;
    repeat (first
      [ match goal with
        | |- context [exec ?o' (handleSendMessage ?g ?r ?t) ?w'] =>
            rewrite (send_rejected_when_loading g o' r t w') by (cbn; exact Hload1)
        end
      | split_answer ]; cbn).
  all: reflexivity.
Qed.

(** The prelude is suspended with the flag down only where it creates the
    telemetry session (line 218): a second send there runs in full, before
    the first send appends its user turn. *)
Lemma send_prelude_raced gm o text2 cl messageText w :
  exec_interleaved o (send_during_turn gm text2) (send_prelude cl messageText) w =
  exec o (send_prelude cl messageText)
    (match user cl with
     | Some _ =>
         if truthy_opt (continuousImprovementSessionId cl) then w
         else snd (exec o (handleSendMessage gm (store w) text2) w)
     | None => w
     end).
Proof.
  unfold send_prelude, when, initializeContinuousImprovement, log_event, send_during_turn.
  destruct (continuousImprovementSessionId cl) as [[|c sid]|]; cbn.
  all: destruct (user cl) as [u|]; cbn.
  all: repeat match goal with
       | |- context [exec ?o' (handleSendMessage ?g (with_isLoading true ?r) ?t) ?w'] =>
           rewrite (send_rejected_when_loading g o' (with_isLoading true r) t w')
             by reflexivity; cbn
       | |- context [match respond ?o' ?c with _ => _ end] => destruct (respond o' c); cbn
       | |- context [match ?x with _ => _ end] =>
           lazymatch x with
           | context [exec] => fail
           | _ => destruct x; cbn
           end
       end.
  all: reflexivity.
Qed.

(** A send with a second send at every one of its suspensions: the second
    send is turned away everywhere but at the creation of the telemetry
    session, where it runs as if no send had been made. *)
Lemma raced_send gm o text2 cl messageText w :
  exec_interleaved o (send_during_turn gm text2) (handleSendMessage gm cl messageText) w =
  exec o (handleSendMessage gm cl messageText)
    (if rejects cl messageText then w
     else
       match user cl with
       | Some _ =>
           if truthy_opt (continuousImprovementSessionId cl) then w
           else snd (exec o (handleSendMessage gm (store w) text2) w)
       | None => w
       end).
Proof.
  assert (Heq : handleSendMessage gm cl messageText =
                (if rejects cl messageText then Ret tt
                 else
                   send_prelude cl messageText ;;;
                   try_finally
                     (try_catch (turn_try gm cl (textToSend_of cl messageText)) turn_catch)
                     (setIsLoading false))%prog) by reflexivity.
  rewrite Heq. clear Heq.
  destruct (rejects cl messageText); [reflexivity|].
  rewrite exec_bind, exec_interleaved_bind, send_prelude_raced.
  match goal with
  | |- context [exec o (send_prelude cl messageText) ?w0] =>
      destruct (send_prelude_run o cl messageText w0) as (_ & Hload & _);
      destruct (exec o (send_prelude cl messageText) w0) as [[[]|e] w1]
  end; [|reflexivity].
  cbn in Hload. apply turn_undisturbed. exact Hload.
Qed.

(** With a telemetry session, or with nobody signed in, no [await] precedes
    line 224: a second send at any suspension of the turn changes nothing. *)
Lemma second_send_turned_away gm o text2 cl messageText w :
  user cl = None \/ truthy_opt (continuousImprovementSessionId cl) = true ->
  exec_interleaved o (send_during_turn gm text2) (handleSendMessage gm cl messageText) w =
  exec o (handleSendMessage gm cl messageText) w.
Proof.
  intros H. rewrite raced_send.
  destruct (rejects cl messageText); [reflexivity|].
  destruct H as [-> | ->]; [reflexivity|].
  destruct (user cl); reflexivity.
Qed.

(** A send that passes the guard in a render with a signed-in user and no
    telemetry session is suspended first at the creation of that session,
    with the store untouched: the flag is down and the user turn is not yet
    in the history. *)
Lemma send_suspends_before_flag gm o cl messageText u w :
  rejects cl messageText = false ->
  user cl = Some u ->
  truthy_opt (continuousImprovementSessionId cl) = false ->
  until_await o (handleSendMessage gm cl messageText) w =
    (Pending (Req (createContinuousImprovementSession (promptKey_of cl u)
                     (chatSessionKey cl) (uid u) (currentWorkspace cl))), w).
Proof.
  intros Hguard Hu Hsid.
  unfold handleSendMessage, send_prelude, when, initializeContinuousImprovement.
  rewrite Hguard, Hu, Hsid. reflexivity.
Qed.

(** C7. The guard of line 214 does turn away a text that is empty or
    whitespace-only after trimming, and a send from a render whose
    [isLoading] flag is up.  But the flag is raised (line 224) only after the
    handler has awaited the creation of the telemetry session (line 218).
    In a render with a signed-in user and no telemetry session yet, a send
    that passes the guard is suspended there with the store untouched, and a
    second send made at that moment, from the render current then, passes
    the guard as well and runs as a full turn of its own: the first send then
    goes on from the world the second one left.  The history holds the second
    send's user turn and whatever its turn appended, followed by the first
    send's user turn and what its turn appended, and every collaborator call
    of the second send is made, followed by every call of the first. *)
Theorem second_send_passes_guard_during_session_creation (gm : jsstring)
    (o : Collaborators) (cl : Render) (messageText second : option jsstring) (u : User) :
  rejects cl messageText = false ->
  rejects cl second = false ->
  user cl = Some u ->
  truthy_opt (continuousImprovementSessionId cl) = false ->
  let alone := exec o (handleSendMessage gm cl messageText) (initial cl) in
  let other := exec o (handleSendMessage gm cl second) (initial cl) in
  let raced := exec_interleaved o (send_during_turn gm second)
                 (handleSendMessage gm cl messageText) (initial cl) in
  until_await o (handleSendMessage gm cl messageText) (initial cl) =
    (Pending (Req (createContinuousImprovementSession (promptKey_of cl u)
                     (chatSessionKey cl) (uid u) (currentWorkspace cl))), initial cl) /\
  raced = exec o (handleSendMessage gm cl messageText) (snd other) /\
  (exists rest2 rest1,
     messages (store (snd other)) =
       messages cl ++ userMessage_of (textToSend_of cl second) :: rest2 /\
     messages (store (snd raced)) =
       messages (store (snd other)) ++
       userMessage_of (textToSend_of cl messageText) :: rest1) /\
  calls (snd raced) = calls (snd other) ++ calls (snd alone) /\
  model_calls (snd raced) = (model_calls (snd other) + model_calls (snd alone))%nat /\
  search_calls (snd raced) = (search_calls (snd other) + search_calls (snd alone))%nat.
Proof.
  intros Hguard1 Hguard2 Hu Hsid alone other raced.
  assert (Hraced : raced = exec o (handleSendMessage gm cl messageText) (snd other)).
  { unfold raced, other. rewrite raced_send, Hguard1, Hu, Hsid. reflexivity. }
  assert (Hcalls : calls (snd raced) = calls (snd other) ++ calls (snd alone)).
  { rewrite Hraced. apply exec_calls_after. }
  split; [apply send_suspends_before_flag; assumption|].
  split; [exact Hraced|]. split; [|split; [exact Hcalls|]].
  - destruct (send_history gm o cl second (initial cl) Hguard2) as (rest2 & H2).
    destruct (send_history gm o cl messageText (snd other) Hguard1) as (rest1 & H1).
    exists rest2, rest1. split; [exact H2|]. rewrite Hraced. exact H1.
  - unfold model_calls, search_calls, model_trace, search_trace.
    rewrite Hcalls, !List.filter_app, !length_app. split; reflexivity.
Qed.

End Guard.

(** C7 at two messages sent one after the other at the start of a
    conversation: five turns and two model invocations, where the first
    message alone leaves three turns and one invocation. *)
Lemma second_send_passes_guard_during_session_creation_witness :
  let first := Some question in
  let second := Some (lit "And the invoices?") in
  let alone := exec Cases.helpful (handleSendMessage gm Cases.untracked first)
                 (initial Cases.untracked) in
  let other := exec Cases.helpful (handleSendMessage gm Cases.untracked second)
                 (initial Cases.untracked) in
  let raced := exec_interleaved Cases.helpful (send_during_turn gm second)
                 (handleSendMessage gm Cases.untracked first) (initial Cases.untracked) in
  (rejects Cases.untracked first = false /\
   rejects Cases.untracked second = false /\
   user Cases.untracked = Some alice /\
   truthy_opt (continuousImprovementSessionId Cases.untracked) = false) /\
  raced = exec Cases.helpful (handleSendMessage gm Cases.untracked first) (snd other) /\
  calls (snd raced) = calls (snd other) ++ calls (snd alone) /\
  (length (messages (store (snd raced))) = 5 /\ model_calls (snd raced) = 2)%nat /\
  (length (messages (store (snd alone))) = 3 /\ model_calls (snd alone) = 1)%nat.
Proof.
  intros first second alone other raced.
  assert (H1 : rejects Cases.untracked first = false) by reflexivity.
  assert (H2 : rejects Cases.untracked second = false) by reflexivity.
  assert (H3 : user Cases.untracked = Some alice) by reflexivity.
  assert (H4 : truthy_opt (continuousImprovementSessionId Cases.untracked) = false)
    by reflexivity.
  pose proof (second_send_passes_guard_during_session_creation gm Cases.helpful
                Cases.untracked first second alice H1 H2 H3 H4) as (_ & Hr & _ & Hc & _).
  split; [repeat split; assumption|].
  split; [exact Hr|]. split; [exact Hc|].
  split; vm_compute; split; reflexivity.
Defined.

(** ** The sibling component *)

Section ManagementFacts.

Import Management.

Ltac run_action :=
  unfold finally, catching, and_then, update, notify, call, ret, throw, starting; cbn.


Lemma send_guard_closed geminiModel cl sv r :
  negb (truthy (trim (input cl))) || isLoading cl = true ->
  handleSendMessage geminiModel cl sv r = (Returned tt, r).
Proof. intros H. unfold handleSendMessage. rewrite H. reflexivity. Qed.

(** The run of a send that passes the guard. *)
Lemma management_send_run geminiModel sv cl r :
  truthy (trim (input cl)) = true ->
  isLoading cl = false ->
  let run := handleSendMessage geminiModel cl sv r in
  let request :=
    generateContentRequest (the_model geminiModel)
      (List.map (fun msg => {| content_role := role msg; content_parts := parts msg |})
         (messages cl) ++
       [{| content_role := role_user; content_parts := [text_part (input cl)] |}])
      [googleSearch] in
  fst run = Returned tt /\
  invoked (snd run) = invoked r ++ [served request (serve sv request)] /\
  input (state (snd run)) = [] /\
  exists m,
    messages (state (snd run)) =
      messages (state r) ++
      [{| role := role_user; parts := [text_part (input cl)]; citationMetadata := None |}; m].
Proof.
  intros Htext Hload. cbv zeta. unfold handleSendMessage. rewrite Htext, Hload. cbn [negb orb].
  run_action.
  destruct (serve sv (generateContentRequest _ _ _)) as [e|result]; cbn.
  - repeat split; try reflexivity. eexists. rewrite <- app_assoc. reflexivity.
  - destruct (response result) as [[[[|candidate rest]|]]|]; cbn;
      repeat split; try reflexivity; eexists; rewrite <- app_assoc; reflexivity.
Qed.

(** X23. [handleStructuredExtraction] does not send its prompt.  In an
    active session it puts the prompt into the input field and calls the
    [handleSendMessage] of its own render, which reads the input of that
    render: when that is blank (or a turn is in flight) nothing is sent and
    the prompt stays in the field; otherwise the old input is sent as the
    user turn and the field is cleared, the prompt with it. *)
Theorem structured_extraction_sends_old_input (geminiModel : jsstring) (sv : Services)
    (cl s : Render) (type : ExtractionType) :
  sessionActive cl = true ->
  let run := handleStructuredExtraction geminiModel cl type sv (starting s) in
  fst run = Returned tt /\
  if negb (truthy (trim (input cl))) || isLoading cl then
    invoked (snd run) = [] /\
    state (snd run) = with_input (prompts type) s
  else
    input (state (snd run)) = [] /\
    exists m answer,
      messages (state (snd run)) =
        messages s ++
        [{| role := role_user; parts := [text_part (input cl)];
            citationMetadata := None |}; m] /\
      invoked (snd run) =
        [served
           (generateContentRequest (the_model geminiModel)
              (List.map (fun msg => {| content_role := role msg;
                                       content_parts := parts msg |}) (messages cl) ++
               [{| content_role := role_user;
                   content_parts := [text_part (input cl)] |}])
              [googleSearch])
           answer].
Proof.
  intros Hactive. cbv zeta. unfold handleStructuredExtraction. rewrite Hactive. cbn [negb].
  destruct (negb (truthy (trim (input cl))) || isLoading cl) eqn:Hguard.
  - unfold and_then, update. cbn. rewrite send_guard_closed by exact Hguard. auto.
  - unfold and_then at 1. unfold update at 1. cbn.
    apply orb_false_iff in Hguard as [Htext Hload]. apply negb_false_iff in Htext.
    match goal with
    | |- context [handleSendMessage geminiModel cl sv ?r0] =>
        pose proof (management_send_run geminiModel sv cl r0 Htext Hload) as Hrun
    end.
    cbv zeta in Hrun. destruct Hrun as (Hout & Hinv & Hin & m & Hmsg).
    cbn in Hinv, Hmsg.
    split; [exact Hout|]. split; [exact Hin|]. exists m. eexists. split; eassumption.
Qed.

Lemma processFileForAI_total file : exists t, processFileForAI file = Some (text_part t).
Proof.
  unfold processFileForAI.
  repeat match goal with
         | |- context [if ?b then _ else _] => destruct b
         | |- context [match file_content file with _ => _ end] =>
             destruct (file_content file)
         end; eexists; reflexivity.
Qed.

(** X24. [processFileForAI] always gives a part, never [null].  Of a text
    content it reads at most the first 10000 code units: two contents that
    agree on them give the same part.  The content of a PDF is not read at
    all. *)
Theorem processFileForAI_reads_a_bounded_prefix (file : UploadedFile) :
  is_Some (processFileForAI file) /\
  (forall content content',
     take (N.to_nat 10000) content = take (N.to_nat 10000) content' ->
     processFileForAI (with_content (string_content content) file) =
     processFileForAI (with_content (string_content content') file)) /\
  (file_type file = lit "application/pdf" ->
   forall content content',
     processFileForAI (with_content content file) =
     processFileForAI (with_content content' file)).
Proof.
  split; [|split].
  - destruct (processFileForAI_total file) as (t & ->). eexists. reflexivity.
  - intros content content' Htake. unfold processFileForAI, with_content, substring0. cbn.
    rewrite Htake. reflexivity.
  - intros Hpdf content content'. unfold processFileForAI, with_content. cbn.
    rewrite Hpdf. reflexivity.
Qed.

Lemma initialMessageParts_length systemPrompt files :
  length (initialMessageParts systemPrompt files) = S (S (length files)).
Proof.
  unfold initialMessageParts. cbn. do 2 f_equal.
  induction files as [|file files IH]; [reflexivity|]. cbn.
  destruct (processFileForAI_total file) as (t & ->). cbn. rewrite IH. reflexivity.
Qed.

Local Arguments initialMessageParts : simpl never.

Ltac split_service sv :=
  match goal with
  | |- context [match serve sv ?c with _ => _ end] => destruct (serve sv c) eqn:?
  | |- context [match ?x with _ => _ end] => is_var x; destruct x
  | |- context [match ?x with _ => _ end] =>
      lazymatch x with
      | context [serve] => fail
      | context [match _ with _ => _ end] => fail
      | _ => destruct x eqn:?
      end
  end.

(** The system prompt of a session: a prompt, or the configuration error;
    the store is not touched and the model is not asked. *)
Lemma load_systemPrompt_run cl sv r :
  exists asked shown,
    load_systemPrompt cl sv r =
      (match systemPrompt_of sv cl with
       | Some systemPrompt => Returned systemPrompt
       | None =>
           Rejected (new_Error (lit
             "No system prompt configured. Please visit Admin panel to set up your prompt."))
       end,
       {| state := state r; invoked := invoked r ++ asked;
          notices := notices r ++ shown |}) /\
    List.filter is_model_request asked = [].
Proof.
  unfold load_systemPrompt, systemPrompt_of.
  assert (Hfetch : forall r0 : Run Render, exists asked shown,
            catching
              (let* response := call (fetch (lit "/docs/gemini_instructions.md")) in
               if ok response then
                 let* body :=
                   match response_text response with
                   | inl e => throw e
                   | inr body => ret body
                   end in
                 notify (logs (lit
                   "[PropertyManagementChat] Using default prompt from file")) ;;;
                 ret body
               else throw (new_Error (lit "Failed to fetch default prompt")))%action
              (fun error =>
                 notify (logs_error (lit
                   "[PropertyManagementChat] Error loading default prompt:")) ;;;
                 throw (new_Error (lit
                   "No system prompt configured. Please visit Admin panel to set up your prompt.")))%action
              sv r0 =
            (match
               match serve sv (fetch (lit "/docs/gemini_instructions.md")) with
               | inr response =>
                   if ok response then
                     match response_text response with
                     | inr body => Some body
                     | inl _ => None
                     end
                   else None
               | inl _ => None
               end
             with
             | Some systemPrompt => Returned systemPrompt
             | None =>
                 Rejected (new_Error (lit
                   "No system prompt configured. Please visit Admin panel to set up your prompt."))
             end,
             {| state := state r0; invoked := invoked r0 ++ asked;
                notices := notices r0 ++ shown |}) /\
            List.filter is_model_request asked = []).
  { intros r0. run_action.
    destruct (serve sv (fetch (lit "/docs/gemini_instructions.md")))
      as [e|[[] [e|body]]]; cbn; rewrite <- ?app_assoc;
      do 2 eexists; (split; [reflexivity|]); reflexivity. }
  unfold and_then at 1.
  destruct (user cl) as [u|]; cbn.
  2: { unfold ret at 1. cbn. apply Hfetch. }
  destruct (truthy (uid u)); cbn.
  2: { unfold ret at 1. cbn. apply Hfetch. }
  run_action.
  destruct (serve sv (collaborator (loadLatestPrompt (uid u) (currentWorkspace cl))))
    as [e|[[|c p]|]]; cbn.
  all: try (do 2 eexists; (split; [reflexivity|]); reflexivity).
  all: match goal with
       | |- context [serve ?sv' (fetch ?url)] =>
           destruct (serve sv' (fetch url)) as [e'|[[] [e'|body]]]; cbn;
           rewrite <- ?app_assoc; do 2 eexists; (split; [reflexivity|]); reflexivity
       end.
Qed.

(** X25. Without uploaded files [handleStartSession] only shows an error
    toast.  With files, what it does is decided by the system prompt of
    lines 118-143 (the saved prompt when the prompt store returns a non-empty
    one, otherwise the text of the default prompt file).  When there is none
    it is rejected with the configuration error, before it has touched the
    store or asked the model.  When there is one it returns after exactly one
    model request, of a single user turn with the system prompt, the document
    summary and one part for every file, and leaves the session marked active
    (also when the request failed), the flag released, the input empty and a
    history of exactly two turns: the fixed opening turn and the model turn
    for the answer to that request. *)
Theorem start_session_outcome (geminiModel : jsstring) (sv : Services) (cl s : Render) :
  let run := handleStartSession geminiModel cl sv (starting s) in
  match uploadedFiles cl with
  | [] =>
      fst run = Returned tt /\ state (snd run) = s /\ invoked (snd run) = [] /\
      exists message, notices (snd run) = [toasts_error message]
  | _ :: _ =>
      match systemPrompt_of sv cl with
      | None =>
          fst run =
            Rejected (new_Error (lit
              "No system prompt configured. Please visit Admin panel to set up your prompt.")) /\
          state (snd run) = s /\
          List.filter is_model_request (invoked (snd run)) = []
      | Some systemPrompt =>
          let request := start_request geminiModel systemPrompt (uploadedFiles cl) in
          fst run = Returned tt /\
          List.filter is_model_request (invoked (snd run)) =
            [served request (serve sv request)] /\
          state (snd run) =
            {| messages := [session_opening; started_turn (serve sv request)];
               input := []; isLoading := false; sessionActive := true;
               uploadedFiles := uploadedFiles s; user := user s;
               currentWorkspace := currentWorkspace s |} /\
          length (initialMessageParts systemPrompt (uploadedFiles cl)) =
            S (S (length (uploadedFiles cl)))
      end
  end.
Proof.
  cbv zeta. remember (handleStartSession geminiModel cl sv (starting s)) as run eqn:Hrun.
  unfold handleStartSession in Hrun.
  destruct (uploadedFiles cl) as [|file files]; cbn in Hrun.
  { subst run. unfold notify, starting. cbn. eauto 10. }
  unfold and_then at 1 in Hrun.
  destruct (load_systemPrompt_run cl sv (starting s)) as (asked & shown & Heq & Hasked).
  rewrite Heq in Hrun. clear Heq.
  destruct (systemPrompt_of sv cl) as [systemPrompt|]; subst run; cbn.
  2: { split; [reflexivity|]. split; [reflexivity|exact Hasked]. }
  unfold start_request, started_turn.
  run_action. repeat (split_service sv; cbn).
  all: rewrite ?List.filter_app, ?Hasked; cbn.
  all: split; [reflexivity|split; [reflexivity|split;
         [reflexivity|apply (initialMessageParts_length _ (file :: files))]]].
Qed.

(** The store a started session leaves. *)
Lemma handleStartSession_store geminiModel sv cl s systemPrompt :
  uploadedFiles cl <> [] ->
  systemPrompt_of sv cl = Some systemPrompt ->
  let r := state (snd (handleStartSession geminiModel cl sv (starting s))) in
  isLoading r = false /\
  messages r =
    [session_opening;
     started_turn (serve sv (start_request geminiModel systemPrompt (uploadedFiles cl)))].
Proof.
  intros Hfiles Hprompt. cbv zeta.
  remember (handleStartSession geminiModel cl sv (starting s)) as run eqn:Hrun.
  unfold handleStartSession in Hrun.
  destruct (uploadedFiles cl) as [|file files]; [contradiction|]. cbn in Hrun.
  unfold and_then at 1 in Hrun.
  destruct (load_systemPrompt_run cl sv (starting s)) as (asked & shown & Heq & Hasked).
  rewrite Heq, Hprompt in Hrun. clear Heq.
  subst run; cbn.
  unfold start_request, started_turn.
  run_action. repeat (split_service sv; cbn).
  all: split; reflexivity.
Qed.

(** X26. Start, then send.  The first send after a session was started
    gives the model exactly three turns: the fixed opening turn, the model
    turn the start stored for the answer to its request, and the user turn.
    The turn of the start request, with the system prompt, the document
    summary and the document parts, is not among them. *)
Theorem send_after_start_omits_documents (geminiModel : jsstring) (sv sv' : Services)
    (cl s : Render) (typed systemPrompt : jsstring) :
  uploadedFiles cl <> [] ->
  systemPrompt_of sv cl = Some systemPrompt ->
  truthy (trim typed) = true ->
  let r := with_input typed (state (snd (handleStartSession geminiModel cl sv (starting s)))) in
  let start_turn :=
    {| content_role := role_user;
       content_parts := initialMessageParts systemPrompt (uploadedFiles cl) |} in
  let answer := serve sv (start_request geminiModel systemPrompt (uploadedFiles cl)) in
  let contents :=
    [{| content_role := role_user;
        content_parts := [text_part (lit "Initialize document analysis session")] |};
     {| content_role := role_model; content_parts := parts (started_turn answer) |};
     {| content_role := role_user; content_parts := [text_part typed] |}] in
  let request := generateContentRequest (the_model geminiModel) contents [googleSearch] in
  invoked (snd (handleSendMessage geminiModel r sv' (starting r))) =
    [served request (serve sv' request)] /\
  ~ In start_turn contents.
Proof.
  intros Hfiles Hprompt Htyped. cbv zeta.
  destruct (handleStartSession_store geminiModel sv cl s systemPrompt Hfiles Hprompt)
    as (Hload & Hmsg).
  set (r0 := state (snd (handleStartSession geminiModel cl sv (starting s)))) in *.
  destruct (management_send_run geminiModel sv' (with_input typed r0)
              (starting (with_input typed r0)) Htyped Hload) as (_ & Hinv & _).
  split.
  - rewrite Hinv. cbn. rewrite Hmsg. cbn.
    assert (Hrole : role (started_turn
                            (serve sv (start_request geminiModel systemPrompt
                                         (uploadedFiles cl)))) = role_model).
    { unfold started_turn.
      destruct (serve sv _) as [e|[[[[[|candidate rest]|]]|]]]; reflexivity. }
    rewrite Hrole. reflexivity.
  - intros [H|[H|[H|[]]]].
    + apply (f_equal content_parts), (f_equal (@length Part)) in H. cbn in H.
      rewrite initialMessageParts_length in H. discriminate.
    + apply (f_equal content_role) in H. discriminate.
    + apply (f_equal content_parts), (f_equal (@length Part)) in H. cbn in H.
      rewrite initialMessageParts_length in H. discriminate.
Qed.

End ManagementFacts.

(** * More concrete runs *)

Import Cases.

(** X5 at a plain answer: the turn returns with the flag released. *)
Lemma send_releases_flag_unless_logging_fails_witness :
  rejects ready (Some question) = false /\
  let t := textToSend_of ready (Some question) in
  let run := exec helpful (handleSendMessage gm ready (Some question)) (initial ready) in
  (fst run = Returned tt /\ isLoading (store (snd run)) = false) \/
  (exists sessionId e,
     continuousImprovementSessionId ready = Some sessionId /\
     respond helpful (addTechnicalLog sessionId (user_message t)) = inl e /\
     fst run = Rejected e /\
     isLoading (store (snd run)) = true /\
     model_trace (snd run) = [] /\
     messages (store (snd run)) = messages ready ++ [userMessage_of t] /\
     forall o' text w,
       exec o' (handleSendMessage gm (store (snd run)) text) w = (Returned tt, w)).
Proof.
  assert (Hguard : rejects ready (Some question) = false) by reflexivity.
  split; [exact Hguard|].
  exact (send_releases_flag_unless_logging_fails gm helpful ready (Some question) ready
           Hguard).
Defined.

(** X6 at [ready] without its telemetry session. *)
Lemma first_send_is_not_logged_witness :
  (rejects untracked (Some question) = false /\
   truthy_opt (continuousImprovementSessionId untracked) = false /\
   user untracked = Some alice /\
   respond helpful
     (createContinuousImprovementSession (promptKey_of untracked alice)
        (chatSessionKey untracked) (uid alice) (currentWorkspace untracked)) =
     inr (lit "ci2")) /\
  let run := exec helpful (handleSendMessage gm untracked (Some question))
               (initial untracked) in
  fst run = Returned tt /\
  continuousImprovementSessionId (store (snd run)) = Some (lit "ci2") /\
  omap telemetry_target (calls (snd run)) = [].
Proof.
  assert (Hguard : rejects untracked (Some question) = false) by reflexivity.
  assert (Hsid : truthy_opt (continuousImprovementSessionId untracked) = false)
    by reflexivity.
  assert (Hu : user untracked = Some alice) by reflexivity.
  assert (Hcreate : respond helpful
            (createContinuousImprovementSession (promptKey_of untracked alice)
               (chatSessionKey untracked) (uid alice) (currentWorkspace untracked)) =
            inr (lit "ci2")) by reflexivity.
  split; [auto|].
  exact (first_send_is_not_logged gm helpful untracked (Some question) untracked alice
           (lit "ci2") Hguard Hsid Hu Hcreate).
Defined.

(** X7 at a question typed into the field. *)
Lemma field_send_clears_input_witness :
  rejects typed None = false /\
  input (store (snd (exec helpful (handleSendMessage gm typed None) (initial typed)))) = [].
Proof.
  assert (Hguard : rejects typed None = false) by reflexivity.
  split; [exact Hguard|].
  exact (field_send_clears_input gm helpful typed typed Hguard).
Defined.

(** X8 at the first quick action. *)
Lemma quick_action_stays_in_field_witness :
  let action := lit "Use prenegotiated discount prices" in
  (In action quickActions /\ isLoading ready = false) /\
  let run := exec helpful (handleQuickAction gm ready action) (initial ready) in
  input (store (snd run)) = action /\
  exists rest, messages (store (snd run)) = messages ready ++ userMessage_of action :: rest.
Proof.
  intros action.
  assert (Hin : In action quickActions) by (left; reflexivity).
  assert (Hload : isLoading ready = false) by reflexivity.
  split; [auto|].
  exact (quick_action_stays_in_field gm helpful ready ready action Hin Hload).
Defined.

(** X9 at a plain answer. *)
Lemma returned_send_appends_one_answer_witness :
  let t := textToSend_of ready (Some question) in
  let run := exec helpful (handleSendMessage gm ready (Some question)) (initial ready) in
  (rejects ready (Some question) = false /\ fst run = Returned tt) /\
  ((exists m, role m = role_model /\
      messages (store (snd run)) = messages ready ++ [userMessage_of t; m]) \/
   (exists r, follow_up_answer (snd run) = Some (inr r) /\
      first_content (response r) = None /\
      messages (store (snd run)) = messages ready ++ [userMessage_of t])).
Proof.
  intros t run.
  assert (Hguard : rejects ready (Some question) = false) by reflexivity.
  assert (Hret : fst run = Returned tt) by (vm_compute; reflexivity).
  split; [auto|].
  exact (returned_send_appends_one_answer gm helpful ready (Some question) ready
           Hguard Hret).
Defined.

(** X10 at an answer that asks for a search. *)
Lemma search_follows_recognised_call_witness :
  rejects ready (Some question) = false /\
  let t := textToSend_of ready (Some question) in
  let run := exec searching (handleSendMessage gm ready (Some question)) (initial ready) in
  search_trace (snd run) = [] \/
  exists result candidate part fc u answer,
    first_model_answer (snd run) = Some (inr result) /\
    first_candidate result = Some candidate /\
    recognized_call (parts_of_candidate candidate) = Some (part, fc) /\
    user ready = Some u /\
    search_trace (snd run) = [Called (searchRecords (uid u) (fc_args fc)) answer] /\
    forall c1 c2 rest, model_trace (snd run) = c1 :: c2 :: rest ->
      exists systemPrompt searchResult,
        systemPrompt_of searching ready = Some systemPrompt /\
        answer = inr searchResult /\
        call_contents c1 = Some (first_contents ready systemPrompt t) /\
        call_contents c2 =
          Some (first_contents ready systemPrompt t ++
                [{| content_role := role_model; content_parts := [part] |};
                 functionResponse_of (fc_name fc) searchResult]).
Proof.
  assert (Hguard : rejects ready (Some question) = false) by reflexivity.
  split; [exact Hguard|].
  exact (search_follows_recognised_call gm searching ready (Some question) ready Hguard).
Defined.

(** X13 at a reset of [ready]. *)
Lemma send_after_reset_starts_afresh_witness :
  (user ready = Some alice /\
   respond helpful (initializeChatSession (uid alice) (currentWorkspace ready)) =
     inr session0) /\
  let r := store (snd (exec helpful (handleResetChat ready) (initial ready))) in
  Forall (fun c =>
            match call_contents c with
            | Some contents =>
                exists rest,
                  contents =
                    [{| content_role := role_user;
                        content_parts := [text_part (fullContext session0)] |};
                     {| content_role := role_user;
                        content_parts := [text_part (or_else (Some question) [])] |}] ++
                    rest /\
                  (rest = [] \/ follow_up_turns rest)
            | None => True
            end)
    (calls (snd (exec searching (handleSendMessage gm r (Some question)) (initial r)))).
Proof.
  assert (Hu : user ready = Some alice) by reflexivity.
  assert (Hsession : respond helpful
            (initializeChatSession (uid alice) (currentWorkspace ready)) = inr session0)
    by reflexivity.
  split; [auto|].
  exact (send_after_reset_starts_afresh gm helpful searching ready (initial ready) alice
           session0 (Some question) Hu Hsession).
Defined.

(** X14 at a message with two citations of one URI and one without. *)
Lemma rendering_appends_sources_witness :
  let part := text_part (lit "See the contract.") in
  (text part = Some (lit "See the contract.") /\ truthy (lit "See the contract.") = true) /\
  let cited_list := default [] (cited_sources cited) in
  let kept := dedupe_by_uri (List.filter has_uri cited_list) in
  rendered_markdown cited part =
    Some (lit "See the contract." ++
          match kept with
          | [] => []
          | _ :: _ => sources_heading ++ join [10%N] (imap source_entry kept)
          end) /\
  (kept = [] <-> Forall (fun source => has_uri source = false) cited_list).
Proof.
  intros part.
  assert (Ht : text part = Some (lit "See the contract.")) by reflexivity.
  assert (Htruthy : truthy (lit "See the contract.") = true) by reflexivity.
  split; [auto|].
  exact (rendering_appends_sources cited part (lit "See the contract.") Ht Htruthy).
Defined.

(** X15 at an answer that asks for a search. *)
Lemma search_path_drops_citations_witness :
  let run := exec searching (handleSendMessage gm ready (Some question)) (initial ready) in
  (rejects ready (Some question) = false /\ recognized_returned (snd run) = true) /\
  exists added,
    messages (store (snd run)) = messages ready ++ added /\
    Forall (fun m =>
              citationMetadata m = None /\
              forall part t, In part (parts m) -> text part = Some t -> truthy t = true ->
                rendered_markdown m part = Some t) added.
Proof.
  intros run.
  assert (Hguard : rejects ready (Some question) = false) by reflexivity.
  assert (Hrec : recognized_returned (snd run) = true) by (vm_compute; reflexivity).
  split; [auto|].
  exact (search_path_drops_citations gm searching ready (Some question) ready Hguard Hrec).
Defined.

(** X17 at an initialisation of [ready]. *)
Lemma first_send_carries_welcome_witness :
  (user ready = Some alice /\
   serve all_well (collaborator (initializeChatSession (uid alice) (currentWorkspace ready))) =
     inr session0) /\
  let r := state (snd (initializeSession ready all_well (starting ready))) in
  Forall (fun c =>
            match call_contents c with
            | Some contents =>
                exists rest,
                  contents =
                    [{| content_role := role_user;
                        content_parts := [text_part (fullContext session0)] |};
                     {| content_role := role_model;
                        content_parts :=
                          parts (welcomeMessage (currentWorkspace ready) session0) |};
                     {| content_role := role_user;
                        content_parts := [text_part (textToSend_of r (Some question))] |}] ++
                    rest /\
                  (rest = [] \/ follow_up_turns rest)
            | None => True
            end)
    (calls (snd (exec helpful (handleSendMessage gm r (Some question)) (initial r)))).
Proof.
  assert (Hu : user ready = Some alice) by reflexivity.
  assert (Hsession : serve all_well
            (collaborator (initializeChatSession (uid alice) (currentWorkspace ready))) =
            inr session0) by reflexivity.
  split; [auto|].
  exact (first_send_carries_welcome gm all_well helpful ready ready alice session0
           (Some question) Hu Hsession).
Defined.

(** X19 at feedback on the message with index 0. *)
Lemma submit_closes_dialog_when_both_writes_resolve_witness :
  let cl := on_first_message in
  let r := starting cl in
  (truthy (lit "ci1") = true /\
   pendingFeedback cl = Some thumbs_down /\
   pendingMessageIndex cl = Some 0%N) /\
  let log := feedback_log (lit "ci1") cl thumbs_down 0 in
  let save := feedback_save (lit "ci1") cl thumbs_down in
  let run := submitFeedback (Some (lit "ci1")) cl all_well r in
  fst run = Returned tt /\
  ((serve all_well log = inr tt /\ serve all_well save = inr tt /\
    state (snd run) = closed_dialog /\
    invoked (snd run) = invoked r ++ [served log (inr tt); served save (inr tt)] /\
    exists message, notices (snd run) = notices r ++ [toasts_success message None]) \/
   ((exists e, serve all_well log = inl e /\
               invoked (snd run) = invoked r ++ [served log (inl e)]) \/
    (exists e, serve all_well log = inr tt /\ serve all_well save = inl e /\
               invoked (snd run) =
                 invoked r ++ [served log (inr tt); served save (inl e)])) /\
   state (snd run) = state r /\
   notices (snd run) =
     notices r ++ [logs_error (lit "Failed to save feedback:");
                   toasts_error (lit "Failed to save feedback")]).
Proof.
  intros cl r.
  assert (Hsid : truthy (lit "ci1") = true) by reflexivity.
  assert (Hfb : pendingFeedback cl = Some thumbs_down) by reflexivity.
  assert (Hidx : pendingMessageIndex cl = Some 0%N) by reflexivity.
  split; [auto|].
  exact (submit_closes_dialog_when_both_writes_resolve all_well (lit "ci1") cl thumbs_down
           0 r Hsid Hfb Hidx).
Defined.

(** X20 at a feedback store that is down for the first submit. *)
Lemma retried_submit_logs_twice_witness :
  let cl := on_first_message in
  let e := new_Error (lit "unavailable") in
  let log := feedback_log (lit "ci1") cl thumbs_down 0 in
  let save := feedback_save (lit "ci1") cl thumbs_down in
  (truthy (lit "ci1") = true /\
   pendingFeedback cl = Some thumbs_down /\
   pendingMessageIndex cl = Some 0%N /\
   serve store_down log = inr tt /\ serve store_down save = inl e /\
   serve all_well log = inr tt /\ serve all_well save = inr tt) /\
  let first := submitFeedback (Some (lit "ci1")) cl store_down (starting cl) in
  let second := submitFeedback (Some (lit "ci1")) (state (snd first)) all_well (snd first) in
  state (snd first) = cl /\
  state (snd second) = closed_dialog /\
  invoked (snd second) =
    [served log (inr tt); served save (inl e); served log (inr tt); served save (inr tt)].
Proof.
  intros cl e log save.
  assert (Hsid : truthy (lit "ci1") = true) by reflexivity.
  assert (Hfb : pendingFeedback cl = Some thumbs_down) by reflexivity.
  assert (Hidx : pendingMessageIndex cl = Some 0%N) by reflexivity.
  assert (H1 : serve store_down log = inr tt) by reflexivity.
  assert (H2 : serve store_down save = inl e) by reflexivity.
  assert (H3 : serve all_well log = inr tt) by reflexivity.
  assert (H4 : serve all_well save = inr tt) by reflexivity.
  split; [auto 10|].
  exact (retried_submit_logs_twice store_down all_well (lit "ci1") cl thumbs_down 0 e
           Hsid Hfb Hidx H1 H2 H3 H4).
Defined.

(** X21 at a render in which nobody is signed in. *)
Lemma feedback_without_session_cannot_be_submitted_witness :
  let r := starting closed_dialog in
  (truthy_opt (continuousImprovementSessionId signed_out) = false /\
   match user signed_out with
   | Some u =>
       exists e,
         respond helpful (createContinuousImprovementSession (promptKey_of signed_out u)
                            (chatSessionKey signed_out) (uid u)
                            (currentWorkspace signed_out)) = inl e
   | None => True
   end) /\
  let run := exec helpful (handleFeedback signed_out thumbs_up 1) (initial signed_out) in
  exists opened,
    fst run = Returned opened /\
    feedbackDialogOpen (opened closed_dialog) = true /\
    submitFeedback (continuousImprovementSessionId (store (snd run)))
      (opened closed_dialog) all_well r = (Returned tt, r).
Proof.
  intros r.
  assert (Hsid : truthy_opt (continuousImprovementSessionId signed_out) = false)
    by reflexivity.
  assert (Hnone : match user signed_out with
                  | Some u =>
                      exists e,
                        respond helpful
                          (createContinuousImprovementSession (promptKey_of signed_out u)
                             (chatSessionKey signed_out) (uid u)
                             (currentWorkspace signed_out)) = inl e
                  | None => True
                  end) by exact I.
  split; [auto|].
  exact (feedback_without_session_cannot_be_submitted helpful all_well signed_out thumbs_up
           1 signed_out closed_dialog r Hsid Hsid Hnone).
Defined.


(** X23 at an extraction clicked while a question is typed. *)
Lemma structured_extraction_sends_old_input_witness :
  Management.sessionActive desk = true /\
  let run := Management.handleStructuredExtraction gm desk Management.pricing all_well
               (starting desk) in
  fst run = Returned tt /\
  if negb (truthy (trim (Management.input desk))) || Management.isLoading desk then
    invoked (snd run) = [] /\
    state (snd run) = Management.with_input (Management.prompts Management.pricing) desk
  else
    Management.input (state (snd run)) = [] /\
    exists m answer,
      Management.messages (state (snd run)) =
        Management.messages desk ++
        [{| role := role_user; parts := [text_part (Management.input desk)];
            citationMetadata := None |}; m] /\
      invoked (snd run) =
        [served
           (generateContentRequest (Management.the_model gm)
              (List.map (fun msg => {| content_role := role msg;
                                       content_parts := parts msg |})
                 (Management.messages desk) ++
               [{| content_role := role_user;
                   content_parts := [text_part (Management.input desk)] |}])
              [googleSearch])
           answer].
Proof.
  assert (Hactive : Management.sessionActive desk = true) by reflexivity.
  split; [exact Hactive|].
  exact (structured_extraction_sends_old_input gm all_well desk desk Management.pricing
           Hactive).
Defined.

(** X26 at a session started on one file, with the default prompt. *)
Lemma send_after_start_omits_documents_witness :
  let typed := lit "Which invoices are overdue?" in
  let systemPrompt := lit "You analyse property documents." in
  (Management.uploadedFiles desk <> [] /\
   Management.systemPrompt_of all_well desk = Some systemPrompt /\
   truthy (trim typed) = true) /\
  let r := Management.with_input typed
             (state (snd (Management.handleStartSession gm desk all_well (starting desk)))) in
  let start_turn :=
    {| content_role := role_user;
       content_parts :=
         Management.initialMessageParts systemPrompt (Management.uploadedFiles desk) |} in
  let answer :=
    serve all_well
      (Management.start_request gm systemPrompt (Management.uploadedFiles desk)) in
  let contents :=
    [{| content_role := role_user;
        content_parts := [text_part (lit "Initialize document analysis session")] |};
     {| content_role := role_model;
        content_parts := parts (Management.started_turn answer) |};
     {| content_role := role_user; content_parts := [text_part typed] |}] in
  let request :=
    generateContentRequest (Management.the_model gm) contents [googleSearch] in
  invoked (snd (Management.handleSendMessage gm r all_well (starting r))) =
    [served request (serve all_well request)] /\
  ~ In start_turn contents.
Proof.
  intros typed systemPrompt.
  assert (Hfiles : Management.uploadedFiles desk <> []) by discriminate.
  assert (Hprompt : Management.systemPrompt_of all_well desk = Some systemPrompt)
    by reflexivity.
  assert (Htyped : truthy (trim typed) = true) by reflexivity.
  split; [auto|].
  exact (send_after_start_omits_documents gm all_well all_well desk desk typed systemPrompt
           Hfiles Hprompt Htyped).
Defined.
